(** * keboola/esignature: the multi-signature signing pipeline

    A shallow embedding of [signer.py] (and of the preview geometry of
    [app.py]) together with the properties its specification states.

    Conventions of the embedding.
    - A Python [str] is the list of its Unicode code points ([str]);
      literals are written [u "..."], the UTF-8 decoding of the literal.
    - In the model of the pipeline the coordinates are rationals ([Q]):
      it says which expression a stage computes, not how the expression
      rounds.  The expressions whose value depends on the rounding are
      evaluated in binary64, as Python does, in the module [B64].  Page
      indices and counters are [Z].
    - A Python exception is a value of [exn]; a computation that may raise
      returns [result].
    - PyMuPDF ([fitz]), pyHanko and the clock are external: their parsing,
      serialisation and cryptography are the fields of a [Backend]; the page
      content they build is modelled as the list of drawing commands issued. *)

From Stdlib Require Import QArith Qround Ascii String.
From Stdlib Require PrimFloat FloatOps SpecFloat.

Set Warnings "-inexact-float".
From stdpp Require Import base list strings pretty sorting.

Local Open Scope Z_scope.

(** ** Python strings *)

Module PyStr.

Definition str := list N.

(** UTF-8 decoding of a literal, one code point per character. *)
Fixpoint utf8 (bs : list N) : str :=
  match bs with
  | [] => []
  | b :: r1 =>
    if (b <? 128)%N then b :: utf8 r1
    else match r1 with
    | [] => [b]
    | c1 :: r2 =>
      if (b <? 224)%N then
        (N.land b 31 * 64 + N.land c1 63)%N :: utf8 r2
      else match r2 with
      | [] => [b]
      | c2 :: r3 =>
        if (b <? 240)%N then
          (N.land b 15 * 4096 + N.land c1 63 * 64 + N.land c2 63)%N :: utf8 r3
        else match r3 with
        | [] => [b]
        | c3 :: r4 =>
          (N.land b 7 * 262144 + N.land c1 63 * 4096
           + N.land c2 63 * 64 + N.land c3 63)%N :: utf8 r4
        end
      end
    end
  end.

Definition bytes_of (s : string) : list N :=
  map N_of_ascii (String.list_ascii_of_string s).

Definition u (s : string) : str := utf8 (bytes_of s).

(** [str(n)] for a Python int. *)
Definition str_of_Z (z : Z) : str := bytes_of (pretty z).

(** *** Character classes, exact for code points up to U+017F
    (ASCII, Latin-1 Supplement, Latin Extended-A); code points above are
    treated as caseless non-letters. *)

Definition in_range (lo hi c : N) : bool := ((lo <=? c) && (c <=? hi))%N.

(** [str.isspace] on one code point: the full list of Unicode whitespace. *)
Definition isspace (c : N) : bool :=
  in_range 9 13 c || in_range 28 32 c || (c =? 133)%N || (c =? 160)%N
  || (c =? 5760)%N || in_range 8192 8202 c || (c =? 8232)%N || (c =? 8233)%N
  || (c =? 8239)%N || (c =? 8287)%N || (c =? 12288)%N.

Definition isalpha (c : N) : bool :=
  in_range 65 90 c || in_range 97 122 c
  || (c =? 170)%N || (c =? 181)%N || (c =? 186)%N
  || in_range 192 214 c || in_range 216 246 c || in_range 248 383 c.

(** The upper-case member of a case pair of Latin Extended-A sits on an even
    code point in U+0100..U+0137 and U+014A..U+0177, on an odd one in
    U+0139..U+0148 and U+0179..U+017E. *)
Definition exta_pair_upper (c : N) : bool :=
  ((in_range 256 303 c || in_range 306 311 c || in_range 330 375 c) && N.even c)
  || ((in_range 313 327 c || in_range 377 381 c) && N.odd c).

Definition exta_pair_lower (c : N) : bool :=
  ((in_range 257 303 c || in_range 307 311 c || in_range 331 375 c) && N.odd c)
  || ((in_range 314 328 c || in_range 378 382 c) && N.even c).

(** [chr(c).lower()] *)
Definition lower_cp (c : N) : str :=
  if in_range 65 90 c then [c + 32]%N
  else if in_range 192 214 c || in_range 216 222 c then [c + 32]%N
  else if (c =? 304)%N then [105; 775]%N
  else if (c =? 376)%N then [255]%N
  else if exta_pair_upper c then [c + 1]%N
  else [c].

(** [chr(c).upper()] *)
Definition upper_cp (c : N) : str :=
  if in_range 97 122 c then [c - 32]%N
  else if (c =? 181)%N then [924]%N
  else if (c =? 223)%N then [83; 83]%N
  else if in_range 224 246 c || in_range 248 254 c then [c - 32]%N
  else if (c =? 255)%N then [376]%N
  else if (c =? 305)%N then [73]%N
  else if (c =? 329)%N then [700; 78]%N
  else if (c =? 383)%N then [83]%N
  else if exta_pair_lower c then [c - 1]%N
  else [c].

(** [s.lower()] *)
Definition lower (s : str) : str := concat (map lower_cp s).

(** [s.upper()] *)
Definition upper (s : str) : str := concat (map upper_cp s).

Definition str_eqb (a b : str) : bool := bool_decide (a = b).

(** [s.startswith(p)] *)
Fixpoint startswith (p s : str) : bool :=
  match p, s with
  | [], _ => true
  | _ :: _, [] => false
  | a :: p', b :: s' => (a =? b)%N && startswith p' s'
  end.

(** [s.endswith(p)] *)
Definition endswith (p s : str) : bool := startswith (rev p) (rev s).

(** [s.replace(old, new)] for a non-empty [old]: the occurrences are found
    from the left and do not overlap.  [skip] counts the characters of a
    matched occurrence still to be dropped. *)
Fixpoint replace_go (old new : str) (skip : nat) (s : str) : str :=
  match s with
  | [] => []
  | c :: s' =>
    match skip with
    | S k => replace_go old new k s'
    | O =>
      if startswith old s
      then new ++ replace_go old new (length old - 1) s'
      else c :: replace_go old new O s'
    end
  end.

Definition replace (s old new : str) : str :=
  match old with
  | [] => s
  | _ :: _ => replace_go old new O s
  end.

(** [s.split()]: the maximal runs of non-whitespace characters. [cur] is
    the run being read. *)
Fixpoint split_go (cur : str) (s : str) : list str :=
  match s with
  | [] => match cur with [] => [] | _ :: _ => [cur] end
  | c :: s' =>
    if isspace c
    then match cur with
         | [] => split_go [] s'
         | _ :: _ => cur :: split_go [] s'
         end
    else split_go (cur ++ [c]) s'
  end.

Definition split (s : str) : list str := split_go [] s.

Fixpoint lstrip (s : str) : str :=
  match s with
  | [] => []
  | c :: s' => if isspace c then lstrip s' else s
  end.

(** [s.strip()] *)
Definition strip (s : str) : str := rev (lstrip (rev (lstrip s))).

(** [sep.join(parts)] *)
Fixpoint join (sep : str) (parts : list str) : str :=
  match parts with
  | [] => []
  | [p] => p
  | p :: rest => p ++ sep ++ join sep rest
  end.

End PyStr.
Import PyStr.

(** ** [signer.py]: initials and text normalisation *)

Definition titles : list str :=
  map u ["ing."; "mgr."; "bc."; "mudr."; "judr."; "phdr."; "rndr.";
         "doc."; "prof."; "ph.d."; "csc."; "drsc."; "mba"; "dis."]%string.

Definition strip_titles (name_lower : str) : str :=
  fold_left (fun acc title => replace acc title []) titles name_lower.

(** [w and w[0].isalpha()] *)
Definition starts_alpha (w : str) : bool :=
  match w with
  | [] => false
  | c :: _ => isalpha c
  end.

(** [w[0].upper()] for a non-empty [w]. *)
Definition first_upper (w : str) : str :=
  match w with
  | [] => []
  | c :: _ => upper_cp c
  end.

Definition nonempty (w : str) : bool :=
  match w with [] => false | _ :: _ => true end.

Definition get_initials (name : str) : str :=
  let name_lower := strip_titles (lower name) in
  let words := map strip (filter (fun w => nonempty (strip w) = true) (split name_lower)) in
  let initials := concat (map first_upper (filter (fun w => starts_alpha w = true) words)) in
  if nonempty initials then initials else u "?".

(** [text.replace(orig, repl)] for every entry of the table, in its order. *)
Definition replacements : list (str * str) :=
  map (fun p => (u (fst p), u (snd p)))
    [("á", "a"); ("č", "c"); ("ď", "d"); ("é", "e"); ("ě", "e"); ("í", "i");
     ("ň", "n"); ("ó", "o"); ("ř", "r"); ("š", "s"); ("ť", "t"); ("ú", "u");
     ("ů", "u"); ("ý", "y"); ("ž", "z");
     ("Á", "A"); ("Č", "C"); ("Ď", "D"); ("É", "E"); ("Ě", "E"); ("Í", "I");
     ("Ň", "N"); ("Ó", "O"); ("Ř", "R"); ("Š", "S"); ("Ť", "T"); ("Ú", "U");
     ("Ů", "U"); ("Ý", "Y"); ("Ž", "Z")]%string.

Definition normalize_text (text : str) : str :=
  fold_left (fun acc p => replace acc (fst p) (snd p)) replacements text.

(** ** Exceptions *)

Inductive exc_class :=
  ValueError | KeyError | IndexError | ZeroDivisionError | OverflowError | LibraryError.

(** An exception: its class and [str(e)]. *)
Record exn := Exn { exn_class : exc_class; exn_str : str }.

Inductive result (A : Type) :=
| Ok (a : A)
| Raise (e : exn).
Arguments Ok {A} a.
Arguments Raise {A} e.

Definition is_ok {A} (r : result A) : bool :=
  match r with Ok _ => true | Raise _ => false end.

Definition rbind {A B} (r : result A) (k : A -> result B) : result B :=
  match r with
  | Ok a => k a
  | Raise e => Raise e
  end.

(** ** Dates, as [datetime.strftime] prints them *)

Record datetime := {
  dt_year : Z; dt_month : Z; dt_day : Z;
  dt_hour : Z; dt_minute : Z; dt_second : Z;
  dt_tzname : option str   (* [None] for a naive datetime *)
}.

Definition pad2 (n : Z) : str :=
  if n <? 10 then u "0" ++ str_of_Z n else str_of_Z n.

Definition pad4 (n : Z) : str :=
  if n <? 10 then u "000" ++ str_of_Z n
  else if n <? 100 then u "00" ++ str_of_Z n
  else if n <? 1000 then u "0" ++ str_of_Z n
  else str_of_Z n.

(** The directives the program uses: [%d %m %Y %H %M %S %Z]. *)
Definition directive (d : datetime) (c : N) : str :=
  if (c =? 100)%N then pad2 (dt_day d)
  else if (c =? 109)%N then pad2 (dt_month d)
  else if (c =? 89)%N then pad4 (dt_year d)
  else if (c =? 72)%N then pad2 (dt_hour d)
  else if (c =? 77)%N then pad2 (dt_minute d)
  else if (c =? 83)%N then pad2 (dt_second d)
  else if (c =? 90)%N then default [] (dt_tzname d)
  else [37%N; c].

Fixpoint strftime (d : datetime) (fmt : str) : str :=
  match fmt with
  | [] => []
  | c :: rest =>
    if (c =? 37)%N then
      match rest with
      | [] => [c]
      | k :: rest' => directive d k ++ strftime d rest'
      end
    else c :: strftime d rest
  end.

(** [format(n, 'X')]: upper-case hexadecimal without prefix. *)
Definition hex_digit (n : N) : N :=
  if (n <? 10)%N then (48 + n)%N else (55 + n)%N.

Fixpoint hex_go (fuel : nat) (n : N) (acc : str) : str :=
  match fuel with
  | O => acc
  | S f =>
    if (n =? 0)%N then acc
    else hex_go f (n / 16)%N (hex_digit (n mod 16)%N :: acc)
  end.

Definition format_X (z : Z) : str :=
  let n := Z.abs_N z in
  let digits := if (n =? 0)%N then u "0" else hex_go (N.to_nat (N.size n)) n [] in
  if z <? 0 then u "-" ++ digits else digits.

(** ** The PDF document as PyMuPDF presents it *)

Definition color := (Q * Q * Q)%type.

(** The calls made on a [fitz.Page], in the order they are made. *)
Inductive draw_op :=
| DrawRect (x0 y0 x1 y1 : Q) (stroke : color) (fill : color) (width : Q)
| DrawLine (x0 y0 x1 y1 : Q) (width : Q)
| InsertFont (fontname : str) (fontfile : str)
| InsertText (px py : Q) (text : str) (fontsize : Z) (fontname : str)
             (col : option color).

Record page := {
  rect_width : Q;
  rect_height : Q;
  page_ops : list draw_op
}.

(** [doc_rest] stands for everything of the file that is not page content
    (catalog, form fields, signatures, metadata). *)
Record document (R : Type) := {
  pages : list page;
  doc_rest : R
}.
Arguments pages {R} d.
Arguments doc_rest {R} d.

(** [len(doc)] *)
Definition doc_len {R} (d : document R) : Z := Z.of_nat (length (pages d)).

(** [doc.new_page(width=w, height=h)]: the page is inserted after the last
    one (the default [pno=-1]). *)
Definition new_page {R} (d : document R) (w h : Q) : document R :=
  {| pages := pages d ++ [{| rect_width := w; rect_height := h; page_ops := [] |}];
     doc_rest := doc_rest d |}.

(** The position [doc[i]] denotes: [i] must be below the page count, and a
    negative [i] counts from the end. *)
Definition page_index {R} (d : document R) (i : Z) : result nat :=
  if (i <? doc_len d) && (0 <? doc_len d)
  then Ok (Z.to_nat (i mod doc_len d))
  else Raise (Exn IndexError (u "page " ++ str_of_Z i ++ u " not in document")).

(** The calls [ops] made on the page at position [k]. *)
Definition draw_on {R} (d : document R) (k : nat) (ops : list draw_op) : document R :=
  {| pages := alter (fun p => {| rect_width := rect_width p;
                                rect_height := rect_height p;
                                page_ops := page_ops p ++ ops |}) k (pages d);
     doc_rest := doc_rest d |}.

(** The texts written on a page, in order. *)
Definition op_text (o : draw_op) : list str :=
  match o with
  | InsertText _ _ t _ _ _ => [t]
  | _ => []
  end.

Definition texts (ops : list draw_op) : list str := concat (map op_text ops).

(** ** pyHanko values *)

Record SigFieldSpec := {
  sig_field_name : str;
  box : Q * Q * Q * Q;
  on_page : Z
}.

Record PdfSignatureMetadata := {
  field_name : str;
  md_reason : str;
  md_location : str
}.

Record TextStampStyle := {
  stamp_text : str;
  text_box_font_size : Z;
  border_width : Z
}.

Record x509_name := {
  common_name : option str;
  organization_name : option str;
  country_name : option str
}.

Record certificate := {
  subject : x509_name;
  issuer : x509_name;
  not_valid_before : option datetime;
  not_valid_after : option datetime;
  serial_number : Z
}.

(** ** The external libraries *)

Record Backend := {
  buffer : Type;      (* [bytes] holding a PDF file *)
  rest_t : Type;      (* what a parsed file holds besides page content *)
  p12_t : Type;       (* [bytes] holding a PKCS#12 archive *)
  signer_t : Type;    (* [signers.SimpleSigner] *)
  (* fitz.open(stream=..., filetype="pdf") *)
  fitz_open : buffer -> result (document rest_t);
  (* doc.save(output); output.getvalue() *)
  fitz_save : document rest_t -> buffer;
  (* doc.save(output, encryption=AES_256, permissions=, owner_pw=, user_pw=empty) *)
  fitz_save_encrypted : document rest_t -> Z -> str -> result buffer;
  (* page.insert_font(fontname=, fontfile=) *)
  insert_font : str -> str -> result unit;
  FONT_PATH : str;
  PDF_PERM_PRINT : Z;
  PDF_PERM_COPY : Z;
  PDF_PERM_ACCESSIBILITY : Z;
  (* signers.SimpleSigner.load_pkcs12_data(bytes, other_certs=[], passphrase=) *)
  load_pkcs12_data : p12_t -> str -> result signer_t;
  (* signer.signing_cert *)
  signing_cert : signer_t -> result certificate;
  (* PdfSigner(meta, signer, stamp_style, new_field_spec).sign_pdf(
       IncrementalPdfFileWriter(BytesIO(pdf), strict=False), output=out) *)
  pdf_signer_sign :
    signer_t -> PdfSignatureMetadata -> TextStampStyle -> SigFieldSpec ->
    buffer -> result buffer;
  (* datetime.now(), time.daylight, time.tzname, secrets.token_hex(16) *)
  now : datetime;
  time_daylight : bool;
  time_tzname : str * str;
  token_hex_16 : str
}.

(** ** [signer.py]: constants and records *)

Definition SIGNATURE_WIDTH : Q := 150.
Definition SIGNATURE_HEIGHT : Q := 50.
Definition INITIALS_WIDTH : Q := 50.
Definition INITIALS_HEIGHT : Q := 35.

(** One entry of the [signatures] list: a dict with the keys ["page"],
    ["x"], ["y"], ["type"], ["width"], ["height"]; [None] is an absent key. *)
Record placement := {
  p_page : option Z;
  p_x : option Q;
  p_y : option Q;
  p_type : option str;
  p_width : option Q;
  p_height : option Q
}.

(** [sig[key]] *)
Definition getitem {A} (key : string) (v : option A) : result A :=
  match v with
  | Some a => Ok a
  | None => Raise (Exn KeyError (u "'" ++ u key ++ u "'"))
  end.

(** The dict [get_certificate_info] returns. *)
Record cert_info_t := {
  subject_cn : str;
  subject_org : str;
  subject_country : str;
  issuer_cn : str;
  issuer_org : str;
  valid_from : str;
  valid_to : str;
  ci_serial_number : str
}.

Definition black : color := (0, 0, 0)%Q.
Definition white : color := (1, 1, 1)%Q.
Definition helv : str := u "helv".

Notation "'let!' x ':=' r 'in' k" := (rbind r (fun x => k))
  (at level 10, x name, r at level 100, k at level 200).

Section Stages.

Context (B : Backend).

Definition load_signer_from_p12 (p12_bytes : p12_t B) (p12_password : str)
  : result (signer_t B) :=
  match load_pkcs12_data B p12_bytes p12_password with
  | Ok signer => Ok signer
  | Raise e => Raise (Exn ValueError (u "Failed to load P12 certificate: " ++ exn_str e))
  end.

Definition get_signer_name_from_signer (signer : signer_t B) : str :=
  match signing_cert B signer with
  | Ok cert =>
    match common_name (subject cert) with
    | Some cn => if nonempty cn then cn else u "Unknown"
    | None => u "Unknown"
    end
  | Raise _ => u "Unknown"
  end.

Definition get_certificate_info (signer : signer_t B) : cert_info_t :=
  match signing_cert B signer with
  | Ok cert =>
    {| subject_cn := default (u "Unknown") (common_name (subject cert));
       subject_org := default [] (organization_name (subject cert));
       subject_country := default [] (country_name (subject cert));
       issuer_cn := default (u "Unknown") (common_name (issuer cert));
       issuer_org := default [] (organization_name (issuer cert));
       valid_from :=
         match not_valid_before cert with
         | Some d => strftime d (u "%d.%m.%Y %H:%M")
         | None => []
         end;
       valid_to :=
         match not_valid_after cert with
         | Some d => strftime d (u "%d.%m.%Y %H:%M")
         | None => []
         end;
       ci_serial_number :=
         if serial_number cert =? 0 then [] else format_X (serial_number cert) |}
  | Raise _ =>
    {| subject_cn := u "Unknown"; subject_org := []; subject_country := [];
       issuer_cn := u "Unknown"; issuer_org := [];
       valid_from := []; valid_to := []; ci_serial_number := [] |}
  end.

(** [doc[page_num]]: the position of the page and the page. *)
Definition doc_getitem (d : document (rest_t B)) (i : Z) : result (nat * page) :=
  let! k := page_index d i in
  match pages d !! k with
  | Some p => Ok (k, p)
  | None => Raise (Exn IndexError (u "page " ++ str_of_Z i ++ u " not in document"))
  end.

(** The second line of a full mark: the local time with a zone name. *)
Definition date_line : str :=
  let date_str := strip (strftime (now B) (u "%Y-%m-%d %H:%M:%S %Z")) in
  if negb (existsb (fun z => endswith (u z) date_str) ["CET"; "CEST"; "UTC"; "GMT"]%string)
  then
    let tz := if time_daylight B then snd (time_tzname B) else fst (time_tzname B) in
    strftime (now B) (u "%Y-%m-%d %H:%M:%S") ++ u " " ++ tz
  else date_str.

Definition render_signature_appearance
    (pdf_bytes : buffer B) (page_num : Z) (x y width height : Q)
    (signer_name : str) (signature_type : str) (font_path : option str)
  : result (buffer B) :=
  let font_path := default (FONT_PATH B) font_path in
  let! doc := fitz_open B pdf_bytes in
  let! kp := doc_getitem doc page_num in
  let page_height := rect_height (snd kp) in
  let rect_top := (page_height - y - height)%Q in
  let background :=
    [DrawRect x rect_top (x + width)%Q (rect_top + height)%Q black white (1 # 2)] in
  let content :=
    if str_eqb signature_type (u "initials") then
      let initials := normalize_text (get_initials signer_name) in
      let text_x := (x + width / 2)%Q in
      let text_y := (rect_top + height / 2 + 6)%Q in
      [InsertText text_x text_y initials 18 helv (Some black)]
    else
      let '(font_ops, name_font) :=
        match insert_font B (u "dancing") font_path with
        | Ok _ => ([InsertFont (u "dancing") font_path], u "dancing")
        | Raise _ => ([], helv)
        end in
      font_ops ++
      [InsertText (x + 5)%Q (rect_top + 18)%Q signer_name 14 name_font (Some black);
       InsertText (x + 5)%Q (rect_top + 32)%Q date_line 8 helv
                  (Some (3 # 10, 3 # 10, 3 # 10)%Q);
       InsertText (x + 5)%Q (rect_top + 44)%Q (u "github.com/keboola/esignature") 6 helv
                  (Some (1 # 2, 1 # 2, 1 # 2)%Q)] in
  Ok (fitz_save B (draw_on doc (fst kp) (background ++ content))).

Definition create_minimal_stamp_style : TextStampStyle :=
  {| stamp_text := u " "; text_box_font_size := 1; border_width := 0 |}.

(** *** The protocol page

    The page is written top to bottom; a builder state is the calls made so
    far and the current [y_pos]. *)

Definition builder := (list draw_op * Z)%type.

Definition margin : Z := 50.

Definition heading (text : str) (fontsize : Z) (advance : Z) (st : builder) : builder :=
  (fst st ++ [InsertText (inject_Z margin) (inject_Z (snd st)) text fontsize helv None],
   snd st + advance).

Definition rule (st : builder) : builder :=
  (fst st ++ [DrawLine (inject_Z margin) (inject_Z (snd st))
                       (inject_Z (595 - margin)) (inject_Z (snd st)) 1],
   snd st).

Definition skip (n : Z) (st : builder) : builder := (fst st, snd st + n).

(** [for line in lines: page.insert_text((margin + 10, y_pos), line, ...);
    y_pos += 14] *)
Definition body_lines (lines : list str) (st : builder) : builder :=
  fold_left
    (fun st line =>
       (fst st ++ [InsertText (inject_Z (margin + 10)) (inject_Z (snd st)) line 10 helv None],
        snd st + 14))
    lines st.

(** [s.get("type") != "initials"] *)
Definition is_initials (s : placement) : bool :=
  match p_type s with
  | Some t => str_eqb t (u "initials")
  | None => false
  end.

(** [s.get("page", 0) + 1] *)
Definition page_1based (s : placement) : Z := default 0 (p_page s) + 1.

(** [sorted(set(xs))] *)
Definition sorted_set (xs : list Z) : list Z := merge_sort Z.le (remove_dups xs).

Definition signature_lines (signatures_info : list placement) : list str :=
  let full_sigs := filter (fun s => is_initials s = false) signatures_info in
  imap (fun i sig =>
          str_of_Z (Z.of_nat i + 1) ++ u ". Digital signature - page "
          ++ str_of_Z (page_1based sig))
       full_sigs.

Definition initials_lines (signatures_info : list placement) : list str :=
  let initials_sigs := filter (fun s => is_initials s = true) signatures_info in
  match initials_sigs with
  | [] => []
  | _ :: _ =>
    let pages_with_initials := sorted_set (map page_1based initials_sigs) in
    let pages_str := join (u ", ") (map str_of_Z pages_with_initials) in
    [u "Initials - pages: " ++ pages_str]
  end.

Definition cert_lines (cert_info : cert_info_t) : list str :=
  [u "Owner: " ++ normalize_text (subject_cn cert_info)]
  ++ (if nonempty (subject_org cert_info)
      then [u "Organization: " ++ normalize_text (subject_org cert_info)] else [])
  ++ [u "Issuer: " ++ normalize_text (issuer_cn cert_info)]
  ++ (if nonempty (issuer_org cert_info)
      then [u "Issuer Org: " ++ normalize_text (issuer_org cert_info)] else [])
  ++ [u "Valid from: " ++ valid_from cert_info;
      u "Valid until: " ++ valid_to cert_info;
      u "Serial number: " ++ ci_serial_number cert_info].

Definition verification_text : list str :=
  map u ["The digital signature can be verified in Adobe Acrobat Reader";
         "or any other PDF viewer that supports digital signatures.";
         EmptyString;
         "The signature contains:";
         "- Timestamp of signing moment";
         "- Signer identity from certificate";
         "- Cryptographic hash of the document";
         "- Certificate chain for verification"]%string.

Definition protocol_ops (original_page_count : Z) (signatures_info : list placement)
    (cert_info : cert_info_t) (github_url : str) : list draw_op :=
  let st : builder := ([], 50) in
  let st := heading (u "Digital Signature Protocol") 18 40 st in
  let st := skip 25 (rule st) in
  let st := heading (u "Document Information:") 12 18 st in
  let doc_info :=
    [u "Number of pages: " ++ str_of_Z original_page_count;
     u "Signing date: " ++ strftime (now B) (u "%Y-%m-%d %H:%M:%S")] in
  let st := skip 15 (body_lines doc_info st) in
  let st := heading (u "Certificate Used:") 12 18 st in
  let st := skip 15 (body_lines (cert_lines cert_info) st) in
  let st := heading (u "Applied Signatures:") 12 18 st in
  let st := body_lines (signature_lines signatures_info) st in
  let st := skip 20 (body_lines (initials_lines signatures_info) st) in
  let st := heading (u "Signature Verification:") 12 18 st in
  let st := body_lines verification_text st in
  fst st
  ++ [DrawLine (inject_Z margin) (inject_Z (792 - 50))
               (inject_Z (595 - margin)) (inject_Z (792 - 50)) (1 # 2);
      InsertText (inject_Z margin) (inject_Z (792 - 35))
                 (u "Created by Keboola eSignature | " ++ github_url) 8 helv
                 (Some (2 # 5, 2 # 5, 2 # 5)%Q)].

Definition create_protocol_page
    (pdf_bytes : buffer B) (signatures_info : list placement)
    (signer_name : str) (cert_info : cert_info_t) (github_url : option str)
  : result (buffer B) :=
  let github_url := default (u "https://github.com/keboola/esignature") github_url in
  let! doc := fitz_open B pdf_bytes in
  (* page = doc.new_page(width=595, height=842) *)
  let doc := new_page doc 595 842 in
  let page_pos := (length (pages doc) - 1)%nat in
  let original_page_count := doc_len doc - 1 in
  Ok (fitz_save B
        (draw_on doc page_pos
           (protocol_ops original_page_count signatures_info cert_info github_url))).

Definition lock_pdf_for_editing (pdf_bytes : buffer B) : result (buffer B) :=
  let! doc := fitz_open B pdf_bytes in
  let perm := Z.lor (Z.lor (PDF_PERM_PRINT B) (PDF_PERM_COPY B)) (PDF_PERM_ACCESSIBILITY B) in
  let owner_pass := token_hex_16 B in
  fitz_save_encrypted B doc perm owner_pass.

End Stages.

(** ** The pipeline

    The orchestrator calls its stages in sequence.  To state in which order
    it does so, every completed stage call is recorded as an [event], with
    the buffer it consumed and the buffer it returned; a computation of the
    orchestrator carries the events of the calls completed so far and either
    a value or the exception that stopped it. *)

Section Pipeline.

Context (B : Backend).

Inductive event :=
| EvLoadSigner (signer : signer_t B)
| EvProtocolPage (input output : buffer B)
| EvRender (input : buffer B) (page_num : Z) (x y width height : Q)
           (signer_name signature_type : str) (output : buffer B)
| EvSign (input : buffer B) (meta : PdfSignatureMetadata) (style : TextStampStyle)
         (spec : SigFieldSpec) (output : buffer B)
| EvLock (input output : buffer B).

Definition M (A : Type) : Type := (list event * result A)%type.

Definition mret {A} (a : A) : M A := ([], Ok a).

Definition mraise {A} (e : exn) : M A := ([], Raise e).

Definition mbind {A C} (m : M A) (k : A -> M C) : M C :=
  match m with
  | (t, Ok a) => let '(t', r) := k a in (t ++ t', r)
  | (t, Raise e) => (t, Raise e)
  end.

(** A step that is not a stage: it may raise, and leaves no event. *)
Definition lift {A} (r : result A) : M A := ([], r).

(** A stage call: recorded when it returns. *)
Definition stage {A} (r : result A) (ev : A -> event) : M A :=
  match r with
  | Ok a => ([ev a], Ok a)
  | Raise e => ([], Raise e)
  end.

(** [try: m  except Exception as e: h e] *)
Definition try_except {A} (m : M A) (h : exn -> M A) : M A :=
  match m with
  | (t, Ok a) => (t, Ok a)
  | (t, Raise e) => let '(t', r) := h e in (t ++ t', r)
  end.

Notation "'do!' x ':=' m 'in' k" := (mbind m (fun x => k))
  (at level 10, x name, m at level 100, k at level 200).

Definition field_name_of (i : nat) : str :=
  u "Signature_" ++ str_of_Z (Z.of_nat i + 1).

(** [for i, sig in enumerate(signatures)], from index [i] on. *)
Fixpoint sign_loop (signer : signer_t B) (signer_name : str)
    (stamp_style : TextStampStyle) (reason : str)
    (i : nat) (signatures : list placement) (current_pdf : buffer B)
  : M (buffer B) :=
  match signatures with
  | [] => mret current_pdf
  | sig :: later =>
    do! page_number := lift (getitem "page" (p_page sig)) in
    do! x := lift (getitem "x" (p_x sig)) in
    do! y := lift (getitem "y" (p_y sig)) in
    let sig_type := default (u "full") (p_type sig) in
    let '(width, height) :=
      if str_eqb sig_type (u "initials")
      then (default INITIALS_WIDTH (p_width sig), default INITIALS_HEIGHT (p_height sig))
      else (default SIGNATURE_WIDTH (p_width sig), default SIGNATURE_HEIGHT (p_height sig)) in
    (* Step 1: the visual appearance *)
    do! rendered :=
      stage (render_signature_appearance B current_pdf page_number x y width height
               signer_name sig_type None)
            (EvRender current_pdf page_number x y width height signer_name sig_type) in
    (* Step 2: the cryptographic signature *)
    let field_name := field_name_of i in
    let sig_field :=
      {| sig_field_name := field_name;
         box := (x, y, x + width, y + height)%Q;
         on_page := page_number |} in
    let signature_meta :=
      {| field_name := field_name; md_reason := reason; md_location := [] |} in
    do! signed :=
      stage (pdf_signer_sign B signer signature_meta stamp_style sig_field rendered)
            (EvSign rendered signature_meta stamp_style sig_field) in
    sign_loop signer signer_name stamp_style reason (S i) later signed
  end.

Definition sign_pdf_multiple
    (pdf_bytes : buffer B) (p12_bytes : p12_t B) (p12_password : str)
    (signatures : list placement)
    (lock_after_signing add_protocol_page : bool) (reason : str)
  : M (buffer B) :=
  match signatures with
  | [] => mraise (Exn ValueError (u "At least one signature position is required"))
  | _ :: _ =>
    try_except
      (do! signer := stage (load_signer_from_p12 B p12_bytes p12_password) EvLoadSigner in
       let signer_name := get_signer_name_from_signer B signer in
       let cert_info := get_certificate_info B signer in
       do! current_pdf :=
         (if add_protocol_page
          then stage (create_protocol_page B pdf_bytes signatures signer_name cert_info None)
                     (EvProtocolPage pdf_bytes)
          else mret pdf_bytes) in
       let stamp_style := create_minimal_stamp_style in
       do! current_pdf :=
         sign_loop signer signer_name stamp_style reason O signatures current_pdf in
       if lock_after_signing
       then stage (lock_pdf_for_editing B current_pdf) (EvLock current_pdf)
       else mret current_pdf)
      (fun e => mraise (Exn ValueError (u "Failed to sign PDF: " ++ exn_str e)))
  end.

Definition default_reason : str := u "Electronically signed".

(** The legacy entry point.  An argument left out by the caller is [None]
    and takes the default of the signature: [width=150], [height=50],
    [reason="Electronically signed"], [custom_text=None]. *)
Definition sign_pdf
    (pdf_bytes : buffer B) (p12_bytes : p12_t B) (p12_password : str)
    (page_number : Z) (x y : Q) (width height : option Q)
    (reason : option str) (custom_text : option str)
  : M (buffer B) :=
  let width := default 150%Q width in
  let height := default 50%Q height in
  let reason := default default_reason reason in
  sign_pdf_multiple pdf_bytes p12_bytes p12_password
    [{| p_page := Some page_number; p_x := Some x; p_y := Some y;
        p_type := Some (u "full");
        p_width := Some width; p_height := Some height |}]
    false false reason.

(** The outcome and the events of a run. *)
Definition outcome {A} (m : M A) : result A := snd m.
Definition trace {A} (m : M A) : list event := fst m.

End Pipeline.

Arguments mret {B A}.
Arguments mraise {B A}.
Arguments mbind {B A C}.
Arguments lift {B A}.
Arguments stage {B A}.
Arguments try_except {B A}.
Arguments outcome {B A}.
Arguments trace {B A}.
Arguments EvLoadSigner {B}.
Arguments EvProtocolPage {B}.
Arguments EvRender {B}.
Arguments EvSign {B}.
Arguments EvLock {B}.

(** ** [app.py]: the preview boxes *)

Module App.

Definition rgb := (Z * Z * Z)%type.

(** The calls made on the [ImageDraw] of the preview. *)
Inductive pil_op :=
| Rectangle (x0 y0 x1 y1 : Z) (fill : option (Z * Z * Z * Z))
            (outline : option rgb) (width : Z)
| Text (px py : Z) (label : str) (fill : rgb).

Definition SIGNATURE_COLORS (sig_type : str) : rgb :=
  if str_eqb sig_type (u "initials") then (100, 150, 50) else (0, 100, 200).

(** [int(q)]: truncation towards zero. *)
Definition py_int (q : Q) : Z := Z.quot (Qnum q) (Z.pos (Qden q)).

(** [a / b] *)
Definition py_div (a b : Q) : result Q :=
  if Qeq_bool b 0
  then Raise (Exn ZeroDivisionError (u "float division by zero"))
  else Ok (a / b)%Q.

(** The body of the loop of [draw_signature_boxes] for the entry [sig] at
    index [i]. *)
Definition draw_one (img_width img_height : Z) (page_num : Z)
    (page_width_pts page_height_pts : Q) (selected_idx : Z)
    (i : nat) (sig : placement) : result (list pil_op) :=
  let! page := getitem "page" (p_page sig) in
  if negb (page =? page_num) then Ok []
  else
    let sig_type := default (u "full") (p_type sig) in
    let color := SIGNATURE_COLORS sig_type in
    let '(sig_width, sig_height) :=
      if str_eqb sig_type (u "initials")
      then (INITIALS_WIDTH, INITIALS_HEIGHT)
      else (SIGNATURE_WIDTH, SIGNATURE_HEIGHT) in
    let! sx := py_div (inject_Z img_width) page_width_pts in
    let sig_width_px := py_int (sig_width * sx) in
    let! sy := py_div (inject_Z img_height) page_height_pts in
    let sig_height_px := py_int (sig_height * sy) in
    let! x_pts := getitem "x" (p_x sig) in
    let! y_pts := getitem "y" (p_y sig) in
    let! sx' := py_div (inject_Z img_width) page_width_pts in
    let pixel_x := py_int (x_pts * sx') in
    let! sy' := py_div (inject_Z img_height) page_height_pts in
    let pixel_y := py_int ((page_height_pts - y_pts - sig_height) * sy') in
    let is_selected := Z.of_nat i =? selected_idx in
    let border_width := if is_selected then 4 else 2 in
    let '(r, g, b) := color in
    let label :=
      if str_eqb sig_type (u "full")
      then u "#" ++ str_of_Z (Z.of_nat i + 1) else u "I" in
    Ok [Rectangle pixel_x pixel_y (pixel_x + sig_width_px) (pixel_y + sig_height_px)
                  (Some (r, g, b, 60)) None 1;
        Rectangle pixel_x pixel_y (pixel_x + sig_width_px) (pixel_y + sig_height_px)
                  None (Some color) border_width;
        Text (pixel_x + 5) (pixel_y + 5) label color].

Fixpoint draw_loop (img_width img_height : Z) (page_num : Z)
    (page_width_pts page_height_pts : Q) (selected_idx : Z)
    (i : nat) (signatures : list placement) : result (list pil_op) :=
  match signatures with
  | [] => Ok []
  | sig :: later =>
    let! ops := draw_one img_width img_height page_num page_width_pts page_height_pts
                  selected_idx i sig in
    let! ops' := draw_loop img_width img_height page_num page_width_pts page_height_pts
                   selected_idx (S i) later in
    Ok (ops ++ ops')
  end.

(** The drawing calls made on the copy of the page image. [selected_idx]
    defaults to [-1]. *)
Definition draw_signature_boxes (img_width img_height : Z)
    (signatures : list placement) (page_num : Z)
    (page_width_pts page_height_pts : Q) (selected_idx : Z) : result (list pil_op) :=
  draw_loop img_width img_height page_num page_width_pts page_height_pts
    selected_idx O signatures.

(** *** The rest of the preview geometry *)

Definition INITIALS_MARGIN : Q := 20.

Section Preview.

Context (B : Backend).

Definition get_pdf_page_count (pdf_bytes : buffer B) : result Z :=
  let! doc := fitz_open B pdf_bytes in
  Ok (doc_len doc).

End Preview.

(** [offset_x] and [offset_y] default to 0. *)
Definition get_initials_position (corner : str) (page_width page_height : Q)
    (offset_x offset_y : Z) : Q * Q :=
  let margin := INITIALS_MARGIN in
  let x :=
    if str_eqb corner (u "left")
    then (margin + inject_Z offset_x)%Q
    else (page_width - INITIALS_WIDTH - margin + inject_Z offset_x)%Q in
  let y := (margin + inject_Z offset_y)%Q in
  (x, y).

(** *** [main]: what the "Sign PDF" button does

    [signatures] and [initials_pages] are the lists kept in the session
    state; the other arguments are the widgets' values. *)

(** The entry appended for a signature of the session. *)
Definition regular_entry (sig : placement) : result placement :=
  let! page := getitem "page" (p_page sig) in
  let! x := getitem "x" (p_x sig) in
  let! y := getitem "y" (p_y sig) in
  Ok {| p_page := Some page; p_x := Some x; p_y := Some y;
        p_type := Some (default (u "full") (p_type sig));
        p_width := None; p_height := None |}.

Fixpoint regular_entries (signatures : list placement) : result (list placement) :=
  match signatures with
  | [] => Ok []
  | sig :: later =>
    let! e := regular_entry sig in
    let! es := regular_entries later in
    Ok (e :: es)
  end.

Section Button.

Context (B : Backend).

(** The entry appended for a page that gets initials. *)
Definition initials_entry (pdf_bytes : buffer B) (corner : str)
    (offset_x offset_y : Z) (page : Z) : result placement :=
  let! doc := fitz_open B pdf_bytes in
  let! kp := doc_getitem B doc page in
  let pw := rect_width (snd kp) in
  let ph := rect_height (snd kp) in
  let '(init_x, init_y) := get_initials_position corner pw ph offset_x offset_y in
  Ok {| p_page := Some page; p_x := Some init_x; p_y := Some init_y;
        p_type := Some (u "initials");
        p_width := None; p_height := None |}.

Fixpoint initials_entries (pdf_bytes : buffer B) (corner : str)
    (offset_x offset_y : Z) (initials_pages : list Z) : result (list placement) :=
  match initials_pages with
  | [] => Ok []
  | page :: later =>
    let! e := initials_entry pdf_bytes corner offset_x offset_y page in
    let! es := initials_entries pdf_bytes corner offset_x offset_y later in
    Ok (e :: es)
  end.

(** [all_signatures] *)
Definition all_signatures (pdf_bytes : buffer B) (signatures : list placement)
    (initials_pages : list Z) (corner : str) (offset_x offset_y : Z)
  : result (list placement) :=
  let! regular := regular_entries signatures in
  let! initials := initials_entries pdf_bytes corner offset_x offset_y initials_pages in
  Ok (regular ++ initials).

(** [sig_count > 0 or init_count > 0] *)
Definition has_signatures (signatures : list placement) (initials_pages : list Z) : bool :=
  let sig_count := length (filter (fun s => is_initials s = false) signatures) in
  let init_count := length initials_pages in
  (0 <? Z.of_nat sig_count) || (0 <? Z.of_nat init_count).

(** The body of the [try] under the button; an exception is what
    [st.error] then shows. *)
Definition sign_button (pdf_bytes : buffer B) (p12_bytes : p12_t B) (password : str)
    (signatures : list placement) (initials_pages : list Z) (corner : str)
    (offset_x offset_y : Z) (lock_pdf add_protocol : bool) : M B (buffer B) :=
  match all_signatures pdf_bytes signatures initials_pages corner offset_x offset_y with
  | Ok sigs =>
    sign_pdf_multiple B pdf_bytes p12_bytes password sigs lock_pdf add_protocol
      default_reason
  | Raise e => mraise e
  end.

End Button.

End App.

(** ** A reference backend

    A small implementation of the external libraries, on which the pipeline
    can be run: a file is identified with its parsed content, the part of a
    file that is not page content is the list of its signature field names
    and a flag for encryption, an archive is its passphrase and its
    certificate.  Signing adds the field, and refuses a name that exists and
    a page that does not. *)

Module Ref.

Record rest := { sig_fields : list str; encrypted : bool }.

Definition file := document rest.

Definition archive := (str * certificate)%type.

Definition font_file : str := u "fonts/DancingScript-Regular.ttf".

Definition sign (signer : certificate) (meta : PdfSignatureMetadata)
    (style : TextStampStyle) (spec : SigFieldSpec) (f : file) : result file :=
  if bool_decide (sig_field_name spec ∈ sig_fields (doc_rest f))
  then Raise (Exn LibraryError (u "field exists"))
  else if negb ((0 <=? on_page spec) && (on_page spec <? doc_len f))
  then Raise (Exn LibraryError (u "page out of range"))
  else Ok {| pages := pages f;
             doc_rest := {| sig_fields := sig_fields (doc_rest f) ++ [sig_field_name spec];
                            encrypted := encrypted (doc_rest f) |} |}.

Definition backend (font_installed : bool) : Backend :=
  {| buffer := file;
     rest_t := rest;
     p12_t := archive;
     signer_t := certificate;
     fitz_open := fun f => Ok f;
     fitz_save := fun d => d;
     fitz_save_encrypted := fun d _ _ =>
       Ok {| pages := pages d;
             doc_rest := {| sig_fields := sig_fields (doc_rest d); encrypted := true |} |};
     insert_font := fun _ path =>
       if font_installed && str_eqb path font_file then Ok tt
       else Raise (Exn LibraryError (u "cannot open font file"));
     FONT_PATH := font_file;
     PDF_PERM_PRINT := 4;
     PDF_PERM_COPY := 16;
     PDF_PERM_ACCESSIBILITY := 512;
     load_pkcs12_data := fun a pass =>
       if str_eqb (fst a) pass then Ok (snd a)
       else Raise (Exn ValueError (u "Invalid password or PKCS12 data"));
     signing_cert := fun c => Ok c;
     pdf_signer_sign := sign;
     now := {| dt_year := 2024; dt_month := 3; dt_day := 7;
               dt_hour := 9; dt_minute := 5; dt_second := 0; dt_tzname := None |};
     time_daylight := true;
     time_tzname := (u "CET", u "CEST");
     token_hex_16 := u "000102030405060708090a0b0c0d0e0f" |}.

Definition a4 : page := {| rect_width := 595; rect_height := 842; page_ops := [] |}.

(** A file of [n] blank pages without signature fields. *)
Definition blank (n : nat) : file :=
  {| pages := repeat a4 n; doc_rest := {| sig_fields := []; encrypted := false |} |}.

Definition jan : certificate :=
  {| subject := {| common_name := Some (u "Ing. Jan Novák Ph.D.");
                   organization_name := Some (u "Keboola");
                   country_name := Some (u "CZ") |};
     issuer := {| common_name := Some (u "Test CA");
                  organization_name := None; country_name := None |};
     not_valid_before := None; not_valid_after := None;
     serial_number := 48879 |}.

Definition p12 : archive := (u "secret", jan).

Definition at_page (k : Z) (kind : string) (x y : Q) : placement :=
  {| p_page := Some k; p_x := Some x; p_y := Some y; p_type := Some (u kind);
     p_width := None; p_height := None |}.

(** Two pages; a signature on the first, initials on the second. *)
Definition two_marks : list placement :=
  [at_page 0 "full" 400 50; at_page 1 "initials" 20 20].

Definition sample_run (proto lock : bool) : M (backend true) file :=
  sign_pdf_multiple (backend true) (blank 2) p12 (u "secret") two_marks lock proto
    default_reason.

End Ref.

(** ** The statements of the specification *)

(** *** Initials, in the words of the specification: the first alphabetic
    character of each token. *)

Definition token_initial_spec (w : str) : str :=
  match List.find isalpha w with
  | Some c => upper_cp c
  | None => []
  end.

Definition initials_spec (name : str) : str :=
  let tokens := split (strip_titles (lower name)) in
  let letters := concat (map token_initial_spec tokens) in
  match letters with
  | [] => u "?"
  | _ :: _ => letters
  end.

(** Initials as the program derives them: a token contributes its first
    character when that character is alphabetic, and nothing otherwise. *)

Definition token_initial (w : str) : str :=
  match w with
  | [] => []
  | c :: _ => if isalpha c then upper_cp c else []
  end.

Definition initials_of_tokens (name : str) : str :=
  let tokens := split (strip_titles (lower name)) in
  let letters := concat (map token_initial tokens) in
  match letters with
  | [] => u "?"
  | _ :: _ => letters
  end.

(** A string without whitespace. *)
Definition spaceless (w : str) : Prop := Forall (fun c => isspace c = false) w.

(** *** Layout: the sizing table *)

Definition kind_of (sig : placement) : str := default (u "full") (p_type sig).

Definition default_size (kind : str) : Q * Q :=
  if str_eqb kind (u "initials") then (50, 35)%Q else (150, 50)%Q.

(** Width and height of a placement: the override of the request, else the
    default of its kind. *)
Definition resolved_size (sig : placement) : Q * Q :=
  (default (fst (default_size (kind_of sig))) (p_width sig),
   default (snd (default_size (kind_of sig))) (p_height sig)).

(** *** Reading a run *)

Inductive stage_name := SLoad | SProtocol | SRender | SSign | SLock.

Section Reading.

Context {B : Backend}.

Definition stage_of (e : event B) : stage_name :=
  match e with
  | EvLoadSigner _ => SLoad
  | EvProtocolPage _ _ => SProtocol
  | EvRender _ _ _ _ _ _ _ _ _ => SRender
  | EvSign _ _ _ _ _ => SSign
  | EvLock _ _ => SLock
  end.

(** The buffers a stage call consumed and returned; loading the signer
    touches no document. *)
Definition buffers_of (e : event B) : option (buffer B * buffer B) :=
  match e with
  | EvLoadSigner _ => None
  | EvProtocolPage i o => Some (i, o)
  | EvRender i _ _ _ _ _ _ _ o => Some (i, o)
  | EvSign i _ _ _ o => Some (i, o)
  | EvLock i o => Some (i, o)
  end.

(** [flows b t out]: the stage calls of [t] form one line from [b] to
    [out], each consuming the buffer the previous one returned. *)
Fixpoint flows (b : buffer B) (t : list (event B)) (out : buffer B) : Prop :=
  match t with
  | [] => b = out
  | e :: t' =>
    match buffers_of e with
    | None => flows b t' out
    | Some (i, o) => i = b /\ flows o t' out
    end
  end.

(** The signature fields registered, in order. *)
Definition signed_fields (t : list (event B)) : list SigFieldSpec :=
  omap (fun e => match e with EvSign _ _ _ spec _ => Some spec | _ => None end) t.

(** The sizes handed to the renderer, in order. *)
Definition rendered_sizes (t : list (event B)) : list (Q * Q) :=
  omap (fun e => match e with
                 | EvRender _ _ _ _ w h _ _ _ => Some (w, h)
                 | _ => None
                 end) t.

(** The loop, as a relation: what was rendered and signed for the
    placements from index [i] on, starting from [b]. *)
Inductive chain (signer : signer_t B) (signer_name reason : str)
  : nat -> buffer B -> list placement -> list (event B) -> buffer B -> Prop :=
| chain_done (i : nat) (b : buffer B) :
    chain signer signer_name reason i b [] [] b
| chain_step (i : nat) (b : buffer B) (sig : placement) (later : list placement)
    (t : list (event B)) (out : buffer B)
    (page : Z) (x y : Q) (rendered signed : buffer B) :
    p_page sig = Some page -> p_x sig = Some x -> p_y sig = Some y ->
    render_signature_appearance B b page x y
      (fst (resolved_size sig)) (snd (resolved_size sig))
      signer_name (kind_of sig) None = Ok rendered ->
    pdf_signer_sign B signer
      {| field_name := field_name_of i; md_reason := reason; md_location := [] |}
      create_minimal_stamp_style
      {| sig_field_name := field_name_of i;
         box := (x, y, x + fst (resolved_size sig), y + snd (resolved_size sig))%Q;
         on_page := page |}
      rendered = Ok signed ->
    chain signer signer_name reason (S i) signed later t out ->
    chain signer signer_name reason i b (sig :: later)
      (EvRender b page x y (fst (resolved_size sig)) (snd (resolved_size sig))
                signer_name (kind_of sig) rendered
       :: EvSign rendered
            {| field_name := field_name_of i; md_reason := reason; md_location := [] |}
            create_minimal_stamp_style
            {| sig_field_name := field_name_of i;
               box := (x, y, x + fst (resolved_size sig), y + snd (resolved_size sig))%Q;
               on_page := page |}
            signed
       :: t)
      out.

(** The events of a successful run on [signatures]. *)
Definition run_events (pdf_bytes : buffer B) (signer : signer_t B)
    (add_protocol_page lock_after_signing : bool)
    (b0 : buffer B) (body : list (event B)) (bN out : buffer B) : list (event B) :=
  [EvLoadSigner signer]
  ++ (if add_protocol_page then [EvProtocolPage pdf_bytes b0] else [])
  ++ body
  ++ (if lock_after_signing then [EvLock bN out] else []).

End Reading.

(** The stage calls of a successful run on [n] placements, by name. *)
Definition stage_order (add_protocol_page lock_after_signing : bool) (n : nat)
  : list stage_name :=
  [SLoad]
  ++ (if add_protocol_page then [SProtocol] else [])
  ++ concat (repeat [SRender; SSign] n)
  ++ (if lock_after_signing then [SLock] else []).

(** *** Reading the signature fields of a file

    The program never looks into a file for its signature fields; the
    libraries do.  A [FieldView] states what the program relies on: the
    fields of a file are part of what PyMuPDF carries through unchanged, and
    signing adds the field it is given, after the existing ones. *)

Record FieldView (B : Backend) := {
  fields_of : buffer B -> list str;
  rest_fields : rest_t B -> list str;
  open_fields : forall b d,
    fitz_open B b = Ok d -> fields_of b = rest_fields (doc_rest d);
  save_fields : forall d,
    fields_of (fitz_save B d) = rest_fields (doc_rest d);
  lock_fields : forall d perm pw b,
    fitz_save_encrypted B d perm pw = Ok b -> fields_of b = rest_fields (doc_rest d);
  sign_fields : forall signer meta style spec b b',
    pdf_signer_sign B signer meta style spec b = Ok b' ->
    fields_of b' = fields_of b ++ [sig_field_name spec]
}.
Arguments fields_of {B} _ _.
Arguments rest_fields {B} _ _.
Arguments open_fields {B} _ _ _ _.
Arguments save_fields {B} _ _.
Arguments lock_fields {B} _ _ _ _ _ _.
Arguments sign_fields {B} _ _ _ _ _ _ _ _.

(** *** Validation at entry, in the words of the specification: a list with
    a page index that is not below the page count of the document is
    refused before any stage has run. *)


From Stdlib Require Import Lqa.

(** ** More of [signer.py] *)

(** [get_signer_name]: the common name of the archive's certificate. *)
Definition get_signer_name (B : Backend) (p12_bytes : p12_t B) (p12_password : str) : str :=
  match load_signer_from_p12 B p12_bytes p12_password with
  | Ok signer => get_signer_name_from_signer B signer
  | Raise _ => u "Unknown"
  end.

(** *** Reading aids for the statements that follow *)

(** The characters [normalize_text] replaces, with their replacements. *)
Definition replacement_chars : list (N * N) :=
  map (fun p => (hd 0%N (fst p), hd 0%N (snd p))) replacements.

Definition accented : list N := map fst replacement_chars.

(** The value of a string of upper-case hexadecimal digits. *)
Definition hex_digit_value (c : N) : option N :=
  if in_range 48 57 c then Some (c - 48)%N
  else if in_range 65 70 c then Some (c - 55)%N
  else None.

Fixpoint hex_value_go (acc : N) (s : str) : option N :=
  match s with
  | [] => Some acc
  | c :: s' =>
    match hex_digit_value c with
    | Some d => hex_value_go (acc * 16 + d)%N s'
    | None => None
    end
  end.

Definition hex_value (s : str) : option N :=
  match s with
  | [] => None
  | _ :: _ => hex_value_go 0%N s
  end.

(** The vertical positions of the texts written on a page, in order. *)
Definition text_ys (ops : list draw_op) : list Q :=
  omap (fun o => match o with
                 | InsertText _ py _ _ _ _ => Some py
                 | _ => None
                 end) ops.

(** The signing calls of a run, with what was handed to the signer. *)
Definition sign_calls {B : Backend} (t : list (event B))
  : list (PdfSignatureMetadata * TextStampStyle * SigFieldSpec) :=
  omap (fun e => match e with
                 | EvSign _ meta style spec _ => Some (meta, style, spec)
                 | _ => None
                 end) t.

(** The names handed to the renderer, in order. *)
Definition rendered_names {B : Backend} (t : list (event B)) : list str :=
  omap (fun e => match e with
                 | EvRender _ _ _ _ _ _ name _ _ => Some name
                 | _ => None
                 end) t.

(** One character through the replacements of a table, in order. *)
Definition subst_chain (tbl : list (N * N)) (c : N) : N :=
  fold_left (fun c p => if (fst p =? c)%N then snd p else c) tbl c.

Definition normalize_cp (c : N) : N := subst_chain replacement_chars c.

(** *** Every way a run can end *)

(** [sig["page"]], [sig["x"]], [sig["y"]], read in this order. *)
Definition placement_coords (sig : placement) : result (Z * Q * Q) :=
  let! page := getitem "page" (p_page sig) in
  let! x := getitem "x" (p_x sig) in
  let! y := getitem "y" (p_y sig) in
  Ok (page, x, y).

(** What reaches the caller when [cause] is raised inside the [try]. *)
Definition wrap (cause : exn) : exn :=
  Exn ValueError (u "Failed to sign PDF: " ++ exn_str cause).

Section Cases.

Context {B : Backend}.

Definition loop_render (b : buffer B) (signer_name : str) (sig : placement)
    (page : Z) (x y : Q) : result (buffer B) :=
  render_signature_appearance B b page x y
    (fst (resolved_size sig)) (snd (resolved_size sig)) signer_name (kind_of sig) None.

Definition loop_meta (i : nat) (reason : str) : PdfSignatureMetadata :=
  {| field_name := field_name_of i; md_reason := reason; md_location := [] |}.

Definition loop_spec (i : nat) (sig : placement) (page : Z) (x y : Q) : SigFieldSpec :=
  {| sig_field_name := field_name_of i;
     box := (x, y, x + fst (resolved_size sig), y + snd (resolved_size sig))%Q;
     on_page := page |}.

Definition loop_sign (signer : signer_t B) (reason : str) (i : nat) (sig : placement)
    (page : Z) (x y : Q) (rendered : buffer B) : result (buffer B) :=
  pdf_signer_sign B signer (loop_meta i reason) create_minimal_stamp_style
    (loop_spec i sig page x y) rendered.

Definition render_event (b : buffer B) (signer_name : str) (sig : placement)
    (page : Z) (x y : Q) (rendered : buffer B) : event B :=
  EvRender b page x y (fst (resolved_size sig)) (snd (resolved_size sig))
    signer_name (kind_of sig) rendered.

Definition sign_event (reason : str) (i : nat) (sig : placement)
    (page : Z) (x y : Q) (rendered signed : buffer B) : event B :=
  EvSign rendered (loop_meta i reason) create_minimal_stamp_style
    (loop_spec i sig page x y) signed.

(** The loop from index [i] on, whether it completes or stops. *)
Inductive loop_case (signer : signer_t B) (signer_name reason : str)
  : nat -> buffer B -> list placement -> list (event B) -> result (buffer B) -> Prop :=
| loop_completed (i : nat) (b : buffer B) :
    loop_case signer signer_name reason i b [] [] (Ok b)
| loop_key_missing (i : nat) (b : buffer B) (sig : placement) (later : list placement)
    (e : exn) :
    placement_coords sig = Raise e ->
    loop_case signer signer_name reason i b (sig :: later) [] (Raise e)
| loop_render_failed (i : nat) (b : buffer B) (sig : placement) (later : list placement)
    (page : Z) (x y : Q) (e : exn) :
    placement_coords sig = Ok (page, x, y) ->
    loop_render b signer_name sig page x y = Raise e ->
    loop_case signer signer_name reason i b (sig :: later) [] (Raise e)
| loop_sign_failed (i : nat) (b : buffer B) (sig : placement) (later : list placement)
    (page : Z) (x y : Q) (rendered : buffer B) (e : exn) :
    placement_coords sig = Ok (page, x, y) ->
    loop_render b signer_name sig page x y = Ok rendered ->
    loop_sign signer reason i sig page x y rendered = Raise e ->
    loop_case signer signer_name reason i b (sig :: later)
      [render_event b signer_name sig page x y rendered] (Raise e)
| loop_next (i : nat) (b : buffer B) (sig : placement) (later : list placement)
    (page : Z) (x y : Q) (rendered signed : buffer B)
    (t : list (event B)) (r : result (buffer B)) :
    placement_coords sig = Ok (page, x, y) ->
    loop_render b signer_name sig page x y = Ok rendered ->
    loop_sign signer reason i sig page x y rendered = Ok signed ->
    loop_case signer signer_name reason (S i) signed later t r ->
    loop_case signer signer_name reason i b (sig :: later)
      (render_event b signer_name sig page x y rendered
       :: sign_event reason i sig page x y rendered signed :: t) r.

(** A run of [sign_pdf_multiple], by where it ends. *)
Inductive run_case (pdf_bytes : buffer B) (p12_bytes : p12_t B) (p12_password : str)
    (sigs : list placement) (lock proto : bool) (reason : str)
  : M B (buffer B) -> Prop :=
| run_refused :
    sigs = [] ->
    run_case pdf_bytes p12_bytes p12_password sigs lock proto reason
      ([], Raise (Exn ValueError (u "At least one signature position is required")))
| run_load_failed (e : exn) :
    sigs <> [] ->
    load_signer_from_p12 B p12_bytes p12_password = Raise e ->
    run_case pdf_bytes p12_bytes p12_password sigs lock proto reason
      ([], Raise (wrap e))
| run_protocol_failed (signer : signer_t B) (e : exn) :
    sigs <> [] ->
    load_signer_from_p12 B p12_bytes p12_password = Ok signer ->
    proto = true ->
    create_protocol_page B pdf_bytes sigs (get_signer_name_from_signer B signer)
      (get_certificate_info B signer) None = Raise e ->
    run_case pdf_bytes p12_bytes p12_password sigs lock proto reason
      ([EvLoadSigner signer], Raise (wrap e))
| run_loop_failed (signer : signer_t B) (b0 : buffer B) (body : list (event B)) (e : exn) :
    sigs <> [] ->
    load_signer_from_p12 B p12_bytes p12_password = Ok signer ->
    (if proto
     then create_protocol_page B pdf_bytes sigs (get_signer_name_from_signer B signer)
            (get_certificate_info B signer) None = Ok b0
     else b0 = pdf_bytes) ->
    loop_case signer (get_signer_name_from_signer B signer) reason 0 b0 sigs body (Raise e) ->
    run_case pdf_bytes p12_bytes p12_password sigs lock proto reason
      ([EvLoadSigner signer]
       ++ (if proto then [EvProtocolPage pdf_bytes b0] else []) ++ body,
       Raise (wrap e))
| run_lock_failed (signer : signer_t B) (b0 : buffer B) (body : list (event B))
    (bN : buffer B) (e : exn) :
    sigs <> [] ->
    load_signer_from_p12 B p12_bytes p12_password = Ok signer ->
    (if proto
     then create_protocol_page B pdf_bytes sigs (get_signer_name_from_signer B signer)
            (get_certificate_info B signer) None = Ok b0
     else b0 = pdf_bytes) ->
    loop_case signer (get_signer_name_from_signer B signer) reason 0 b0 sigs body (Ok bN) ->
    lock = true ->
    lock_pdf_for_editing B bN = Raise e ->
    run_case pdf_bytes p12_bytes p12_password sigs lock proto reason
      ([EvLoadSigner signer]
       ++ (if proto then [EvProtocolPage pdf_bytes b0] else []) ++ body,
       Raise (wrap e))
| run_returned (signer : signer_t B) (b0 : buffer B) (body : list (event B))
    (bN out : buffer B) :
    sigs <> [] ->
    load_signer_from_p12 B p12_bytes p12_password = Ok signer ->
    (if proto
     then create_protocol_page B pdf_bytes sigs (get_signer_name_from_signer B signer)
            (get_certificate_info B signer) None = Ok b0
     else b0 = pdf_bytes) ->
    loop_case signer (get_signer_name_from_signer B signer) reason 0 b0 sigs body (Ok bN) ->
    (if lock then lock_pdf_for_editing B bN = Ok out else out = bN) ->
    run_case pdf_bytes p12_bytes p12_password sigs lock proto reason
      (run_events pdf_bytes signer proto lock b0 body bN out, Ok out).

End Cases.

(** A placement without one of the keys the loop reads. *)
Definition lacks_key (sig : placement) : Prop :=
  p_page sig = None \/ p_x sig = None \/ p_y sig = None.

(** What the signer is handed for a placement. *)
Definition call_matches (reason : str) (sig : placement)
    (call : PdfSignatureMetadata * TextStampStyle * SigFieldSpec) : Prop :=
  let '(meta, style, spec) := call in
  exists (page : Z) (x y : Q),
    placement_coords sig = Ok (page, x, y)
    /\ on_page spec = page
    /\ box spec = (x, y, x + fst (resolved_size sig), y + snd (resolved_size sig))%Q
    /\ field_name meta = sig_field_name spec
    /\ md_reason meta = reason
    /\ md_location meta = []
    /\ style = create_minimal_stamp_style.

(** The texts of a mark, by kind. *)
Definition mark_texts (B : Backend) (signer_name kind : str) : list str :=
  if str_eqb kind (u "initials")
  then [normalize_text (get_initials signer_name)]
  else [signer_name; date_line B; u "github.com/keboola/esignature"].

(** The zone names after which [date_line] adds nothing. *)
Definition known_zones : list str := map u ["CET"; "CEST"; "UTC"; "GMT"]%string.

(** [n] rows of body text from [y] down, 14 points apart. *)
Definition rows (y : Z) (n : nat) : list Z :=
  map (fun k => y + 14 * Z.of_nat k) (seq 0 n).

(** The vertical positions of the texts of the protocol page above the
    footer, for [c] certificate lines, [s] signature lines and [i] lines of
    initials. *)
Definition protocol_rows (c s i : nat) : list Z :=
  let n := Z.of_nat c + Z.of_nat s + Z.of_nat i in
  [50; 115] ++ rows 133 2 ++ [176] ++ rows 194 c
  ++ [209 + 14 * Z.of_nat c] ++ rows (227 + 14 * Z.of_nat c) s
  ++ rows (227 + 14 * (Z.of_nat c + Z.of_nat s)) i
  ++ [247 + 14 * n] ++ rows (265 + 14 * n) 8.

(** A builder state whose texts so far stand at [ys] and whose [y_pos]
    is [y]. *)
Definition tracks (st : builder) (ys : list Z) (y : Z) : Prop :=
  text_ys (fst st) = map inject_Z ys /\ snd st = y.

(** [below l m]: [l] increases strictly and stays under [m]. *)
Definition below (l : list Z) (m : Z) : Prop :=
  StronglySorted Z.lt l /\ Forall (fun y => y < m) l.


(** A placement with the three keys the loops read. *)
Definition has_coords (sig : placement) : Prop :=
  is_Some (p_page sig) /\ is_Some (p_x sig) /\ is_Some (p_y sig).


(** What the button puts in a placement: page, x, y and type, and no size. *)
Definition button_entry (sig : placement) : Prop :=
  has_coords sig /\ is_Some (p_type sig) /\ p_width sig = None /\ p_height sig = None.

(** The entry the button appends for initials on page [pg_num]. *)
Definition initials_at (B : Backend) (pdf_bytes : buffer B) (corner : str) (ox oy : Z)
    (pg_num : Z) (e : placement) : Prop :=
  button_entry e /\ p_page e = Some pg_num /\ kind_of e = u "initials"
  /\ exists doc k pg,
       fitz_open B pdf_bytes = Ok doc
       /\ doc_getitem B doc pg_num = Ok (k, pg)
       /\ pg_num < doc_len doc
       /\ p_x e = Some (fst (App.get_initials_position corner (rect_width pg)
                               (rect_height pg) ox oy))
       /\ p_y e = Some (snd (App.get_initials_position corner (rect_width pg)
                               (rect_height pg) ox oy)).

(** An upper-case hexadecimal digit. *)
Definition is_hex_upper (c : N) : bool := in_range 48 57 c || in_range 65 70 c.


(** ** The geometry in binary64

    Python computes the coordinates in binary64.  The definitions of this
    module evaluate the expressions of [signer.py] and [app.py] as Python
    does, on the kernel's binary64 numbers: a statement that depends on how
    an expression rounds is a statement about them.  A coordinate that the
    program holds as an [int] is given here as the float it converts to. *)

Module B64.

Import PrimFloat FloatOps SpecFloat.

(** [float(z)] for an int [z]: the nearest binary64, ties to even. *)
Definition float_of_int (z : Z) : result float :=
  let f := SF2Prim (binary_normalize prec emax z 0 false) in
  if is_infinity f
  then Raise (Exn OverflowError (u "int too large to convert to float"))
  else Ok f.

(** [int(f)]: truncation towards zero. *)
Definition py_int (f : float) : result Z :=
  match Prim2SF f with
  | S754_zero _ => Ok 0
  | S754_finite s m e =>
    let magnitude := if 0 <=? e then Z.pos m * 2 ^ e else Z.pos m / 2 ^ (- e) in
    Ok (if s then - magnitude else magnitude)
  | S754_infinity _ =>
    Raise (Exn OverflowError (u "cannot convert float infinity to integer"))
  | S754_nan => Raise (Exn ValueError (u "cannot convert float NaN to integer"))
  end.

(** [a / b] *)
Definition py_div (a b : float) : result float :=
  if (b =? 0)%float
  then Raise (Exn ZeroDivisionError (u "float division by zero"))
  else Ok (a / b)%float.

Definition SIGNATURE_WIDTH : float := 150.
Definition SIGNATURE_HEIGHT : float := 50.
Definition INITIALS_WIDTH : float := 50.
Definition INITIALS_HEIGHT : float := 35.

(** *** [signer.py]: the rectangle of the mark and the box of the field *)

(** [rect_top = page_height - y - height] *)
Definition rect_top (page_height y height : float) : float :=
  (page_height - y - height)%float.

(** [fitz.Rect(x, rect_top, x + width, rect_top + height)] *)
Definition mark_rect (page_height x y width height : float)
  : float * float * float * float :=
  let rect_top := rect_top page_height y height in
  (x, rect_top, x + width, rect_top + height)%float.

(** [box=(x, y, x + width, y + height)] *)
Definition field_box (x y width height : float) : float * float * float * float :=
  (x, y, x + width, y + height)%float.

(** Width and height of a box [(x0, y0, x1, y1)]. *)
Definition box_width (b : float * float * float * float) : float :=
  let '(x0, _, x1, _) := b in (x1 - x0)%float.

Definition box_height (b : float * float * float * float) : float :=
  let '(_, y0, _, y1) := b in (y1 - y0)%float.

(** *** [app.py]: the boxes of the preview *)

(** An entry of the list of signatures: the keys [draw_signature_boxes]
    reads. *)
Record entry := {
  e_page : option Z;
  e_x : option float;
  e_y : option float;
  e_type : option str
}.

(** The body of the loop of [draw_signature_boxes] for the entry [sig] at
    index [i]. *)
Definition draw_one (img_width img_height : Z) (page_num : Z)
    (page_width_pts page_height_pts : float) (selected_idx : Z)
    (i : nat) (sig : entry) : result (list App.pil_op) :=
  let! page := getitem "page" (e_page sig) in
  if negb (page =? page_num) then Ok []
  else
    let sig_type := default (u "full") (e_type sig) in
    let color := App.SIGNATURE_COLORS sig_type in
    let '(sig_width, sig_height) :=
      if str_eqb sig_type (u "initials")
      then (INITIALS_WIDTH, INITIALS_HEIGHT)
      else (SIGNATURE_WIDTH, SIGNATURE_HEIGHT) in
    let! w := float_of_int img_width in
    let! sx := py_div w page_width_pts in
    let! sig_width_px := py_int (sig_width * sx) in
    let! h := float_of_int img_height in
    let! sy := py_div h page_height_pts in
    let! sig_height_px := py_int (sig_height * sy) in
    let! x_pts := getitem "x" (e_x sig) in
    let! y_pts := getitem "y" (e_y sig) in
    let! w' := float_of_int img_width in
    let! sx' := py_div w' page_width_pts in
    let! pixel_x := py_int (x_pts * sx') in
    let! h' := float_of_int img_height in
    let! sy' := py_div h' page_height_pts in
    let! pixel_y := py_int ((page_height_pts - y_pts - sig_height) * sy') in
    let is_selected := Z.of_nat i =? selected_idx in
    let border_width := if is_selected then 4 else 2 in
    let '(r, g, b) := color in
    let label :=
      if str_eqb sig_type (u "full")
      then u "#" ++ str_of_Z (Z.of_nat i + 1) else u "I" in
    Ok [App.Rectangle pixel_x pixel_y (pixel_x + sig_width_px) (pixel_y + sig_height_px)
                      (Some (r, g, b, 60)) None 1;
        App.Rectangle pixel_x pixel_y (pixel_x + sig_width_px) (pixel_y + sig_height_px)
                      None (Some color) border_width;
        App.Text (pixel_x + 5) (pixel_y + 5) label color].

Fixpoint draw_loop (img_width img_height : Z) (page_num : Z)
    (page_width_pts page_height_pts : float) (selected_idx : Z)
    (i : nat) (signatures : list entry) : result (list App.pil_op) :=
  match signatures with
  | [] => Ok []
  | sig :: later =>
    let! ops := draw_one img_width img_height page_num page_width_pts page_height_pts
                  selected_idx i sig in
    let! ops' := draw_loop img_width img_height page_num page_width_pts page_height_pts
                   selected_idx (S i) later in
    Ok (ops ++ ops')
  end.

(** The drawing calls made on the copy of the page image. *)
Definition draw_signature_boxes (img_width img_height : Z)
    (signatures : list entry) (page_num : Z)
    (page_width_pts page_height_pts : float) (selected_idx : Z)
  : result (list App.pil_op) :=
  draw_loop img_width img_height page_num page_width_pts page_height_pts
    selected_idx O signatures.

(** *** [app.py]: the corner position of initials *)

(** A Python number: an [int] or a [float]. *)
Inductive num := Int (z : Z) | Float (f : float).

(** [get_initials_position]: in the left corner [x] is a sum of ints, in
    the other corner it is computed from the page width, a float; [y] is a
    sum of ints. *)
Definition get_initials_position (corner : str) (page_width page_height : float)
    (offset_x offset_y : Z) : result (num * Z) :=
  let margin := 20 in
  let! x :=
    (if str_eqb corner (u "left")
     then Ok (Int (margin + offset_x))
     else
       let! dx := float_of_int offset_x in
       Ok (Float (page_width - 50 - 20 + dx)%float)) in
  let y := margin + offset_y in
  Ok (x, y).

(** *** Reading the preview *)

(** [sig["page"] == page_num] *)
Definition on_page (page_num : Z) (sig : entry) : bool :=
  match e_page sig with
  | Some page => page =? page_num
  | None => false
  end.

(** The height [draw_signature_boxes] gives the box of an entry. *)
Definition entry_height (sig : entry) : float :=
  if str_eqb (default (u "full") (e_type sig)) (u "initials")
  then INITIALS_HEIGHT else SIGNATURE_HEIGHT.

(** The pixel row of the top edge of a box:
    [int((page_height_pts - y_pts - sig_height) * (img.height / page_height_pts))]. *)
Definition top_pixel (img_height : Z) (page_height_pts y_pts sig_height : float)
  : result Z :=
  let! h := float_of_int img_height in
  let! sy := py_div h page_height_pts in
  py_int (rect_top page_height_pts y_pts sig_height * sy).

(** The row at which a drawing call of the preview starts: the label is
    written 5 pixels below the top edge of its box. *)
Definition starts_at (top : Z) (op : App.pil_op) : Prop :=
  match op with
  | App.Rectangle _ y0 _ _ _ _ _ => y0 = top
  | App.Text _ ty _ _ => ty = top + 5
  end.

(** The integers [lo, lo + 1, ..., lo + n - 1] as floats. *)
Definition grid (lo : Z) (n : nat) : list float :=
  omap (fun k => match float_of_int (lo + Z.of_nat k) with
                 | Ok f => Some f
                 | Raise _ => None
                 end) (seq 0 n).

(** Converting to the top-left origin and back gives [y] again. *)
Definition round_trip (page_height height y : float) : bool :=
  (rect_top page_height (rect_top page_height y height) height =? y)%float.

End B64.

(** The conversion of the origin as the specification writes it, a map on
    exact numbers; the program evaluates it in binary64 ([B64.rect_top]). *)
Definition top_exact (page_height y height : Q) : Q := (page_height - y - height)%Q.

(** *** The failure on credentials, in the words of the specification

    A typed failure: the pipeline has a class of exception that it raises
    when the archive cannot be loaded and for no other failure. *)

Definition credential_failure_typed (B : Backend) : Prop :=
  exists cls : exc_class,
    (forall (pdf_bytes : buffer B) (p12_bytes : p12_t B) (p12_password : str)
            (signatures : list placement) (lock proto : bool) (reason : str) (cause : exn),
       signatures <> [] ->
       load_pkcs12_data B p12_bytes p12_password = Raise cause ->
       exists e,
         outcome (sign_pdf_multiple B pdf_bytes p12_bytes p12_password signatures
                    lock proto reason) = Raise e
         /\ exn_class e = cls)
    /\ (forall (pdf_bytes : buffer B) (p12_bytes : p12_t B) (p12_password : str)
               (signatures : list placement) (lock proto : bool) (reason : str)
               (signer : signer_t B) (e : exn),
          load_pkcs12_data B p12_bytes p12_password = Ok signer ->
          outcome (sign_pdf_multiple B pdf_bytes p12_bytes p12_password signatures
                     lock proto reason) = Raise e ->
          exn_class e <> cls).

(** *** Names within the character tables

    [isspace], [isalpha], [lower_cp] and [upper_cp] are the tables of
    Unicode up to U+017F (Basic Latin, Latin-1 Supplement, Latin
    Extended-A). *)

Definition tabled (name : str) : Prop := Forall (fun c => (c <= 383)%N) name.

(** *** The mark drawn and the field registered for a placement

    [mark_and_field B signer_name reason i sig r s]: [r] is the call of the
    renderer and [s] the call of the signer for the placement [sig] at index
    [i].  The renderer was handed the width and height resolved for the
    placement and returned its input with, on the page of the placement, a
    rectangle from [x] to [x + width] and from the top edge down by
    [height], followed by the content of the mark; the signer was handed
    that document and the field with the box
    [(x, y, x + width, y + height)]. *)

Definition mark_and_field (B : Backend) (signer_name reason : str)
    (i : nat) (sig : placement) (r s : event B) : Prop :=
  exists (b rendered signed : buffer B) (doc : document (rest_t B))
         (k : nat) (pg : page) (content : list draw_op) (page_number : Z) (x y : Q),
    let width := fst (resolved_size sig) in
    let height := snd (resolved_size sig) in
    let top := (rect_height pg - y - height)%Q in
    p_page sig = Some page_number /\ p_x sig = Some x /\ p_y sig = Some y
    /\ r = EvRender b page_number x y width height signer_name (kind_of sig) rendered
    /\ fitz_open B b = Ok doc
    /\ doc_getitem B doc page_number = Ok (k, pg)
    /\ rendered
       = fitz_save B
           (draw_on doc k
              (DrawRect x top (x + width)%Q (top + height)%Q black white (1 # 2)
               :: content))
    /\ s = EvSign rendered
             {| field_name := field_name_of i; md_reason := reason; md_location := [] |}
             create_minimal_stamp_style
             {| sig_field_name := field_name_of i;
                box := (x, y, x + width, y + height)%Q;
                on_page := page_number |}
             signed.

(** The calls of the loop, two for each placement from index [i] on. *)
Fixpoint marks_and_fields (B : Backend) (signer_name reason : str)
    (i : nat) (sigs : list placement) (t : list (event B)) : Prop :=
  match sigs, t with
  | [], [] => True
  | sig :: later, r :: s :: t' =>
    mark_and_field B signer_name reason i sig r s
    /\ marks_and_fields B signer_name reason (S i) later t'
  | _, _ => False
  end.
(** *** Lemmas on strings *)

Lemma split_go_tokens (s cur : str) :
  spaceless cur ->
  Forall (fun w => w <> [] /\ spaceless w) (split_go cur s).
Proof.
  revert cur. induction s as [|c s IH]; intros cur Hcur; simpl.
  - destruct cur; constructor; [split; [discriminate | assumption] | constructor].
  - destruct (isspace c) eqn:Hc.
    + destruct cur as [|a cur'].
      * apply IH. constructor.
      * constructor; [split; [discriminate | assumption] |].
        apply IH. constructor.
    + apply IH. apply Forall_app. split; [assumption |].
      constructor; [assumption | constructor].
Qed.

Lemma split_tokens (s : str) :
  Forall (fun w => w <> [] /\ spaceless w) (split s).
Proof. apply split_go_tokens. constructor. Qed.

Lemma lstrip_spaceless (w : str) : spaceless w -> lstrip w = w.
Proof.
  intros H. destruct H as [|c w Hc Hw]; simpl; [reflexivity |].
  rewrite Hc. reflexivity.
Qed.

Lemma strip_spaceless (w : str) : spaceless w -> strip w = w.
Proof.
  intros H. unfold strip.
  rewrite (lstrip_spaceless w H).
  rewrite lstrip_spaceless.
  - apply rev_involutive.
  - apply List.Forall_rev. exact H.
Qed.

Lemma words_of_tokens (l : list str) :
  Forall (fun w => w <> [] /\ spaceless w) l ->
  map strip (filter (fun w => nonempty (strip w) = true) l) = l.
Proof.
  induction 1 as [|w l [Hne Hsp] _ IH]; [reflexivity |].
  rewrite filter_cons_True.
  - simpl. rewrite IH, (strip_spaceless w Hsp). reflexivity.
  - rewrite (strip_spaceless w Hsp). destruct w; [congruence | reflexivity].
Qed.

Lemma letters_of_words (l : list str) :
  concat (map first_upper (filter (fun w => starts_alpha w = true) l))
  = concat (map token_initial l).
Proof.
  induction l as [|w l IH]; [reflexivity |].
  destruct (starts_alpha w) eqn:Hw.
  - rewrite filter_cons_True by assumption. simpl. rewrite IH.
    destruct w as [|c w]; simpl in *; [discriminate |].
    rewrite Hw. reflexivity.
  - rewrite filter_cons_False by congruence. simpl. rewrite IH.
    destruct w as [|c w]; simpl in *; [reflexivity |].
    rewrite Hw. reflexivity.
Qed.

Lemma get_initials_unfold (name : str) : get_initials name = initials_of_tokens name.
Proof.
  unfold get_initials, initials_of_tokens.
  rewrite words_of_tokens by apply split_tokens.
  rewrite letters_of_words.
  destruct (concat _); reflexivity.
Qed.

(** C7, as stated, fails: a token that starts with a character that is not
    a letter contributes no initial, although it has a first alphabetic
    character. *)
Lemma get_initials_skips_token :
  get_initials (u "Jan (Honza) Novák") = u "JN"
  /\ initials_spec (u "Jan (Honza) Novák") = u "JHN"
  /\ get_initials (u "Jan (Honza) Novák") <> initials_spec (u "Jan (Honza) Novák").
Proof. vm_compute. repeat split; discriminate. Qed.

Lemma upper_cp_nonempty (c : N) : upper_cp c <> [].
Proof.
  unfold upper_cp.
  repeat (match goal with |- context [if ?b then _ else _] => destruct b end);
    discriminate.
Qed.

Lemma letters_exist (l : list str) :
  nonempty (concat (map token_initial l)) = existsb starts_alpha l.
Proof.
  induction l as [|w l IH]; [reflexivity |].
  simpl. destruct w as [|c w]; simpl; [exact IH |].
  destruct (isalpha c); simpl; [| exact IH].
  pose proof (upper_cp_nonempty c) as Hc.
  destruct (upper_cp c); [congruence | reflexivity].
Qed.

(** C7, amended: for a name written with characters up to U+017F, the
    initials are the upper-case first characters of the whitespace-separated
    tokens of the lower-cased name without the title tokens, taken over the
    tokens whose first character is alphabetic, and "?" when no token starts
    with a letter.  The title tokens are the fourteen listed; each is taken
    out in either case, and as a substring wherever it occurs, also inside a
    word.  The three examples of the specification hold. *)
Theorem get_initials_first_characters :
  (forall name : str, tabled name -> get_initials name = initials_of_tokens name)
  /\ (forall name : str,
        tabled name ->
        get_initials name
        = let tokens := split (strip_titles (lower name)) in
          if existsb starts_alpha tokens
          then concat (map token_initial tokens)
          else u "?")
  /\ (forall name : str, tabled name -> nonempty (get_initials name) = true)
  /\ titles
     = map u ["ing."; "mgr."; "bc."; "mudr."; "judr."; "phdr."; "rndr.";
              "doc."; "prof."; "ph.d."; "csc."; "drsc."; "mba"; "dis."]%string
  /\ Forall (fun title =>
               get_initials (u "Jan " ++ title ++ u " Novák") = u "JN"
               /\ get_initials (upper title ++ u " Jan Novák") = u "JN"
               /\ get_initials title = u "?")
            titles
  /\ get_initials (u "Mbappé Kylian") = u "PK"
  /\ get_initials (u "Ing. Jan Novák Ph.D.") = u "JN"
  /\ get_initials (u "Marie Anna Kovářová") = u "MAK"
  /\ get_initials [] = u "?".
Proof.
  assert (Hcases : forall name : str,
            get_initials name
            = let tokens := split (strip_titles (lower name)) in
              if existsb starts_alpha tokens
              then concat (map token_initial tokens)
              else u "?").
  { intros name. rewrite get_initials_unfold. unfold initials_of_tokens.
    cbv zeta. rewrite <- letters_exist.
    destruct (concat _); reflexivity. }
  split; [intros name _; apply get_initials_unfold |].
  split; [intros name _; apply Hcases |].
  split.
  { intros name _. rewrite Hcases. cbv zeta.
    rewrite <- letters_exist.
    destruct (concat _); reflexivity. }
  split; [reflexivity |].
  split.
  { unfold titles. cbn [map].
    repeat (apply List.Forall_cons; [vm_compute; repeat split |]).
    apply List.Forall_nil. }
  vm_compute. repeat split.
Qed.

Lemma get_initials_first_characters_witness :
  tabled (u "Ing. Jan Novák Ph.D.")
  /\ get_initials (u "Ing. Jan Novák Ph.D.")
     = initials_of_tokens (u "Ing. Jan Novák Ph.D.")
  /\ nonempty (get_initials (u "Ing. Jan Novák Ph.D.")) = true.
Proof.
  assert (Hname : tabled (u "Ing. Jan Novák Ph.D.")).
  { unfold tabled. refine (bool_decide_unpack _ _). vm_compute. exact I. }
  destruct get_initials_first_characters as (Htokens & _ & Hnonempty & _).
  split; [exact Hname |].
  split; [exact (Htokens _ Hname) | exact (Hnonempty _ Hname)].
Defined.

(** *** The loop *)

Section LoopFacts.

Context {B : Backend}.

Lemma sign_loop_chain (signer : signer_t B) (signer_name reason : str)
    (sigs : list placement) :
  forall (i : nat) (b : buffer B) (t : list (event B)) (out : buffer B),
    sign_loop B signer signer_name create_minimal_stamp_style reason i sigs b = (t, Ok out) ->
    chain signer signer_name reason i b sigs t out.
Proof.
  induction sigs as [|sig later IH]; intros i b t out Hrun.
  - simpl in Hrun. injection Hrun as <- <-. constructor.
  - simpl in Hrun.
    destruct (p_page sig) as [page|] eqn:Hpage; simpl in Hrun; [| discriminate].
    destruct (p_x sig) as [x|] eqn:Hx; simpl in Hrun; [| discriminate].
    destruct (p_y sig) as [y|] eqn:Hy; simpl in Hrun; [| discriminate].
    assert (Hsize :
      (if str_eqb (default (u "full") (p_type sig)) (u "initials")
       then (default INITIALS_WIDTH (p_width sig), default INITIALS_HEIGHT (p_height sig))
       else (default SIGNATURE_WIDTH (p_width sig), default SIGNATURE_HEIGHT (p_height sig)))
      = resolved_size sig).
    { unfold resolved_size, default_size, kind_of.
      destruct (str_eqb _ _); reflexivity. }
    rewrite Hsize in Hrun.
    destruct (resolved_size sig) as [w h] eqn:Hwh.
    fold (kind_of sig) in Hrun.
    destruct (render_signature_appearance B b page x y w h signer_name (kind_of sig) None)
      as [rendered|e] eqn:Hrender; simpl in Hrun; [| discriminate].
    match type of Hrun with
    | context [stage ?r _] => destruct r as [signed|e] eqn:Hsign
    end; simpl in Hrun; [| discriminate].
    destruct (sign_loop B signer signer_name create_minimal_stamp_style reason
                (S i) later signed) as [t' r'] eqn:Hrest.
    injection Hrun as <- ->.
    apply IH in Hrest.
    pose proof (chain_step signer signer_name reason i b sig later t' out
                  page x y rendered signed Hpage Hx Hy) as Hstep.
    rewrite Hwh in Hstep. simpl in Hstep.
    exact (Hstep Hrender Hsign Hrest).
Qed.

Lemma chain_stages signer signer_name reason i b sigs t out :
  chain (B:=B) signer signer_name reason i b sigs t out ->
  map stage_of t = concat (repeat [SRender; SSign] (length sigs)).
Proof.
  intros H. induction H; simpl; [reflexivity |].
  rewrite IHchain. reflexivity.
Qed.

Lemma chain_flows signer signer_name reason i b sigs t out :
  chain (B:=B) signer signer_name reason i b sigs t out ->
  forall (t' : list (event B)) (out' : buffer B),
    flows out t' out' -> flows b (t ++ t') out'.
Proof.
  intros H. induction H; intros t' out' Hflow; simpl.
  - exact Hflow.
  - split; [reflexivity |]. split; [reflexivity |]. apply IHchain. exact Hflow.
Qed.

Lemma chain_fields signer signer_name reason i b sigs t out :
  chain (B:=B) signer signer_name reason i b sigs t out ->
  map sig_field_name (signed_fields t) = map field_name_of (seq i (length sigs)).
Proof.
  intros H. induction H; [reflexivity |].
  change (field_name_of i :: map sig_field_name (signed_fields t)
          = field_name_of i :: map field_name_of (seq (S i) (length later))).
  rewrite IHchain. reflexivity.
Qed.

Lemma chain_sizes signer signer_name reason i b sigs t out :
  chain (B:=B) signer signer_name reason i b sigs t out ->
  rendered_sizes t = map resolved_size sigs.
Proof.
  intros H. induction H as [|? ? sig]; [reflexivity |].
  simpl map. rewrite <- IHchain. destruct (resolved_size sig); reflexivity.
Qed.

Lemma render_drawn (pdf_bytes : buffer B) (page_num : Z) (x y width height : Q)
    (signer_name kind : str) (font_path : option str) (rendered : buffer B) :
  render_signature_appearance B pdf_bytes page_num x y width height
    signer_name kind font_path = Ok rendered ->
  exists (doc : document (rest_t B)) (k : nat) (pg : page) (content : list draw_op),
    fitz_open B pdf_bytes = Ok doc
    /\ doc_getitem B doc page_num = Ok (k, pg)
    /\ rendered
       = fitz_save B
           (draw_on doc k
              (DrawRect x (rect_height pg - y - height)%Q
                        (x + width)%Q (rect_height pg - y - height + height)%Q
                        black white (1 # 2)
               :: content)).
Proof.
  unfold render_signature_appearance.
  destruct (fitz_open B pdf_bytes) as [doc|e] eqn:Hopen; [| discriminate].
  cbv beta iota zeta delta [rbind].
  destruct (doc_getitem B doc page_num) as [[k pg]|e] eqn:Hpage; [| discriminate].
  cbn [fst snd]. intros [= <-].
  exists doc, k, pg. eexists. split; [reflexivity |]. split; [exact Hpage | reflexivity].
Qed.

Lemma chain_marks signer signer_name reason i b sigs t out :
  chain (B:=B) signer signer_name reason i b sigs t out ->
  marks_and_fields B signer_name reason i sigs t.
Proof.
  intros H. induction H as [|i b sig later t out pn x y rendered signed
                              Hpage Hx Hy Hrender Hsign Hrest IH]; [exact I |].
  split; [| exact IH].
  destruct (render_drawn _ _ _ _ _ _ _ _ _ _ Hrender) as (doc & k & pg & content & Ho & Hp & Hr).
  exists b, rendered, signed, doc, k, pg, content, pn, x, y.
  cbv zeta. repeat split; assumption.
Qed.

End LoopFacts.

(** *** Field names *)

Lemma bytes_of_inj (a b : string) : bytes_of a = bytes_of b -> a = b.
Proof.
  assert (Hback : forall l : list ascii, map ascii_of_N (map N_of_ascii l) = l).
  { induction l as [|c l IH]; simpl; [reflexivity |].
    rewrite ascii_N_embedding, IH. reflexivity. }
  unfold bytes_of. intros H.
  apply (f_equal (map ascii_of_N)) in H.
  rewrite !Hback in H.
  apply (f_equal string_of_list_ascii) in H.
  rewrite !string_of_list_ascii_of_string in H. exact H.
Qed.

Lemma str_of_Z_inj (a b : Z) : str_of_Z a = str_of_Z b -> a = b.
Proof.
  unfold str_of_Z. intros H. apply bytes_of_inj in H.
  exact (pretty_Z_inj _ _ H).
Qed.

Lemma field_name_of_inj (i j : nat) : field_name_of i = field_name_of j -> i = j.
Proof.
  unfold field_name_of. intros H.
  apply app_inv_head in H. apply str_of_Z_inj in H. lia.
Qed.

Lemma field_names_NoDup (i n : nat) : NoDup (map field_name_of (seq i n)).
Proof.
  change (NoDup (field_name_of <$> seq i n)).
  apply NoDup_fmap_2; [| apply NoDup_seq].
  intros a b. apply field_name_of_inj.
Qed.

(** *** The orchestrator *)

Section RunFacts.

Context {B : Backend}.

Lemma run_structure (pdf_bytes : buffer B) (p12_bytes : p12_t B) (p12_password : str)
    (sigs : list placement) (lock proto : bool) (reason : str)
    (t : list (event B)) (out : buffer B) :
  sign_pdf_multiple B pdf_bytes p12_bytes p12_password sigs lock proto reason = (t, Ok out) ->
  exists (signer : signer_t B) (b0 : buffer B) (body : list (event B)) (bN : buffer B),
    load_signer_from_p12 B p12_bytes p12_password = Ok signer
    /\ (if proto
        then create_protocol_page B pdf_bytes sigs (get_signer_name_from_signer B signer)
               (get_certificate_info B signer) None = Ok b0
        else b0 = pdf_bytes)
    /\ chain signer (get_signer_name_from_signer B signer) reason 0 b0 sigs body bN
    /\ (if lock then lock_pdf_for_editing B bN = Ok out else out = bN)
    /\ t = run_events pdf_bytes signer proto lock b0 body bN out.
Proof.
  unfold sign_pdf_multiple. destruct sigs as [|sig later]; [discriminate |].
  set (sigs := sig :: later).
  destruct (load_signer_from_p12 B p12_bytes p12_password) as [signer|e] eqn:Hload;
    [| discriminate].
  unfold try_except, mbind, stage, mret, mraise.
  intros Hrun. exists signer.
  destruct proto.
  - destruct (create_protocol_page B pdf_bytes sigs _ _ None) as [b0|e] eqn:Hproto;
      [| discriminate].
    destruct (sign_loop B signer _ _ reason 0 sigs b0) as [body [bN|e]] eqn:Hloop;
      [| discriminate].
    apply sign_loop_chain in Hloop.
    exists b0, body, bN. destruct lock.
    + destruct (lock_pdf_for_editing B bN) as [locked|e] eqn:Hlock; [| discriminate].
      injection Hrun as <- <-. repeat split; try assumption.
    + injection Hrun as <- <-. repeat split; try assumption.
  - destruct (sign_loop B signer _ _ reason 0 sigs pdf_bytes) as [body [bN|e]] eqn:Hloop;
      [| discriminate].
    apply sign_loop_chain in Hloop.
    exists pdf_bytes, body, bN. destruct lock.
    + destruct (lock_pdf_for_editing B bN) as [locked|e] eqn:Hlock; [| discriminate].
      injection Hrun as <- <-. repeat split; try assumption.
    + injection Hrun as <- <-. repeat split; try assumption.
Qed.

Lemma run_pair {A} (m : M B A) (r : result A) : outcome m = r -> m = (trace m, r).
Proof. destruct m as [t r']. simpl. intros ->. reflexivity. Qed.



Lemma signed_fields_run pdf_bytes signer proto lock b0 body bN out :
  signed_fields (run_events (B:=B) pdf_bytes signer proto lock b0 body bN out)
  = signed_fields body.
Proof.
  unfold run_events, signed_fields.
  rewrite !omap_app. destruct proto, lock; simpl; rewrite ?app_nil_r; reflexivity.
Qed.

Lemma rendered_sizes_run pdf_bytes signer proto lock b0 body bN out :
  rendered_sizes (run_events (B:=B) pdf_bytes signer proto lock b0 body bN out)
  = rendered_sizes body.
Proof.
  unfold run_events, rendered_sizes.
  rewrite !omap_app. destruct proto, lock; simpl; rewrite ?app_nil_r; reflexivity.
Qed.

End RunFacts.

(** *** The fields of the output *)

Section FieldFacts.

Context {B : Backend} (V : FieldView B).

Lemma render_keeps_fields pdf_bytes page_num x y width height signer_name kind font_path out :
  render_signature_appearance B pdf_bytes page_num x y width height
    signer_name kind font_path = Ok out ->
  fields_of V out = fields_of V pdf_bytes.
Proof.
  unfold render_signature_appearance.
  destruct (fitz_open B pdf_bytes) as [doc|e] eqn:Hopen; simpl; [| discriminate].
  destruct (doc_getitem B doc page_num) as [kp|e]; simpl; [| discriminate].
  intros [= <-].
  rewrite (save_fields V), (open_fields V _ _ Hopen). reflexivity.
Qed.

Lemma protocol_keeps_fields pdf_bytes sigs signer_name cert_info github_url out :
  create_protocol_page B pdf_bytes sigs signer_name cert_info github_url = Ok out ->
  fields_of V out = fields_of V pdf_bytes.
Proof.
  unfold create_protocol_page.
  destruct (fitz_open B pdf_bytes) as [doc|e] eqn:Hopen; simpl; [| discriminate].
  intros [= <-].
  rewrite (save_fields V), (open_fields V _ _ Hopen). reflexivity.
Qed.

Lemma lock_keeps_fields pdf_bytes out :
  lock_pdf_for_editing B pdf_bytes = Ok out ->
  fields_of V out = fields_of V pdf_bytes.
Proof.
  unfold lock_pdf_for_editing.
  destruct (fitz_open B pdf_bytes) as [doc|e] eqn:Hopen; simpl; [| discriminate].
  intros Hlock.
  rewrite (lock_fields V _ _ _ _ Hlock), (open_fields V _ _ Hopen). reflexivity.
Qed.

Lemma chain_adds_fields signer signer_name reason i b sigs t out :
  chain signer signer_name reason i b sigs t out ->
  fields_of V out = fields_of V b ++ map field_name_of (seq i (length sigs)).
Proof.
  intros H. induction H as [|i b sig later t out page x y rendered signed
                             Hpage Hx Hy Hrender Hsign Hrest IH].
  - simpl. symmetry. apply app_nil_r.
  - rewrite IH, (sign_fields V _ _ _ _ _ _ Hsign), (render_keeps_fields _ _ _ _ _ _ _ _ _ _ Hrender).
    simpl. rewrite <- app_assoc. reflexivity.
Qed.

End FieldFacts.

(** C1: a run that returns has registered exactly one signature field per
    placement, the field of placement [i] (counted from 0) is named
    "Signature_" followed by the decimal [i+1], and no two names of the run
    are equal.  With libraries that keep the fields of a file and add the
    field that is signed, the fields of the output are those of the input
    followed by these. *)
Theorem signature_fields_sequential (B : Backend)
    (pdf_bytes : buffer B) (p12_bytes : p12_t B) (p12_password : str)
    (sigs : list placement) (lock proto : bool) (reason : str) (out : buffer B) :
  let run := sign_pdf_multiple B pdf_bytes p12_bytes p12_password sigs lock proto reason in
  outcome run = Ok out ->
  let names := map sig_field_name (signed_fields (trace run)) in
  length (signed_fields (trace run)) = length sigs
  /\ (forall i : nat, (i < length sigs)%nat ->
        names !! i = Some (u "Signature_" ++ str_of_Z (Z.of_nat i + 1)))
  /\ NoDup names
  /\ (forall V : FieldView B, fields_of V out = fields_of V pdf_bytes ++ names).
Proof.
  intros run Hok names. subst names.
  apply run_pair in Hok. apply run_structure in Hok.
  destruct Hok as (signer & b0 & body & bN & _ & Hproto & Hchain & Hlock & Ht).
  rewrite Ht, signed_fields_run.
  pose proof (chain_fields _ _ _ _ _ _ _ _ Hchain) as Hnames.
  split; [| split; [| split]].
  - apply (f_equal (@length _)) in Hnames.
    rewrite !length_map, length_seq in Hnames. exact Hnames.
  - intros i Hi. rewrite Hnames.
    change (map field_name_of (seq 0 (length sigs)))
      with (field_name_of <$> seq 0 (length sigs)).
    rewrite list_lookup_fmap, lookup_seq_lt by exact Hi. reflexivity.
  - rewrite Hnames. apply field_names_NoDup.
  - intros V. rewrite Hnames.
    assert (Hout : fields_of V out = fields_of V bN).
    { destruct lock; [apply lock_keeps_fields; exact Hlock | congruence]. }
    assert (Hin : fields_of V b0 = fields_of V pdf_bytes).
    { destruct proto; [eapply protocol_keeps_fields; exact Hproto | congruence]. }
    rewrite Hout, (chain_adds_fields V _ _ _ _ _ _ _ _ Hchain), Hin. reflexivity.
Qed.

(** C2: in a run that returns, the stage calls are: the signer is loaded;
    the protocol page is generated once if requested, before any placement
    is processed; then, placement by placement, the mark is rendered and
    then the signature applied; the lock, if requested, comes last.  Each
    call consumes the buffer the previous call returned, so the signer's
    output for placement [i] is the renderer's input for placement [i+1]. *)
Theorem stages_interleaved (B : Backend)
    (pdf_bytes : buffer B) (p12_bytes : p12_t B) (p12_password : str)
    (sigs : list placement) (lock proto : bool) (reason : str) (out : buffer B) :
  let run := sign_pdf_multiple B pdf_bytes p12_bytes p12_password sigs lock proto reason in
  outcome run = Ok out ->
  map stage_of (trace run) = stage_order proto lock (length sigs)
  /\ flows pdf_bytes (trace run) out
  /\ exists (signer : signer_t B) (b0 : buffer B) (body : list (event B)) (bN : buffer B),
       trace run = run_events pdf_bytes signer proto lock b0 body bN out
       /\ (if proto
           then create_protocol_page B pdf_bytes sigs (get_signer_name_from_signer B signer)
                  (get_certificate_info B signer) None = Ok b0
           else b0 = pdf_bytes)
       /\ chain signer (get_signer_name_from_signer B signer) reason 0 b0 sigs body bN
       /\ (if lock then lock_pdf_for_editing B bN = Ok out else out = bN).
Proof.
  intros run Hok.
  apply run_pair in Hok. apply run_structure in Hok.
  destruct Hok as (signer & b0 & body & bN & _ & Hproto & Hchain & Hlock & Ht).
  rewrite Ht. split; [| split].
  - unfold run_events, stage_order.
    rewrite !map_app, (chain_stages _ _ _ _ _ _ _ _ Hchain).
    destruct proto, lock; reflexivity.
  - unfold run_events.
    assert (Hbody : flows b0 (body ++ (if lock then [EvLock bN out] else [])) out).
    { apply (chain_flows _ _ _ _ _ _ _ _ Hchain).
      destruct lock; simpl; [split; reflexivity | congruence]. }
    destruct proto; simpl.
    + split; [reflexivity | exact Hbody].
    + subst b0. exact Hbody.
  - exists signer, b0, body, bN. repeat split; assumption.
Qed.

Section FieldBox.

Import PrimFloat.

(** C8, as stated, fails in the arithmetic of the program: for a field at
    x = 400.3 of width 150 the box registered is (400.3, 50, 550.3, 100),
    and the width of that box is 149.99999999999994, not the 150 handed to
    the renderer. *)
Lemma field_box_width_rounds :
  (B64.field_box 400.3 50 150 50 = (400.3, 50, 550.3, 100)
   /\ B64.mark_rect 842 400.3 50 150 50 = (400.3, 742, 550.3, 792)
   /\ B64.box_height (B64.field_box 400.3 50 150 50) = B64.SIGNATURE_HEIGHT
   /\ B64.box_width (B64.field_box 400.3 50 150 50) = 149.99999999999994
   /\ B64.box_width (B64.field_box 400.3 50 150 50) <> B64.SIGNATURE_WIDTH)%float.
Proof.
  split; [vm_compute; reflexivity |]. split; [vm_compute; reflexivity |].
  split; [vm_compute; reflexivity |]. split; [vm_compute; reflexivity |].
  intros H. apply (f_equal (fun f => PrimFloat.eqb f 150%float)) in H.
  vm_compute in H. discriminate.
Qed.

End FieldBox.

(** C8, amended: in a run that returns, the width and height handed to the
    renderer for a placement are the override of the request or else the
    default of its kind (150x50, and 50x35 for initials); the renderer draws
    the rectangle of the mark from [x] to [x + width] and from its top edge
    down by [height]; and the box of the field registered for the placement
    is [(x, y, x + width, y + height)] with that same width and height.  The
    corners are computed by these sums: the difference of two corners is the
    width or height up to rounding only. *)
Theorem drawn_box_matches_field (B : Backend)
    (pdf_bytes : buffer B) (p12_bytes : p12_t B) (p12_password : str)
    (sigs : list placement) (lock proto : bool) (reason : str) (out : buffer B) :
  let run := sign_pdf_multiple B pdf_bytes p12_bytes p12_password sigs lock proto reason in
  outcome run = Ok out ->
  rendered_sizes (trace run) = map resolved_size sigs
  /\ (exists (signer : signer_t B) (b0 : buffer B) (body : list (event B)) (bN : buffer B),
        trace run = run_events pdf_bytes signer proto lock b0 body bN out
        /\ marks_and_fields B (get_signer_name_from_signer B signer) reason 0 sigs body)
  /\ (forall sig : placement,
        resolved_size sig
        = if str_eqb (kind_of sig) (u "initials")
          then (default 50%Q (p_width sig), default 35%Q (p_height sig))
          else (default 150%Q (p_width sig), default 50%Q (p_height sig))).
Proof.
  intros run Hok.
  apply run_pair in Hok. apply run_structure in Hok.
  destruct Hok as (signer & b0 & body & bN & _ & _ & Hchain & _ & Ht).
  split; [| split].
  - rewrite Ht, rendered_sizes_run. exact (chain_sizes _ _ _ _ _ _ _ _ Hchain).
  - exists signer, b0, body, bN. split; [exact Ht |].
    exact (chain_marks _ _ _ _ _ _ _ _ Hchain).
  - intros sig. unfold resolved_size, default_size.
    destruct (str_eqb _ _); reflexivity.
Qed.

(** The reference backend keeps and adds fields as a [FieldView] says. *)
Lemma ref_sign_adds_field (signer : certificate) (meta : PdfSignatureMetadata)
    (style : TextStampStyle) (spec : SigFieldSpec) (b b' : Ref.file) :
  Ref.sign signer meta style spec b = Ok b' ->
  Ref.sig_fields (doc_rest b') = Ref.sig_fields (doc_rest b) ++ [sig_field_name spec].
Proof.
  unfold Ref.sign.
  destruct (bool_decide _); [discriminate |].
  destruct (negb _); [discriminate |].
  intros [= <-]. reflexivity.
Qed.

Lemma ref_view (font_installed : bool) : FieldView (Ref.backend font_installed).
Proof.
  refine {| fields_of := fun b : buffer (Ref.backend font_installed) =>
                           Ref.sig_fields (doc_rest b);
            rest_fields := fun r : rest_t (Ref.backend font_installed) =>
                             Ref.sig_fields r |}.
  - intros b d [= <-]. reflexivity.
  - intros d. reflexivity.
  - intros d perm pw b [= <-]. reflexivity.
  - exact ref_sign_adds_field.
Defined.

Lemma signature_fields_sequential_witness :
  exists out : Ref.file,
    outcome (Ref.sample_run true true) = Ok out
    /\ length (signed_fields (trace (Ref.sample_run true true))) = 2%nat
    /\ map sig_field_name (signed_fields (trace (Ref.sample_run true true)))
       = [u "Signature_1"; u "Signature_2"]
    /\ NoDup (map sig_field_name (signed_fields (trace (Ref.sample_run true true))))
    /\ Ref.sig_fields (doc_rest out) = [u "Signature_1"; u "Signature_2"].
Proof.
  eexists. split; [vm_compute; reflexivity |].
  pose proof (signature_fields_sequential (Ref.backend true) (Ref.blank 2) Ref.p12
                (u "secret") Ref.two_marks true true default_reason _ eq_refl)
    as (Hlen & _ & Hnodup & Hout).
  split; [exact Hlen |]. split; [vm_compute; reflexivity |].
  split; [exact Hnodup |].
  exact (Hout (ref_view true)).
Defined.

Lemma stages_interleaved_witness :
  exists out : Ref.file,
    outcome (Ref.sample_run true true) = Ok out
    /\ map stage_of (trace (Ref.sample_run true true))
       = [SLoad; SProtocol; SRender; SSign; SRender; SSign; SLock]
    /\ flows (B:=Ref.backend true) (Ref.blank 2) (trace (Ref.sample_run true true)) out.
Proof.
  eexists. split; [vm_compute; reflexivity |].
  pose proof (stages_interleaved (Ref.backend true) (Ref.blank 2) Ref.p12
                (u "secret") Ref.two_marks true true default_reason _ eq_refl)
    as (Horder & Hflows & _).
  split; [exact Horder | exact Hflows].
Defined.

Lemma drawn_box_matches_field_witness :
  let B := Ref.backend true in
  let wide :=
    {| p_page := Some 0; p_x := Some (4003 # 10); p_y := Some 50%Q;
       p_type := Some (u "full"); p_width := Some 200%Q; p_height := Some 80%Q |} in
  let sigs := [wide; Ref.at_page 1 "initials" 20 20] in
  let run := sign_pdf_multiple B (Ref.blank 2) Ref.p12 (u "secret") sigs
               false false default_reason in
  exists out : Ref.file,
    outcome run = Ok out
    /\ rendered_sizes (trace run) = [(200, 80)%Q; (50, 35)%Q]
    /\ map box (signed_fields (trace run))
       = [(4003 # 10, 50, (4003 # 10) + 200, 50 + 80)%Q; (20, 20, 20 + 50, 20 + 35)%Q]
    /\ exists (signer : signer_t B) (b0 : buffer B) (body : list (event B)) (bN : buffer B),
         trace run = run_events (B:=B) (Ref.blank 2) signer false false b0 body bN out
         /\ marks_and_fields B (get_signer_name_from_signer B signer) default_reason
              0 sigs body.
Proof.
  intros B wide sigs run.
  eexists.
  split; [vm_compute; reflexivity |].
  pose proof (drawn_box_matches_field B (Ref.blank 2) Ref.p12
                (u "secret") sigs false false default_reason _ eq_refl)
    as (Hsizes & Hmarks & _).
  split; [exact Hsizes |].
  split; [vm_compute; reflexivity |].
  exact Hmarks.
Defined.




(** C4, as stated, fails: the program has no class of exception for
    credentials.  A wrong passphrase ends the run with a [ValueError], the
    class with which it also refuses an empty list and reports a page that
    is not in the document. *)
Lemma credential_failure_is_value_error :
  let B := Ref.backend true in
  let guessed := sign_pdf_multiple B (Ref.blank 2) Ref.p12 (u "guess") Ref.two_marks
                   false false default_reason in
  let empty := sign_pdf_multiple B (Ref.blank 2) Ref.p12 (u "secret") []
                 false false default_reason in
  let off_page := sign_pdf_multiple B (Ref.blank 1) Ref.p12 (u "secret")
                    [Ref.at_page 7 "full" 400 50] false false default_reason in
  outcome guessed
  = Raise (Exn ValueError
             (u "Failed to sign PDF: Failed to load P12 certificate: Invalid password or PKCS12 data"))
  /\ outcome empty
     = Raise (Exn ValueError (u "At least one signature position is required"))
  /\ outcome off_page
     = Raise (Exn ValueError (u "Failed to sign PDF: page 7 not in document"))
  /\ ~ credential_failure_typed B.
Proof.
  split; [vm_compute; reflexivity |].
  split; [vm_compute; reflexivity |].
  split; [vm_compute; reflexivity |].
  intros (cls & Hbad & Hother).
  destruct (Hbad (Ref.blank 2) Ref.p12 (u "guess") Ref.two_marks false false
              default_reason (Exn ValueError (u "Invalid password or PKCS12 data")))
    as (e & He & Hcls); [discriminate | vm_compute; reflexivity |].
  vm_compute in He. injection He as <-.
  apply (Hother (Ref.blank 2) Ref.p12 (u "secret") [] false false default_reason
           Ref.jan (Exn ValueError (u "At least one signature position is required")));
    [vm_compute; reflexivity | vm_compute; reflexivity |].
  rewrite <- Hcls. reflexivity.
Qed.

(** C4, amended: when the archive cannot be loaded (wrong passphrase,
    malformed archive), the run ends with the [ValueError] that wraps
    "Failed to load P12 certificate", it returns no bytes, and no stage has
    run. *)
Theorem bad_credentials_fail (B : Backend)
    (pdf_bytes : buffer B) (p12_bytes : p12_t B) (p12_password : str)
    (sigs : list placement) (lock proto : bool) (reason : str) (cause : exn) :
  load_pkcs12_data B p12_bytes p12_password = Raise cause ->
  let run := sign_pdf_multiple B pdf_bytes p12_bytes p12_password sigs lock proto reason in
  trace run = []
  /\ is_ok (outcome run) = false
  /\ (sigs <> [] ->
      outcome run
      = Raise (Exn ValueError
                 (u "Failed to sign PDF: " ++ u "Failed to load P12 certificate: "
                  ++ exn_str cause))).
Proof.
  intros Hload run. subst run.
  destruct sigs as [|sig later]; [repeat split; congruence |].
  unfold sign_pdf_multiple, load_signer_from_p12. rewrite Hload.
  repeat split.
Qed.

Lemma bad_credentials_fail_witness :
  let B := Ref.backend true in
  let run := sign_pdf_multiple B (Ref.blank 2) Ref.p12 (u "guess") Ref.two_marks
               true true default_reason in
  load_pkcs12_data B Ref.p12 (u "guess")
  = Raise (Exn ValueError (u "Invalid password or PKCS12 data"))
  /\ trace run = []
  /\ is_ok (outcome run) = false.
Proof.
  split; [vm_compute; reflexivity |].
  pose proof (bad_credentials_fail (Ref.backend true) (Ref.blank 2) Ref.p12 (u "guess")
                Ref.two_marks true true default_reason _ eq_refl) as (Ht & Hr & _).
  split; [exact Ht | exact Hr].
Defined.

(** C10: the legacy entry point is the pipeline on the one placement of
    kind "full" built from its arguments, without lock and without protocol
    page; [custom_text] does not reach the result. *)
Theorem sign_pdf_single_placement (B : Backend)
    (pdf_bytes : buffer B) (p12_bytes : p12_t B) (p12_password : str)
    (page_number : Z) (x y width height : Q) (reason : str)
    (custom_text custom_text' : option str) :
  sign_pdf B pdf_bytes p12_bytes p12_password page_number x y
    (Some width) (Some height) (Some reason) custom_text
  = sign_pdf_multiple B pdf_bytes p12_bytes p12_password
      [{| p_page := Some page_number; p_x := Some x; p_y := Some y;
          p_type := Some (u "full");
          p_width := Some width; p_height := Some height |}]
      false false reason
  /\ sign_pdf B pdf_bytes p12_bytes p12_password page_number x y None None None custom_text
     = sign_pdf_multiple B pdf_bytes p12_bytes p12_password
         [{| p_page := Some page_number; p_x := Some x; p_y := Some y;
             p_type := Some (u "full");
             p_width := Some 150%Q; p_height := Some 50%Q |}]
         false false (u "Electronically signed")
  /\ (forall w h r,
        sign_pdf B pdf_bytes p12_bytes p12_password page_number x y w h r custom_text
        = sign_pdf B pdf_bytes p12_bytes p12_password page_number x y w h r custom_text').
Proof. repeat split. Qed.

(** *** The renderer *)

Section RenderFacts.

Context {B : Backend}.

Lemma render_ok_iff (pdf_bytes : buffer B) (page_num : Z) (x y width height : Q)
    (signer_name kind : str) (font_path : option str) :
  is_ok (render_signature_appearance B pdf_bytes page_num x y width height
           signer_name kind font_path)
  = is_ok (let! doc := fitz_open B pdf_bytes in doc_getitem B doc page_num).
Proof.
  unfold render_signature_appearance.
  destruct (fitz_open B pdf_bytes) as [doc|e]; simpl; [| reflexivity].
  destruct (doc_getitem B doc page_num) as [kp|e]; reflexivity.
Qed.

Lemma render_background (pdf_bytes : buffer B) (doc : document (rest_t B))
    (k : nat) (pg : page) (page_num : Z) (x y width height : Q)
    (signer_name kind : str) (font_path : option str) :
  fitz_open B pdf_bytes = Ok doc ->
  doc_getitem B doc page_num = Ok (k, pg) ->
  exists content : list draw_op,
    render_signature_appearance B pdf_bytes page_num x y width height
      signer_name kind font_path
    = Ok (fitz_save B
            (draw_on doc k
               (DrawRect x (rect_height pg - y - height)%Q
                         (x + width)%Q (rect_height pg - y - height + height)%Q
                         black white (1 # 2)
                :: content))).
Proof.
  intros Hopen Hpage. unfold render_signature_appearance.
  rewrite Hopen. simpl. rewrite Hpage. simpl.
  eexists. reflexivity.
Qed.

End RenderFacts.

(** C9: a full mark is rendered with the plain typeface when the ornamental
    font cannot be loaded, and rendering returns; whether rendering returns
    depends only on opening the document and finding the page, never on the
    font. *)
Theorem font_fallback_silent (B : Backend)
    (pdf_bytes : buffer B) (page_num : Z) (x y width height : Q)
    (signer_name kind : str) (font_path : option str) :
  is_ok (render_signature_appearance B pdf_bytes page_num x y width height
           signer_name kind font_path)
  = is_ok (let! doc := fitz_open B pdf_bytes in doc_getitem B doc page_num)
  /\ (forall (doc : document (rest_t B)) (k : nat) (pg : page) (cause : exn),
        fitz_open B pdf_bytes = Ok doc ->
        doc_getitem B doc page_num = Ok (k, pg) ->
        kind <> u "initials" ->
        insert_font B (u "dancing") (default (FONT_PATH B) font_path) = Raise cause ->
        let top := (rect_height pg - y - height)%Q in
        render_signature_appearance B pdf_bytes page_num x y width height
          signer_name kind font_path
        = Ok (fitz_save B
                (draw_on doc k
                   [DrawRect x top (x + width)%Q (top + height)%Q black white (1 # 2);
                    InsertText (x + 5)%Q (top + 18)%Q signer_name 14 (u "helv") (Some black);
                    InsertText (x + 5)%Q (top + 32)%Q (date_line B) 8 (u "helv")
                               (Some (3 # 10, 3 # 10, 3 # 10)%Q);
                    InsertText (x + 5)%Q (top + 44)%Q (u "github.com/keboola/esignature") 6
                               (u "helv") (Some (1 # 2, 1 # 2, 1 # 2)%Q)]))).
Proof.
  split; [apply render_ok_iff |].
  intros doc k pg cause Hopen Hpage Hkind Hfont top.
  unfold render_signature_appearance.
  rewrite Hopen. simpl. rewrite Hpage. simpl.
  rewrite Hfont.
  unfold str_eqb. rewrite bool_decide_eq_false_2 by exact Hkind.
  reflexivity.
Qed.

Lemma font_fallback_silent_witness :
  let B := Ref.backend false in
  insert_font B (u "dancing") (FONT_PATH B)
  = Raise (Exn LibraryError (u "cannot open font file"))
  /\ is_ok (render_signature_appearance B (Ref.blank 1) 0 400 50 150 50
              (u "Jan Novák") (u "full") None) = true
  /\ exists ops,
       render_signature_appearance B (Ref.blank 1) 0 400 50 150 50
         (u "Jan Novák") (u "full") None
       = Ok {| pages := [{| rect_width := 595; rect_height := 842; page_ops := ops |}];
               doc_rest := doc_rest (Ref.blank 1) |}
       /\ texts ops = [u "Jan Novák"; u "2024-03-07 09:05:00 CEST";
                       u "github.com/keboola/esignature"].
Proof.
  split; [vm_compute; reflexivity |].
  destruct (font_fallback_silent (Ref.backend false) (Ref.blank 1) 0 400 50 150 50
              (u "Jan Novák") (u "full") None) as [Hok Hfull].
  split; [rewrite Hok; vm_compute; reflexivity |].
  eexists. split.
  - rewrite (Hfull (Ref.blank 1) 0%nat Ref.a4
               (Exn LibraryError (u "cannot open font file")));
      [| reflexivity | reflexivity | vm_compute; discriminate | vm_compute; reflexivity].
    vm_compute. reflexivity.
  - vm_compute. reflexivity.
Defined.

(** *** The change of origin *)


Section Origin.

Import PrimFloat.

Lemma b64_draw_one_starts (img_width img_height page_num : Z) (pw ph : PrimFloat.float)
    (selected_idx : Z) (i : nat) (sig : B64.entry) (ops : list App.pil_op) :
  B64.draw_one img_width img_height page_num pw ph selected_idx i sig = Ok ops ->
  (B64.on_page page_num sig = false /\ ops = [])
  \/ (B64.on_page page_num sig = true
      /\ length ops = 3%nat
      /\ exists (y : PrimFloat.float) (top : Z),
           B64.e_y sig = Some y
           /\ B64.top_pixel img_height ph y (B64.entry_height sig) = Ok top
           /\ Forall (B64.starts_at top) ops).
Proof.
  unfold B64.draw_one, B64.on_page, B64.top_pixel, B64.entry_height, B64.rect_top.
  destruct (B64.e_page sig) as [pn|]; [| discriminate].
  cbv beta iota zeta delta [rbind getitem].
  destruct (pn =? page_num); cbn [negb].
  2:{ intros [= <-]. left. split; reflexivity. }
  intros Hrun. right. split; [reflexivity |].
  destruct (str_eqb (default (u "full") (B64.e_type sig)) (u "initials"));
    destruct (B64.float_of_int img_width) as [w|]; try discriminate;
    destruct (B64.py_div w pw) as [sx|]; try discriminate;
    match type of Hrun with
    | context [B64.py_int (PrimFloat.mul ?a sx)] =>
      destruct (B64.py_int (PrimFloat.mul a sx)) as [wpx|]; try discriminate
    end;
    destruct (B64.float_of_int img_height) as [h|]; try discriminate;
    destruct (B64.py_div h ph) as [sy|]; try discriminate;
    match type of Hrun with
    | context [B64.py_int (PrimFloat.mul ?a sy)] =>
      destruct (B64.py_int (PrimFloat.mul a sy)) as [hpx|]; try discriminate
    end;
    destruct (B64.e_x sig) as [x|]; try discriminate;
    destruct (B64.e_y sig) as [y|]; try discriminate;
    destruct (B64.py_int (PrimFloat.mul x sx)) as [px|]; try discriminate;
    match type of Hrun with
    | context [B64.py_int (PrimFloat.mul (PrimFloat.sub ?a ?b) sy)] =>
      destruct (B64.py_int (PrimFloat.mul (PrimFloat.sub a b) sy)) as [py|] eqn:Hpy;
        try discriminate
    end;
    destruct (App.SIGNATURE_COLORS _) as [[r g] bl];
    injection Hrun as <-;
    (split; [reflexivity |]);
    exists y, py; (split; [reflexivity |]); (split; [exact Hpy |]);
    repeat constructor.
Qed.

Lemma b64_draw_loop_starts (img_width img_height page_num : Z) (pw ph : PrimFloat.float)
    (selected_idx : Z) (sigs : list B64.entry) :
  forall (i : nat) (ops : list App.pil_op),
    B64.draw_loop img_width img_height page_num pw ph selected_idx i sigs = Ok ops ->
    length ops = (3 * length (List.filter (B64.on_page page_num) sigs))%nat
    /\ Forall (fun op =>
                 exists (sig : B64.entry) (y : PrimFloat.float) (top : Z),
                   In sig sigs
                   /\ B64.on_page page_num sig = true
                   /\ B64.e_y sig = Some y
                   /\ B64.top_pixel img_height ph y (B64.entry_height sig) = Ok top
                   /\ B64.starts_at top op) ops.
Proof.
  induction sigs as [|sig later IH]; intros i ops.
  - intros [= <-]. split; [reflexivity | constructor].
  - cbn [B64.draw_loop].
    destruct (B64.draw_one img_width img_height page_num pw ph selected_idx i sig)
      as [first|] eqn:Hone; [| discriminate].
    cbv beta iota zeta delta [rbind].
    destruct (B64.draw_loop img_width img_height page_num pw ph selected_idx (S i) later)
      as [rest|] eqn:Hrest; [| discriminate].
    intros [= <-]. destruct (IH _ _ Hrest) as [Hlen Hall].
    assert (Hlater : Forall (fun op =>
              exists (sig0 : B64.entry) (y : PrimFloat.float) (top : Z),
                In sig0 (sig :: later)
                /\ B64.on_page page_num sig0 = true
                /\ B64.e_y sig0 = Some y
                /\ B64.top_pixel img_height ph y (B64.entry_height sig0) = Ok top
                /\ B64.starts_at top op) rest).
    { eapply Forall_impl; [exact Hall |].
      intros op (sig0 & y & top & Hin & Hrest'). exists sig0, y, top.
      split; [right; exact Hin | exact Hrest']. }
    apply b64_draw_one_starts in Hone.
    destruct Hone as [[Hoff ->]|(Hon & Hthree & y & top & Hy & Htop & Hfirst)].
    + cbn [List.filter]. rewrite Hoff. split; [exact Hlen | exact Hlater].
    + cbn [List.filter]. rewrite Hon. split.
      * rewrite length_app, Hthree, Hlen. cbn [length]. lia.
      * apply Forall_app. split; [| exact Hlater].
        eapply Forall_impl; [exact Hfirst |].
        intros op Hop. exists sig, y, top.
        split; [left; reflexivity |]. repeat split; assumption.
Qed.

(** C6, as stated, fails in the arithmetic of the program: on a page 842
    points high, converting y = 0.1 for a box 50 points high and converting
    the result back gives 0.10000000000002274. *)
Lemma round_trip_rounds :
  (B64.rect_top 842 0.1 50 = 791.9
   /\ B64.rect_top 842 (B64.rect_top 842 0.1 50) 50 = 0.10000000000002274
   /\ B64.round_trip 842 50 0.1 = false
   /\ B64.rect_top 842 (B64.rect_top 842 0.1 50) 50 <> 0.1)%float.
Proof.
  split; [vm_compute; reflexivity |].
  split; [vm_compute; reflexivity |].
  split; [vm_compute; reflexivity |].
  intros H. apply (f_equal (fun f => PrimFloat.eqb f 0.1%float)) in H.
  vm_compute in H. discriminate.
Qed.

(** C6, amended: the renderer draws the rectangle of a mark with its top
    edge at [page_height - y - height], and the preview draws the box of
    every entry on the page, and nothing else, with its top edge at the
    pixel row [int((page_height - y - height) * (img.height / page_height))]
    and its label 5 pixels below.  On exact numbers the conversion applied
    twice gives back the coordinate it started from; in binary64 it does so
    where no subtraction rounds, as for every whole number of points from 0
    to 842 on pages 842, 792 and 841.8900146484375 points high with the
    heights 35 and 50, and not for every coordinate. *)
Theorem origin_conversion :
  (forall (B : Backend) (pdf_bytes : buffer B) (doc : document (rest_t B))
          (k : nat) (pg : page) (page_num : Z) (x y width height : Q)
          (signer_name kind : str) (font_path : option str),
     fitz_open B pdf_bytes = Ok doc ->
     doc_getitem B doc page_num = Ok (k, pg) ->
     exists content : list draw_op,
       render_signature_appearance B pdf_bytes page_num x y width height
         signer_name kind font_path
       = Ok (fitz_save B
               (draw_on doc k
                  (DrawRect x (rect_height pg - y - height)%Q
                            (x + width)%Q (rect_height pg - y - height + height)%Q
                            black white (1 # 2)
                   :: content))))
  /\ (forall (img_width img_height : Z) (signatures : list B64.entry) (page_num : Z)
             (page_width_pts page_height_pts : PrimFloat.float) (selected_idx : Z)
             (ops : list App.pil_op),
        B64.draw_signature_boxes img_width img_height signatures page_num
          page_width_pts page_height_pts selected_idx = Ok ops ->
        length ops = (3 * length (List.filter (B64.on_page page_num) signatures))%nat
        /\ Forall (fun op =>
                     exists (sig : B64.entry) (y : PrimFloat.float) (top : Z),
                       In sig signatures
                       /\ B64.on_page page_num sig = true
                       /\ B64.e_y sig = Some y
                       /\ B64.top_pixel img_height page_height_pts y (B64.entry_height sig)
                          = Ok top
                       /\ B64.starts_at top op) ops)
  /\ (forall page_height y height : Q,
        (top_exact page_height (top_exact page_height y height) height == y)%Q)
  /\ forallb (fun page_height =>
                forallb (fun height =>
                           forallb (B64.round_trip page_height height) (B64.grid 0 843))
                        [B64.INITIALS_HEIGHT; B64.SIGNATURE_HEIGHT])
             [842; 792; 841.8900146484375]%float
     = true.
Proof.
  split; [| split; [| split]].
  - intros B pdf_bytes doc k pg page_num x y width height signer_name kind font_path
      Hopen Hpage.
    eapply render_background; eassumption.
  - intros img_width img_height signatures page_num pw ph selected_idx ops.
    apply b64_draw_loop_starts.
  - intros page_height y height. unfold top_exact. ring.
  - vm_compute. reflexivity.
Qed.

Lemma origin_conversion_witness :
  let B := Ref.backend true in
  let mark := {| B64.e_page := Some 0; B64.e_x := Some 400%float;
                B64.e_y := Some 50%float; B64.e_type := Some (u "full") |} in
  (exists content : list draw_op,
     render_signature_appearance B (Ref.blank 1) 0 400 50 150 50
       (u "Jan") (u "full") None
     = Ok (fitz_save B
             (draw_on (Ref.blank 1) 0
                (DrawRect 400 (842 - 50 - 50)%Q (400 + 150)%Q (842 - 50 - 50 + 50)%Q
                          black white (1 # 2)
                 :: content))))
  /\ exists ops : list App.pil_op,
       B64.draw_signature_boxes 600 849 [mark] 0 595%float 842%float (-1) = Ok ops
       /\ length ops = 3%nat
       /\ B64.top_pixel 849 842%float 50%float (B64.entry_height mark) = Ok 748
       /\ Forall (fun op =>
                    exists (sig : B64.entry) (y : PrimFloat.float) (top : Z),
                      In sig [mark]
                      /\ B64.on_page 0 sig = true
                      /\ B64.e_y sig = Some y
                      /\ B64.top_pixel 849 842%float y (B64.entry_height sig) = Ok top
                      /\ B64.starts_at top op) ops.
Proof.
  intros B mark.
  destruct origin_conversion as (Hrender & Hpreview & _).
  split.
  - exact (Hrender B (Ref.blank 1) (Ref.blank 1) 0%nat Ref.a4 0 400%Q 50%Q 150%Q 50%Q
             (u "Jan") (u "full") None eq_refl eq_refl).
  - eexists. split; [vm_compute; reflexivity |].
    split; [reflexivity |]. split; [vm_compute; reflexivity |].
    refine (proj2 (Hpreview 600 849 [mark] 0 595%float 842%float (-1) _ _)).
    vm_compute. reflexivity.
Defined.

End Origin.

(** *** The protocol page *)

Lemma texts_app (a b : list draw_op) : texts (a ++ b) = texts a ++ texts b.
Proof. unfold texts. rewrite map_app, concat_app. reflexivity. Qed.

Lemma texts_heading (text : str) (fontsize advance : Z) (st : builder) :
  texts (fst (heading text fontsize advance st)) = texts (fst st) ++ [text].
Proof. unfold heading. simpl. rewrite texts_app. reflexivity. Qed.

Lemma texts_rule (st : builder) : texts (fst (rule st)) = texts (fst st).
Proof. unfold rule. simpl. rewrite texts_app. simpl. apply app_nil_r. Qed.

Lemma texts_skip (n : Z) (st : builder) : texts (fst (skip n st)) = texts (fst st).
Proof. reflexivity. Qed.

Lemma texts_body_lines (lines : list str) :
  forall st : builder, texts (fst (body_lines lines st)) = texts (fst st) ++ lines.
Proof.
  unfold body_lines.
  induction lines as [|line lines IH]; intros st; simpl.
  - symmetry. apply app_nil_r.
  - rewrite IH. simpl. rewrite texts_app. simpl.
    rewrite <- app_assoc. reflexivity.
Qed.

Lemma protocol_texts (B : Backend) (n : Z) (sigs : list placement)
    (cert_info : cert_info_t) (github_url : str) :
  texts (protocol_ops B n sigs cert_info github_url)
  = [u "Digital Signature Protocol"; u "Document Information:";
     u "Number of pages: " ++ str_of_Z n;
     u "Signing date: " ++ strftime (now B) (u "%Y-%m-%d %H:%M:%S");
     u "Certificate Used:"]
    ++ cert_lines cert_info
    ++ [u "Applied Signatures:"]
    ++ signature_lines sigs
    ++ initials_lines sigs
    ++ [u "Signature Verification:"]
    ++ verification_text
    ++ [u "Created by Keboola eSignature | " ++ github_url].
Proof.
  unfold protocol_ops.
  rewrite texts_app.
  repeat first [rewrite texts_body_lines | rewrite texts_heading
               | rewrite texts_skip | rewrite texts_rule].
  simpl texts. rewrite <- !app_assoc. reflexivity.
Qed.

Lemma draw_on_new_page {R} (doc : document R) (w h : Q) (ops : list draw_op) :
  draw_on (new_page doc w h) (length (pages (new_page doc w h)) - 1) ops
  = {| pages := pages doc ++ [{| rect_width := w; rect_height := h; page_ops := ops |}];
       doc_rest := doc_rest doc |}.
Proof.
  unfold draw_on, new_page. simpl. f_equal.
  rewrite length_app. simpl.
  replace (length (pages doc) + 1 - 1)%nat with (length (pages doc) + 0)%nat by lia.
  rewrite alter_app_r. reflexivity.
Qed.

Lemma strictly_sorted (l : list Z) :
  StronglySorted Z.le l -> NoDup l -> StronglySorted Z.lt l.
Proof.
  induction 1 as [|x l Hl IH Hx]; intros Hnd; constructor.
  - apply IH. apply NoDup_cons in Hnd. tauto.
  - apply NoDup_cons in Hnd as [Hnotin _].
    apply Forall_forall. intros y Hy.
    rewrite Forall_forall in Hx. specialize (Hx y Hy).
    assert (x <> y) by (intros ->; apply Hnotin; exact Hy).
    lia.
Qed.

Lemma sorted_set_spec (xs : list Z) :
  StronglySorted Z.lt (sorted_set xs) /\ (forall n, n ∈ sorted_set xs <-> n ∈ xs).
Proof.
  unfold sorted_set. split.
  - apply strictly_sorted.
    + apply StronglySorted_merge_sort; apply _.
    + rewrite merge_sort_Permutation. apply NoDup_remove_dups.
  - intros n. rewrite merge_sort_Permutation. apply elem_of_remove_dups.
Qed.

(** C5: the protocol page is one new page after the last page, so every
    page keeps its index; its page-count line gives the number of pages
    before the new page; placements that are not initials are listed with
    their rank and page, both counted from 1; and placements that are
    initials give one line with their pages, counted from 1, ascending and
    without repetition. *)
Theorem protocol_page_appended (B : Backend)
    (pdf_bytes : buffer B) (sigs : list placement) (signer_name : str)
    (cert_info : cert_info_t) (github_url : option str) (doc : document (rest_t B)) :
  fitz_open B pdf_bytes = Ok doc ->
  let full_sigs := filter (fun s => is_initials s = false) sigs in
  let initials_sigs := filter (fun s => is_initials s = true) sigs in
  exists (pg : page) (initials_pages : list Z),
    create_protocol_page B pdf_bytes sigs signer_name cert_info github_url
    = Ok (fitz_save B {| pages := pages doc ++ [pg]; doc_rest := doc_rest doc |})
    /\ (forall (i : nat) (p : page),
          pages doc !! i = Some p -> (pages doc ++ [pg]) !! i = Some p)
    /\ (pages doc ++ [pg]) !! length (pages doc) = Some pg
    /\ length (pages doc ++ [pg]) = S (length (pages doc))
    /\ texts (page_ops pg)
       = [u "Digital Signature Protocol"; u "Document Information:";
          u "Number of pages: " ++ str_of_Z (Z.of_nat (length (pages doc)));
          u "Signing date: " ++ strftime (now B) (u "%Y-%m-%d %H:%M:%S");
          u "Certificate Used:"]
         ++ cert_lines cert_info
         ++ [u "Applied Signatures:"]
         ++ signature_lines sigs
         ++ initials_lines sigs
         ++ [u "Signature Verification:"]
         ++ verification_text
         ++ [u "Created by Keboola eSignature | "
             ++ default (u "https://github.com/keboola/esignature") github_url]
    /\ length (signature_lines sigs) = length full_sigs
    /\ (forall (i : nat) (s : placement),
          full_sigs !! i = Some s ->
          signature_lines sigs !! i
          = Some (str_of_Z (Z.of_nat i + 1) ++ u ". Digital signature - page "
                  ++ str_of_Z (default 0 (p_page s) + 1)))
    /\ initials_lines sigs
       = match initials_sigs with
         | [] => []
         | _ :: _ => [u "Initials - pages: " ++ join (u ", ") (map str_of_Z initials_pages)]
         end
    /\ StronglySorted Z.lt initials_pages
    /\ (forall n : Z,
          n ∈ initials_pages
          <-> exists s, s ∈ sigs /\ is_initials s = true /\ n = default 0 (p_page s) + 1).
Proof.
  intros Hopen full_sigs initials_sigs.
  set (url := default (u "https://github.com/keboola/esignature") github_url).
  exists {| rect_width := 595; rect_height := 842;
            page_ops := protocol_ops B (Z.of_nat (length (pages doc))) sigs cert_info url |}.
  exists (sorted_set (map page_1based initials_sigs)).
  destruct (sorted_set_spec (map page_1based initials_sigs)) as [Hsorted Helem].
  split; [| split; [| split; [| split; [| split; [| split; [| split; [| split; [| split]]]]]]]].
  - unfold create_protocol_page. rewrite Hopen.
    cbv beta iota zeta delta [rbind]. fold url.
    rewrite draw_on_new_page.
    replace (doc_len (new_page doc 595 842) - 1) with (Z.of_nat (length (pages doc))).
    + reflexivity.
    + unfold doc_len, new_page. simpl. rewrite length_app. simpl. lia.
  - intros i p Hp. apply lookup_app_l_Some. exact Hp.
  - rewrite lookup_app_r by lia. rewrite Nat.sub_diag. reflexivity.
  - rewrite length_app. simpl. lia.
  - simpl page_ops. apply protocol_texts.
  - unfold signature_lines. apply length_imap.
  - intros i s Hs. unfold signature_lines. fold full_sigs.
    rewrite list_lookup_imap, Hs. reflexivity.
  - unfold initials_lines. fold initials_sigs. destruct initials_sigs; reflexivity.
  - exact Hsorted.
  - intros n. rewrite Helem.
    change (map page_1based initials_sigs) with (page_1based <$> initials_sigs).
    rewrite list_elem_of_fmap. unfold initials_sigs. split.
    + intros (s & -> & Hs). apply list_elem_of_filter in Hs as [Hini Hin].
      exists s. repeat split; assumption.
    + intros (s & Hin & Hini & ->). exists s. split; [reflexivity |].
      apply list_elem_of_filter. split; assumption.
Qed.

Lemma protocol_page_appended_witness :
  let B := Ref.backend true in
  let sigs := [Ref.at_page 1 "initials" 20 20; Ref.at_page 0 "full" 400 50;
               Ref.at_page 0 "initials" 20 20; Ref.at_page 1 "initials" 500 20] in
  fitz_open B (Ref.blank 2) = Ok (Ref.blank 2)
  /\ exists pg : page,
       create_protocol_page B (Ref.blank 2) sigs (u "Jan") (get_certificate_info B Ref.jan) None
       = Ok {| pages := [Ref.a4; Ref.a4; pg]; doc_rest := doc_rest (Ref.blank 2) |}
       /\ signature_lines sigs = [u "1. Digital signature - page 1"]
       /\ initials_lines sigs = [u "Initials - pages: 1, 2"].
Proof.
  split; [reflexivity |].
  destruct (protocol_page_appended (Ref.backend true) (Ref.blank 2)
              [Ref.at_page 1 "initials" 20 20; Ref.at_page 0 "full" 400 50;
               Ref.at_page 0 "initials" 20 20; Ref.at_page 1 "initials" 500 20]
              (u "Jan") (get_certificate_info (Ref.backend true) Ref.jan) None
              (Ref.blank 2) eq_refl) as (pg & ps & Hpage & _).
  exists pg. split; [exact Hpage |].
  split; vm_compute; reflexivity.
Defined.

(** ** Further properties of the code *)

(** *** [normalize_text] *)

Lemma replace_single (s : str) (o r : N) :
  replace s [o] [r] = map (fun c => if (o =? c)%N then r else c) s.
Proof.
  unfold replace. induction s as [|c s IH]; [reflexivity |].
  simpl. rewrite andb_true_r.
  destruct (o =? c)%N; simpl; rewrite IH; reflexivity.
Qed.

Lemma replacements_single :
  replacements = map (fun p => ([fst p], [snd p])) replacement_chars.
Proof. vm_compute. reflexivity. Qed.

Lemma normalize_fold (tbl : list (N * N)) :
  forall text : str,
    fold_left (fun acc p => replace acc (fst p) (snd p))
      (map (fun p => ([fst p], [snd p])) tbl) text
    = map (subst_chain tbl) text.
Proof.
  induction tbl as [|p tbl IH]; intros text.
  - simpl. symmetry. apply map_id.
  - cbn [map fold_left fst snd]. rewrite IH, replace_single, map_map. reflexivity.
Qed.

Lemma normalize_text_map (text : str) : normalize_text text = map normalize_cp text.
Proof. unfold normalize_text. rewrite replacements_single. apply normalize_fold. Qed.

Lemma subst_chain_id (tbl : list (N * N)) (c : N) :
  c ∉ map fst tbl -> subst_chain tbl c = c.
Proof.
  unfold subst_chain. induction tbl as [|p tbl IH]; intros Hc; simpl; [reflexivity |].
  simpl in Hc. apply not_elem_of_cons in Hc as [Hne Hc].
  destruct (N.eqb_spec (fst p) c) as [Heq|_]; [congruence |].
  apply IH. exact Hc.
Qed.

Lemma subst_chain_avoids (todo : list (N * N)) :
  forall (done : list (N * N)) (c : N),
    Forall (fun p => snd p ∉ map fst (done ++ todo)) todo ->
    c ∉ map fst done ->
    subst_chain todo c ∉ map fst (done ++ todo).
Proof.
  unfold subst_chain.
  induction todo as [|p todo IH]; intros done c Hrepl Hc; simpl.
  - rewrite app_nil_r. exact Hc.
  - apply Forall_cons in Hrepl as [Hp Hrepl].
    replace (done ++ p :: todo) with ((done ++ [p]) ++ todo) in *
      by (rewrite <- app_assoc; reflexivity).
    apply IH; [exact Hrepl |].
    destruct (N.eqb_spec (fst p) c) as [Heq|Hne].
    + intros Hin. apply Hp. rewrite map_app. apply elem_of_app. left. exact Hin.
    + rewrite map_app. intros Hin. apply elem_of_app in Hin as [Hin|Hin].
      * exact (Hc Hin).
      * simpl in Hin. apply list_elem_of_singleton in Hin. congruence.
Qed.

Lemma normalize_cp_plain (c : N) : normalize_cp c ∉ accented.
Proof.
  unfold normalize_cp, accented.
  apply (subst_chain_avoids replacement_chars [] c).
  - refine (bool_decide_unpack _ _). vm_compute. exact I.
  - simpl. apply not_elem_of_nil.
Qed.

(** X1: [normalize_text] acts character by character: the text keeps its
    length, none of the thirty accented letters of the table is left, a
    character that is not in the table stays where it is, and normalising
    twice changes nothing more. *)
Theorem normalize_text_characterwise (text : str) :
  length (normalize_text text) = length text
  /\ Forall (fun c => c ∉ accented) (normalize_text text)
  /\ (forall (i : nat) (c : N),
        text !! i = Some c ->
        normalize_text text !! i
        = Some (if bool_decide (c ∈ accented) then normalize_cp c else c))
  /\ normalize_text (normalize_text text) = normalize_text text.
Proof.
  rewrite !normalize_text_map. split; [apply length_map |]. split; [| split].
  - apply Forall_forall. intros c Hc.
    change (map normalize_cp text) with (normalize_cp <$> text) in Hc.
    apply list_elem_of_fmap in Hc as (c0 & -> & _). apply normalize_cp_plain.
  - intros i c Hi.
    change (map normalize_cp text) with (normalize_cp <$> text).
    unfold str in *. rewrite list_lookup_fmap, Hi. simpl. f_equal.
    destruct (bool_decide (c ∈ accented)) eqn:Hc; [reflexivity |].
    apply bool_decide_eq_false in Hc. apply subst_chain_id. exact Hc.
  - rewrite map_map. apply map_ext. intros c.
    apply subst_chain_id. apply normalize_cp_plain.
Qed.

Lemma normalize_text_characterwise_witness :
  u "Řehoř Šťastný" !! 4%nat = Some 345%N
  /\ normalize_text (u "Řehoř Šťastný") !! 4%nat = Some 114%N
  /\ normalize_text (u "Řehoř Šťastný") = u "Rehor Stastny".
Proof.
  split; [reflexivity |].
  destruct (normalize_text_characterwise (u "Řehoř Šťastný")) as (_ & _ & Hat & _).
  split; [rewrite (Hat 4%nat 345%N eq_refl); reflexivity | vm_compute; reflexivity].
Defined.

(** *** Every way a run can end *)

Section CaseFacts.

Context {B : Backend}.

Lemma loop_size_resolved (sig : placement) :
  (if str_eqb (default (u "full") (p_type sig)) (u "initials")
   then (default INITIALS_WIDTH (p_width sig), default INITIALS_HEIGHT (p_height sig))
   else (default SIGNATURE_WIDTH (p_width sig), default SIGNATURE_HEIGHT (p_height sig)))
  = resolved_size sig.
Proof.
  unfold resolved_size, default_size, kind_of.
  destruct (str_eqb _ _); reflexivity.
Qed.

Lemma sign_loop_step (signer : signer_t B) (signer_name reason : str)
    (i : nat) (sig : placement) (later : list placement) (b : buffer B) :
  sign_loop B signer signer_name create_minimal_stamp_style reason i (sig :: later) b
  = match placement_coords sig with
    | Raise e => ([], Raise e)
    | Ok (page, x, y) =>
      match loop_render b signer_name sig page x y with
      | Raise e => ([], Raise e)
      | Ok rendered =>
        match loop_sign signer reason i sig page x y rendered with
        | Raise e => ([render_event b signer_name sig page x y rendered], Raise e)
        | Ok signed =>
          let '(t, r) := sign_loop B signer signer_name create_minimal_stamp_style
                           reason (S i) later signed in
          (render_event b signer_name sig page x y rendered
           :: sign_event reason i sig page x y rendered signed :: t, r)
        end
      end
    end.
Proof.
  cbn [sign_loop]. unfold placement_coords.
  destruct (p_page sig) as [page|]; [| reflexivity].
  destruct (p_x sig) as [x|]; [| reflexivity].
  destruct (p_y sig) as [y|]; [| reflexivity].
  cbn [getitem lift mbind rbind app].
  rewrite loop_size_resolved.
  unfold loop_render, loop_sign, render_event, sign_event, loop_meta, loop_spec.
  fold (kind_of sig).
  destruct (resolved_size sig) as [w h]. cbn [fst snd].
  destruct (render_signature_appearance B b page x y w h signer_name (kind_of sig) None)
    as [rendered|e]; [| reflexivity].
  unfold mbind, stage.
  destruct (pdf_signer_sign B signer _ _ _ rendered) as [signed|e]; [| reflexivity].
  destruct (sign_loop B signer signer_name create_minimal_stamp_style reason (S i) later signed)
    as [t r].
  reflexivity.
Qed.

Lemma sign_loop_cases (signer : signer_t B) (signer_name reason : str)
    (sigs : list placement) :
  forall (i : nat) (b : buffer B),
    loop_case signer signer_name reason i b sigs
      (fst (sign_loop B signer signer_name create_minimal_stamp_style reason i sigs b))
      (snd (sign_loop B signer signer_name create_minimal_stamp_style reason i sigs b)).
Proof.
  induction sigs as [|sig later IH]; intros i b.
  - constructor.
  - rewrite sign_loop_step.
    destruct (placement_coords sig) as [[[page x] y]|e] eqn:Hc;
      [| apply loop_key_missing; exact Hc].
    destruct (loop_render b signer_name sig page x y) as [rendered|e] eqn:Hr;
      [| eapply loop_render_failed; eassumption].
    destruct (loop_sign signer reason i sig page x y rendered) as [signed|e] eqn:Hs;
      [| eapply loop_sign_failed; eassumption].
    specialize (IH (S i) signed).
    destruct (sign_loop B signer signer_name create_minimal_stamp_style reason (S i) later signed)
      as [t r].
    eapply loop_next; eassumption.
Qed.

Lemma loop_case_run (signer : signer_t B) (signer_name reason : str)
    i b sigs t r :
  loop_case signer signer_name reason i b sigs t r ->
  sign_loop B signer signer_name create_minimal_stamp_style reason i sigs b = (t, r).
Proof.
  intros H. induction H; [reflexivity | | | |]; rewrite sign_loop_step.
  - rewrite H. reflexivity.
  - rewrite H, H0. reflexivity.
  - rewrite H, H0, H1. reflexivity.
  - rewrite H, H0, H1, IHloop_case. reflexivity.
Qed.

Lemma loop_case_chain (signer : signer_t B) (signer_name reason : str)
    i b sigs t out :
  loop_case signer signer_name reason i b sigs t (Ok out)
  <-> chain signer signer_name reason i b sigs t out.
Proof.
  split.
  - intros H. apply sign_loop_chain. apply loop_case_run. exact H.
  - intros H. induction H.
    + constructor.
    + eapply loop_next; try eassumption.
      unfold placement_coords. rewrite H, H0, H1. reflexivity.
Qed.

End CaseFacts.

Lemma run_case_holds {B : Backend}
    (pdf_bytes : buffer B) (p12_bytes : p12_t B) (p12_password : str)
    (sigs : list placement) (lock proto : bool) (reason : str) :
  run_case pdf_bytes p12_bytes p12_password sigs lock proto reason
    (sign_pdf_multiple B pdf_bytes p12_bytes p12_password sigs lock proto reason).
Proof.
  destruct sigs as [|sig later]; [apply run_refused; reflexivity |].
  assert (Hne : sig :: later <> []) by discriminate.
  unfold sign_pdf_multiple. set (sigs := sig :: later) in *.
  destruct (load_signer_from_p12 B p12_bytes p12_password) as [signer|e] eqn:Hload;
    [| apply run_load_failed; assumption].
  pose proof (sign_loop_cases signer (get_signer_name_from_signer B signer) reason sigs O)
    as Hloop.
  unfold try_except, mbind, stage, mret, mraise.
  destruct proto.
  - destruct (create_protocol_page B pdf_bytes sigs _ _ None) as [b0|e] eqn:Hproto;
      [| eapply run_protocol_failed; eauto].
    specialize (Hloop b0).
    destruct (sign_loop B signer _ _ reason 0 sigs b0) as [body [bN|e]]; simpl in Hloop.
    + destruct lock.
      * destruct (lock_pdf_for_editing B bN) as [out|e] eqn:Hlock.
        -- eapply (run_returned _ _ _ _ true true); eauto.
        -- rewrite !app_nil_r.
           eapply (run_lock_failed _ _ _ _ true true); eauto.
      * eapply (run_returned _ _ _ _ false true); eauto.
    + rewrite !app_nil_r. eapply (run_loop_failed _ _ _ _ lock true); eauto.
  - specialize (Hloop pdf_bytes).
    destruct (sign_loop B signer _ _ reason 0 sigs pdf_bytes) as [body [bN|e]];
      simpl in Hloop.
    + destruct lock.
      * destruct (lock_pdf_for_editing B bN) as [out|e] eqn:Hlock.
        -- eapply (run_returned _ _ _ _ true false); eauto.
        -- rewrite !app_nil_r.
           eapply (run_lock_failed _ _ _ _ true false); eauto.
      * eapply (run_returned _ _ _ _ false false); eauto.
    + rewrite !app_nil_r. eapply (run_loop_failed _ _ _ _ lock false); eauto.
Qed.

(** X2: every run of [sign_pdf_multiple] ends in one of six ways: refused
    for an empty list; stopped by the archive, by the protocol page, inside
    the loop or by the lock; or returned.  In each the stage calls completed
    before are known, and what is raised after entry is the [ValueError]
    "Failed to sign PDF: " followed by the text of the cause. *)
Theorem sign_pdf_multiple_cases (B : Backend)
    (pdf_bytes : buffer B) (p12_bytes : p12_t B) (p12_password : str)
    (sigs : list placement) (lock proto : bool) (reason : str) :
  run_case pdf_bytes p12_bytes p12_password sigs lock proto reason
    (sign_pdf_multiple B pdf_bytes p12_bytes p12_password sigs lock proto reason).
Proof. apply run_case_holds. Qed.

(** *** What holds of every run, returned or not *)

Section ProgressFacts.

Context {B : Backend}.

Lemma length_interleave (n : nat) :
  length (concat (repeat [SRender; SSign] n)) = (2 * n)%nat.
Proof. induction n as [|n IH]; simpl in *; lia. Qed.

Lemma loop_case_progress (signer : signer_t B) (signer_name reason : str)
    i b sigs t r :
  loop_case signer signer_name reason i b sigs t r ->
  map stage_of t `prefix_of` concat (repeat [SRender; SSign] (length sigs))
  /\ (if is_ok r then length t = (2 * length sigs)%nat
      else (length t < 2 * length sigs)%nat)
  /\ map sig_field_name (signed_fields t)
     = map field_name_of (seq i (length (signed_fields t)))
  /\ (length (signed_fields t) <= length (rendered_sizes t)
      <= S (length (signed_fields t)))%nat
  /\ (length (rendered_sizes t) <= length sigs)%nat
  /\ Forall (fun n => n = signer_name) (rendered_names t).
Proof.
  intros H.
  induction H as [| | | |i b sig later pg x y rendered signed t r Hc Hr Hs Hrest IH].
  - repeat split; simpl; try lia; [apply prefix_nil | constructor].
  - repeat split; simpl; try lia; [apply prefix_nil | constructor].
  - repeat split; simpl; try lia; [apply prefix_nil | constructor].
  - repeat split; simpl; try lia.
    + exists (SSign :: concat (repeat [SRender; SSign] (length later))). reflexivity.
    + repeat constructor.
  - destruct IH as (IH1 & IH2 & IH3 & IH4 & IH5 & IH6).
    change (signed_fields (render_event b signer_name sig pg x y rendered
                           :: sign_event reason i sig pg x y rendered signed :: t))
      with (loop_spec i sig pg x y :: signed_fields t).
    change (rendered_sizes (render_event b signer_name sig pg x y rendered
                            :: sign_event reason i sig pg x y rendered signed :: t))
      with (((resolved_size sig).1, (resolved_size sig).2) :: rendered_sizes t).
    change (rendered_names (render_event b signer_name sig pg x y rendered
                            :: sign_event reason i sig pg x y rendered signed :: t))
      with (signer_name :: rendered_names t).
    split; [| split; [| split; [| split; [| split]]]].
    + simpl. apply prefix_cons, prefix_cons. exact IH1.
    + destruct (is_ok r); simpl in *; lia.
    + simpl. f_equal. exact IH3.
    + simpl. lia.
    + simpl. lia.
    + constructor; [reflexivity | exact IH6].
Qed.

Lemma loop_case_missing_key (signer : signer_t B) (signer_name reason : str)
    i b sigs t r :
  loop_case signer signer_name reason i b sigs t r ->
  Exists (fun sig => is_ok (placement_coords sig) = false) sigs ->
  is_ok r = false.
Proof.
  intros H.
  induction H as [| | | |i b sig later pg x y rendered signed t r Hc Hr Hs Hrest IH];
    intros Hex; try reflexivity.
  - inversion Hex.
  - apply Exists_cons in Hex as [Hsig|Hlater].
    + rewrite Hc in Hsig. discriminate.
    + apply IH. exact Hlater.
Qed.

Lemma list_split_views pdf_bytes (signer : signer_t B) (proto : bool) b0
    (body tail : list (event B)) :
  Forall (fun e => stage_of e = SLock) tail ->
  let t := [EvLoadSigner signer]
           ++ (if proto then [EvProtocolPage pdf_bytes b0] else []) ++ body ++ tail in
  signed_fields t = signed_fields body
  /\ rendered_sizes t = rendered_sizes body
  /\ rendered_names t = rendered_names body.
Proof.
  intros Htail t. subst t.
  assert (Hs : signed_fields tail = [] /\ rendered_sizes tail = []
               /\ rendered_names tail = []).
  { induction Htail as [|e tail He _ IH]; [repeat split |].
    destruct e; try discriminate. exact IH. }
  destruct Hs as (Hs1 & Hs2 & Hs3).
  unfold signed_fields, rendered_sizes, rendered_names in *.
  rewrite !omap_app, Hs1, Hs2, Hs3, !app_nil_r.
  destruct proto; repeat split.
Qed.

End ProgressFacts.

(** X3: whether a run returns or fails, its stage calls are an initial part
    of the full order (load, protocol page, render and sign per placement,
    lock), and when it fails at least one call of that order is missing;
    the fields signed so far are "Signature_1" up to "Signature_k" in this
    order; the placements rendered are as many as those signed or one more,
    and never more than there are placements. *)
Theorem run_progress (B : Backend)
    (pdf_bytes : buffer B) (p12_bytes : p12_t B) (p12_password : str)
    (sigs : list placement) (lock proto : bool) (reason : str) :
  let run := sign_pdf_multiple B pdf_bytes p12_bytes p12_password sigs lock proto reason in
  let k := length (signed_fields (trace run)) in
  map stage_of (trace run) `prefix_of` stage_order proto lock (length sigs)
  /\ (if is_ok (outcome run)
      then map stage_of (trace run) = stage_order proto lock (length sigs)
      else (length (trace run) < length (stage_order proto lock (length sigs)))%nat)
  /\ map sig_field_name (signed_fields (trace run)) = map field_name_of (seq 0 k)
  /\ (k <= length (rendered_sizes (trace run)) <= S k)%nat
  /\ (length (rendered_sizes (trace run)) <= length sigs)%nat.
Proof.
  intros run k. subst k.
  pose proof (run_case_holds pdf_bytes p12_bytes p12_password sigs lock proto reason) as H.
  fold run in H. destruct H as [Hnil|e Hne Hload|signer e Hne Hload Hp Hproto
                                |signer b0 body e Hne Hload Hproto Hloop
                                |signer b0 body bN e Hne Hload Hproto Hloop Hl Hlock
                                |signer b0 body bN out Hne Hload Hproto Hloop Hlock].
  - subst sigs. simpl.
    split; [apply prefix_nil |]. split; [destruct proto, lock; simpl; lia |].
    split; [reflexivity |]. split; lia.
  - simpl.
    split; [apply prefix_nil |].
    split; [unfold stage_order; rewrite !length_app, length_interleave; simpl; lia |].
    split; [reflexivity |]. split; lia.
  - subst proto. simpl.
    split; [apply prefix_cons, prefix_nil |].
    split; [unfold stage_order; rewrite !length_app, length_interleave; simpl; lia |].
    split; [reflexivity |]. split; lia.
  - apply loop_case_progress in Hloop as (P1 & P2 & P3 & P4 & P5 & _).
    unfold trace, outcome. cbn [fst snd is_ok].
    destruct (list_split_views pdf_bytes signer proto b0 body [] ltac:(constructor))
      as (V1 & V2 & _).
    rewrite !app_nil_r in V1, V2. rewrite V1, V2.
    split; [| split; [| split; [| split]]]; try assumption.
    + unfold stage_order. rewrite !map_app. apply prefix_app.
      destruct proto; simpl.
      * apply prefix_cons. apply prefix_app_r. exact P1.
      * apply prefix_app_r. exact P1.
    + simpl in P2. unfold stage_order. rewrite !length_app, length_interleave.
      destruct proto, lock; simpl; lia.
  - subst lock.
    apply loop_case_progress in Hloop as (P1 & P2 & P3 & P4 & P5 & _).
    unfold trace, outcome. cbn [fst snd is_ok].
    destruct (list_split_views pdf_bytes signer proto b0 body [] ltac:(constructor))
      as (V1 & V2 & _).
    rewrite !app_nil_r in V1, V2. rewrite V1, V2.
    split; [| split; [| split; [| split]]]; try assumption.
    + unfold stage_order. rewrite !map_app. apply prefix_app.
      destruct proto; simpl.
      * apply prefix_cons. apply prefix_app_r. exact P1.
      * apply prefix_app_r. exact P1.
    + simpl in P2. unfold stage_order. rewrite !length_app, length_interleave.
      destruct proto; simpl; lia.
  - pose proof Hloop as Hchain. apply loop_case_chain in Hchain.
    apply loop_case_progress in Hloop as (P1 & P2 & P3 & P4 & P5 & _).
    unfold trace, outcome. cbn [fst snd is_ok].
    rewrite signed_fields_run, rendered_sizes_run.
    assert (Hstages : map stage_of (run_events pdf_bytes signer proto lock b0 body bN out)
                      = stage_order proto lock (length sigs)).
    { unfold run_events, stage_order.
      rewrite !map_app, (chain_stages _ _ _ _ _ _ _ _ Hchain).
      destruct proto, lock; reflexivity. }
    split; [rewrite Hstages; reflexivity |].
    split; [exact Hstages |].
    split; [exact P3 |]. split; assumption.
Qed.

Lemma run_progress_witness :
  let B := Ref.backend true in
  let run := sign_pdf_multiple B (Ref.blank 1) Ref.p12 (u "secret")
               [Ref.at_page 0 "full" 400 50; Ref.at_page 7 "full" 400 50;
                Ref.at_page 0 "initials" 20 20]
               true true default_reason in
  is_ok (outcome run) = false
  /\ map stage_of (trace run) = [SLoad; SProtocol; SRender; SSign]
  /\ (length (trace run) < length (stage_order true true 3))%nat
  /\ map sig_field_name (signed_fields (trace run)) = [u "Signature_1"].
Proof.
  split; [vm_compute; reflexivity |].
  split; [vm_compute; reflexivity |].
  pose proof (run_progress (Ref.backend true) (Ref.blank 1) Ref.p12 (u "secret")
                [Ref.at_page 0 "full" 400 50; Ref.at_page 7 "full" 400 50;
                 Ref.at_page 0 "initials" 20 20]
                true true default_reason) as (_ & Hstrict & _).
  split; [exact Hstrict | vm_compute; reflexivity].
Defined.

(** X4: a placement without "page", "x" or "y" makes the run fail, wherever
    it stands in the list; the cause is the [KeyError] of the first key
    missing, in the order page, x, y; when it is the first placement (and no
    protocol page is requested) nothing but loading the signer has happened. *)
Theorem missing_key_fails (B : Backend)
    (pdf_bytes : buffer B) (p12_bytes : p12_t B) (p12_password : str)
    (sigs : list placement) (lock proto : bool) (reason : str) :
  let run := sign_pdf_multiple B pdf_bytes p12_bytes p12_password sigs lock proto reason in
  (Exists lacks_key sigs -> is_ok (outcome run) = false)
  /\ (forall sig : placement,
        lacks_key sig ->
        placement_coords sig
        = Raise (Exn KeyError
                   (match p_page sig, p_x sig with
                    | None, _ => u "'page'"
                    | Some _, None => u "'x'"
                    | Some _, Some _ => u "'y'"
                    end)))
  /\ (forall (signer : signer_t B) (sig : placement) (later : list placement) (e : exn),
        sigs = sig :: later ->
        load_signer_from_p12 B p12_bytes p12_password = Ok signer ->
        proto = false ->
        placement_coords sig = Raise e ->
        run = ([EvLoadSigner signer], Raise (wrap e))).
Proof.
  intros run. split; [| split].
  - intros Hex.
    assert (Hex' : Exists (fun sig => is_ok (placement_coords sig) = false) sigs).
    { eapply Exists_impl; [exact Hex |]. intros sig [H|[H|H]];
        unfold placement_coords; destruct (p_page sig), (p_x sig), (p_y sig);
        try discriminate; reflexivity. }
    pose proof (run_case_holds pdf_bytes p12_bytes p12_password sigs lock proto reason) as H.
    fold run in H.
    destruct H as [| | | | |signer b0 body bN out Hne Hload Hproto Hloop Hlock];
      try reflexivity.
    apply (loop_case_missing_key _ _ _ _ _ _ _ _ Hloop) in Hex'. discriminate.
  - intros sig [H|[H|H]]; unfold placement_coords;
      destruct (p_page sig), (p_x sig), (p_y sig); try discriminate; reflexivity.
  - intros signer sig later e -> Hload -> Hcoords. subst run.
    unfold sign_pdf_multiple. rewrite Hload.
    unfold try_except, mbind, stage, mret.
    rewrite sign_loop_step, Hcoords. reflexivity.
Qed.

Lemma missing_key_fails_witness :
  let B := Ref.backend true in
  let no_x := {| p_page := Some 0; p_x := None; p_y := Some 50%Q;
                 p_type := None; p_width := None; p_height := None |} in
  let run := sign_pdf_multiple B (Ref.blank 1) Ref.p12 (u "secret")
               [Ref.at_page 0 "full" 400 50; no_x] false false default_reason in
  Exists lacks_key [Ref.at_page 0 "full" 400 50; no_x]
  /\ is_ok (outcome run) = false
  /\ outcome run = Raise (Exn ValueError (u "Failed to sign PDF: 'x'")).
Proof.
  split; [apply Exists_cons_tl, Exists_cons_hd; right; left; reflexivity |].
  split; [| vm_compute; reflexivity].
  apply (missing_key_fails (Ref.backend true) (Ref.blank 1) Ref.p12 (u "secret")).
  apply Exists_cons_tl, Exists_cons_hd. right. left. reflexivity.
Defined.

(** *** What the signer and the renderer are handed *)

Section CallFacts.

Context {B : Backend}.

Lemma chain_calls (signer : signer_t B) (signer_name reason : str) i b sigs t out :
  chain signer signer_name reason i b sigs t out ->
  Forall2 (call_matches reason) sigs (sign_calls t).
Proof.
  intros H. induction H as [|i b sig later t out pg x y rendered signed Hp Hx Hy Hr Hs Hrest IH].
  - constructor.
  - change (Forall2 (call_matches reason) (sig :: later)
              ((loop_meta i reason, create_minimal_stamp_style, loop_spec i sig pg x y)
               :: sign_calls t)).
    constructor; [| exact IH].
    exists pg, x, y. unfold placement_coords. rewrite Hp, Hx, Hy.
    repeat split.
Qed.

Lemma sign_calls_run pdf_bytes signer proto lock b0 body bN out :
  sign_calls (run_events (B:=B) pdf_bytes signer proto lock b0 body bN out)
  = sign_calls body.
Proof.
  unfold run_events, sign_calls.
  rewrite !omap_app. destruct proto, lock; simpl; rewrite ?app_nil_r; reflexivity.
Qed.

End CallFacts.

(** X5: in a run that returns, the signer is called once per placement, in
    the order of the list, with the page and the lower-left corner of the
    placement, a box of the resolved width and height, the same field name
    in the metadata and in the field, the reason of the run, an empty
    location and the minimal stamp. *)
Theorem signer_calls_follow_placements (B : Backend)
    (pdf_bytes : buffer B) (p12_bytes : p12_t B) (p12_password : str)
    (sigs : list placement) (lock proto : bool) (reason : str) (out : buffer B) :
  let run := sign_pdf_multiple B pdf_bytes p12_bytes p12_password sigs lock proto reason in
  outcome run = Ok out ->
  Forall2 (call_matches reason) sigs (sign_calls (trace run)).
Proof.
  intros run Hok.
  apply run_pair in Hok. apply run_structure in Hok.
  destruct Hok as (signer & b0 & body & bN & _ & _ & Hchain & _ & Ht).
  rewrite Ht, sign_calls_run. eapply chain_calls. exact Hchain.
Qed.

Lemma signer_calls_follow_placements_witness :
  exists out : Ref.file,
    outcome (Ref.sample_run true true) = Ok out
    /\ Forall2 (call_matches default_reason) Ref.two_marks
         (sign_calls (trace (Ref.sample_run true true))).
Proof.
  eexists. split; [vm_compute; reflexivity |].
  exact (signer_calls_follow_placements (Ref.backend true) (Ref.blank 2) Ref.p12
           (u "secret") Ref.two_marks true true default_reason _ eq_refl).
Defined.

(** X6: [get_signer_name] never gives an empty name; it is "Unknown" when
    the archive cannot be loaded, when the certificate cannot be read and
    when the common name is absent or empty; and in every run of the
    pipeline on the same archive and passphrase, the name handed to the
    renderer is this name. *)
Theorem signer_name_shown_is_drawn (B : Backend)
    (pdf_bytes : buffer B) (p12_bytes : p12_t B) (p12_password : str)
    (sigs : list placement) (lock proto : bool) (reason : str) :
  let run := sign_pdf_multiple B pdf_bytes p12_bytes p12_password sigs lock proto reason in
  nonempty (get_signer_name B p12_bytes p12_password) = true
  /\ (is_ok (load_pkcs12_data B p12_bytes p12_password) = false ->
      get_signer_name B p12_bytes p12_password = u "Unknown")
  /\ (forall signer : signer_t B,
        load_pkcs12_data B p12_bytes p12_password = Ok signer ->
        get_signer_name B p12_bytes p12_password
        = match signing_cert B signer with
          | Ok cert =>
            match common_name (subject cert) with
            | Some (c :: cn) => c :: cn
            | _ => u "Unknown"
            end
          | Raise _ => u "Unknown"
          end)
  /\ Forall (fun n => n = get_signer_name B p12_bytes p12_password)
       (rendered_names (trace run)).
Proof.
  intros run. split; [| split; [| split]].
  - unfold get_signer_name, load_signer_from_p12, get_signer_name_from_signer.
    destruct (load_pkcs12_data B p12_bytes p12_password) as [signer|e]; [| reflexivity].
    destruct (signing_cert B signer) as [cert|e]; [| reflexivity].
    destruct (common_name (subject cert)) as [[|c cn]|]; reflexivity.
  - unfold get_signer_name, load_signer_from_p12.
    destruct (load_pkcs12_data B p12_bytes p12_password); [discriminate | reflexivity].
  - intros signer Hload.
    unfold get_signer_name, load_signer_from_p12, get_signer_name_from_signer.
    rewrite Hload.
    destruct (signing_cert B signer) as [cert|e]; [| reflexivity].
    destruct (common_name (subject cert)) as [[|c cn]|]; reflexivity.
  - pose proof (run_case_holds pdf_bytes p12_bytes p12_password sigs lock proto reason) as H.
    fold run in H.
    destruct H as [Hnil|e Hne Hload|signer e Hne Hload Hp Hproto
                   |signer b0 body e Hne Hload Hproto Hloop
                   |signer b0 body bN e Hne Hload Hproto Hloop Hl Hlock
                   |signer b0 body bN out Hne Hload Hproto Hloop Hlock];
      try (simpl; constructor).
    + apply loop_case_progress in Hloop as (_ & _ & _ & _ & _ & Hnames).
      destruct (list_split_views pdf_bytes signer proto b0 body [] ltac:(constructor))
        as (_ & _ & V).
      rewrite !app_nil_r in V. unfold trace. cbn [fst]. rewrite V.
      unfold get_signer_name. rewrite Hload. exact Hnames.
    + apply loop_case_progress in Hloop as (_ & _ & _ & _ & _ & Hnames).
      destruct (list_split_views pdf_bytes signer proto b0 body [] ltac:(constructor))
        as (_ & _ & V).
      rewrite !app_nil_r in V. unfold trace. cbn [fst]. rewrite V.
      unfold get_signer_name. rewrite Hload. exact Hnames.
    + apply loop_case_progress in Hloop as (_ & _ & _ & _ & _ & Hnames).
      assert (Htail : Forall (fun e : event B => stage_of e = SLock)
                        (if lock then [EvLock bN out] else [])).
      { destruct lock; repeat constructor. }
      destruct (list_split_views pdf_bytes signer proto b0 body _ Htail) as (_ & _ & V).
      unfold trace, run_events. cbn [fst]. rewrite V.
      unfold get_signer_name. rewrite Hload. exact Hnames.
Qed.

Lemma signer_name_shown_is_drawn_witness :
  let B := Ref.backend true in
  is_ok (load_pkcs12_data B Ref.p12 (u "guess")) = false
  /\ get_signer_name B Ref.p12 (u "guess") = u "Unknown"
  /\ get_signer_name B Ref.p12 (u "secret") = u "Ing. Jan Novák Ph.D."
  /\ rendered_names (trace (Ref.sample_run false false))
     = [u "Ing. Jan Novák Ph.D."; u "Ing. Jan Novák Ph.D."].
Proof.
  split; [vm_compute; reflexivity |].
  destruct (signer_name_shown_is_drawn (Ref.backend true) (Ref.blank 2) Ref.p12 (u "guess")
              Ref.two_marks false false default_reason) as (_ & Hunknown & _).
  split; [apply Hunknown; vm_compute; reflexivity |].
  split; vm_compute; reflexivity.
Defined.

(** X7: the run returns when its stages succeed one after the other: the
    signer loads, the protocol page (if requested) is created, every
    placement of a non-empty list is rendered and signed in turn, each on
    the bytes the previous call returned, and the lock (if requested)
    succeeds; it then returns the bytes of the last stage. *)
Theorem run_returns (B : Backend)
    (pdf_bytes : buffer B) (p12_bytes : p12_t B) (p12_password : str)
    (sigs : list placement) (lock proto : bool) (reason : str)
    (signer : signer_t B) (b0 : buffer B) (body : list (event B)) (bN out : buffer B) :
  sigs <> [] ->
  load_signer_from_p12 B p12_bytes p12_password = Ok signer ->
  (if proto
   then create_protocol_page B pdf_bytes sigs (get_signer_name_from_signer B signer)
          (get_certificate_info B signer) None = Ok b0
   else b0 = pdf_bytes) ->
  chain signer (get_signer_name_from_signer B signer) reason 0 b0 sigs body bN ->
  (if lock then lock_pdf_for_editing B bN = Ok out else out = bN) ->
  sign_pdf_multiple B pdf_bytes p12_bytes p12_password sigs lock proto reason
  = (run_events pdf_bytes signer proto lock b0 body bN out, Ok out).
Proof.
  intros Hne Hload Hproto Hchain Hlock.
  destruct sigs as [|sig later]; [congruence |].
  unfold sign_pdf_multiple. set (sigs := sig :: later) in *.
  rewrite Hload.
  apply loop_case_chain, loop_case_run in Hchain.
  unfold try_except, mbind, stage, mret, run_events.
  destruct proto.
  - rewrite Hproto, Hchain. destruct lock.
    + rewrite Hlock. reflexivity.
    + subst out. rewrite !app_nil_r. reflexivity.
  - subst b0. rewrite Hchain. destruct lock.
    + rewrite Hlock. reflexivity.
    + subst out. rewrite !app_nil_r. reflexivity.
Qed.

Lemma run_returns_witness :
  let B := Ref.backend true in
  exists (body : list (event B)) (bN out : buffer B),
    Ref.two_marks <> []
    /\ chain (B:=B) Ref.jan (u "Ing. Jan Novák Ph.D.") default_reason 0 (Ref.blank 2)
         Ref.two_marks body bN
    /\ lock_pdf_for_editing B bN = Ok out
    /\ sign_pdf_multiple B (Ref.blank 2) Ref.p12 (u "secret") Ref.two_marks true false
         default_reason
       = (run_events (B:=B) (Ref.blank 2) Ref.jan false true (Ref.blank 2) body bN out, Ok out).
Proof.
  intros B.
  assert (Hchain : exists body bN,
            chain (B:=B) Ref.jan (u "Ing. Jan Novák Ph.D.") default_reason 0 (Ref.blank 2)
              Ref.two_marks body bN).
  { eexists. eexists. apply sign_loop_chain. vm_compute. reflexivity. }
  destruct Hchain as (body & bN & Hchain).
  exists body, bN. eexists.
  split; [discriminate |]. split; [exact Hchain |].
  split; [reflexivity |].
  apply (run_returns B (Ref.blank 2) Ref.p12 (u "secret") Ref.two_marks true false
           default_reason Ref.jan (Ref.blank 2) body bN);
    [discriminate | reflexivity | reflexivity | exact Hchain | reflexivity].
Defined.

(** *** The renderer, page by page *)

Lemma doc_getitem_lookup (B : Backend) (doc : document (rest_t B)) (i : Z)
    (k : nat) (pg : page) :
  doc_getitem B doc i = Ok (k, pg) ->
  pages doc !! k = Some pg
  /\ i < doc_len doc
  /\ k = Z.to_nat (i mod doc_len doc).
Proof.
  unfold doc_getitem, page_index.
  destruct ((i <? doc_len doc) && (0 <? doc_len doc)) eqn:Hin; simpl; [| discriminate].
  apply andb_true_iff in Hin as [Hlt _]. apply Z.ltb_lt in Hlt.
  destruct (pages doc !! Z.to_nat (i mod doc_len doc)) as [p|] eqn:Hp; [| discriminate].
  intros [= <- <-]. repeat split; assumption.
Qed.

(** X8: rendering a mark changes one page only: the page [doc[page_num]]
    (a negative index counts from the end) gets drawing calls after those it
    had, starting with the box; its size, every other page, the number of
    pages and the rest of the file go to [save] as they were read.  The
    texts written are the normalised initials for the kind "initials", and
    the name, the time line and the attribution for any other kind. *)
Theorem render_changes_one_page (B : Backend)
    (pdf_bytes : buffer B) (page_num : Z) (x y width height : Q)
    (signer_name kind : str) (font_path : option str)
    (doc : document (rest_t B)) (k : nat) (pg : page) :
  fitz_open B pdf_bytes = Ok doc ->
  doc_getitem B doc page_num = Ok (k, pg) ->
  exists (doc' : document (rest_t B)) (ops : list draw_op),
    render_signature_appearance B pdf_bytes page_num x y width height
      signer_name kind font_path = Ok (fitz_save B doc')
    /\ k = Z.to_nat (page_num mod doc_len doc)
    /\ length (pages doc') = length (pages doc)
    /\ doc_rest doc' = doc_rest doc
    /\ (forall j : nat, j <> k -> pages doc' !! j = pages doc !! j)
    /\ pages doc' !! k
       = Some {| rect_width := rect_width pg; rect_height := rect_height pg;
                 page_ops := page_ops pg ++ ops |}
    /\ head ops
       = Some (DrawRect x (rect_height pg - y - height)%Q (x + width)%Q
                 (rect_height pg - y - height + height)%Q black white (1 # 2))
    /\ texts ops = mark_texts B signer_name kind.
Proof.
  intros Hopen Hpage.
  destruct (doc_getitem_lookup B doc page_num k pg Hpage) as (Hk & _ & Hidx).
  unfold render_signature_appearance. rewrite Hopen.
  cbv beta iota zeta delta [rbind]. rewrite Hpage.
  cbv beta iota zeta delta [rbind fst snd].
  eexists. eexists. split; [reflexivity |].
  split; [exact Hidx |].
  unfold draw_on. cbn [pages doc_rest].
  split; [apply length_alter |]. split; [reflexivity |].
  split; [intros j Hj; apply list_lookup_alter_ne; congruence |].
  split; [rewrite list_lookup_alter_eq, Hk; reflexivity |].
  split; [reflexivity |].
  unfold mark_texts. destruct (str_eqb kind (u "initials")); [reflexivity |].
  destruct (insert_font B (u "dancing") (default (FONT_PATH B) font_path));
    reflexivity.
Qed.

Lemma render_changes_one_page_witness :
  let B := Ref.backend true in
  exists (doc' : Ref.file) (ops : list draw_op),
    fitz_open B (Ref.blank 3) = Ok (Ref.blank 3)
    /\ doc_getitem B (Ref.blank 3) (-1) = Ok (2%nat, Ref.a4)
    /\ render_signature_appearance B (Ref.blank 3) (-1) 20 20 50 35
         (u "Čeněk Novák") (u "initials") None = Ok doc'
    /\ pages doc' !! 0%nat = Some Ref.a4
    /\ pages doc' !! 1%nat = Some Ref.a4
    /\ texts ops = [u "CN"]
    /\ pages doc' !! 2%nat
       = Some {| rect_width := 595; rect_height := 842; page_ops := ops |}.
Proof.
  intros B.
  destruct (render_changes_one_page B (Ref.blank 3) (-1) 20 20 50 35
              (u "Čeněk Novák") (u "initials") None (Ref.blank 3) 2%nat Ref.a4
              eq_refl eq_refl)
    as (doc' & ops & Hrender & _ & _ & _ & Hother & Hpage & _ & Htexts).
  exists doc', ops.
  split; [reflexivity |]. split; [reflexivity |].
  split; [exact Hrender |].
  split; [rewrite Hother by discriminate; reflexivity |].
  split; [rewrite Hother by discriminate; reflexivity |].
  split; [rewrite Htexts; vm_compute; reflexivity |].
  exact Hpage.
Defined.

(** *** The time line *)

Lemma startswith_app (p s : str) : startswith p (p ++ s) = true.
Proof.
  induction p as [|c p IH]; [reflexivity |].
  simpl. rewrite N.eqb_refl. exact IH.
Qed.

Lemma endswith_app (p s : str) : endswith p (s ++ p) = true.
Proof. unfold endswith. rewrite rev_app_distr. apply startswith_app. Qed.

(** X9: the time line of a full mark always ends with a zone name: one of
    CET, CEST, UTC, GMT when the formatted time already ends with it, and
    otherwise the local zone name ([time.tzname[1]] when [time.daylight] is
    set, else [time.tzname[0]]) after a space. *)
Theorem date_line_ends_with_zone (B : Backend) :
  let tz := if time_daylight B then snd (time_tzname B) else fst (time_tzname B) in
  let stamp := strip (strftime (now B) (u "%Y-%m-%d %H:%M:%S %Z")) in
  (existsb (fun z => endswith z stamp) known_zones = true
   /\ date_line B = stamp
   /\ exists z, z ∈ known_zones /\ endswith z (date_line B) = true)
  \/ (existsb (fun z => endswith z stamp) known_zones = false
      /\ date_line B = strftime (now B) (u "%Y-%m-%d %H:%M:%S") ++ u " " ++ tz
      /\ endswith tz (date_line B) = true).
Proof.
  intros tz stamp.
  assert (Hsame : existsb (fun z => endswith (u z) stamp)
                    ["CET"; "CEST"; "UTC"; "GMT"]%string
                  = existsb (fun z => endswith z stamp) known_zones) by reflexivity.
  unfold date_line. fold stamp. fold tz. rewrite Hsame.
  destruct (existsb (fun z => endswith z stamp) known_zones) eqn:Hz; cbn [negb].
  - left. split; [reflexivity |]. split; [reflexivity |].
    apply existsb_exists in Hz as (z & Hin & Hend).
    exists z. split; [apply list_elem_of_In; exact Hin | exact Hend].
  - right. split; [reflexivity |]. split; [reflexivity |].
    rewrite app_assoc. apply endswith_app.
Qed.

(** *** The layout of the protocol page *)

Lemma rows_cons (y : Z) (n : nat) : rows y (S n) = y :: rows (y + 14) n.
Proof.
  unfold rows. simpl. f_equal; [lia |].
  rewrite <- seq_shift, map_map. apply map_ext. intros k. lia.
Qed.

Lemma rows_snoc (y : Z) (n : nat) : rows y (S n) = rows y n ++ [y + 14 * Z.of_nat n].
Proof. unfold rows. rewrite seq_S, map_app. reflexivity. Qed.

Lemma below_snoc (l : list Z) (y m : Z) : below l y -> y < m -> below (l ++ [y]) m.
Proof.
  intros [Hs Hb] Hy. split.
  - apply StronglySorted_app_2; [| exact Hs | repeat constructor].
    intros a b Ha Hb'. apply list_elem_of_singleton in Hb'. subst b.
    rewrite Forall_forall in Hb. apply Hb. exact Ha.
  - apply Forall_app. split.
    + eapply Forall_impl; [exact Hb |]. simpl. intros a Ha. lia.
    + repeat constructor. exact Hy.
Qed.

Lemma below_le (l : list Z) (m m' : Z) : below l m -> m <= m' -> below l m'.
Proof.
  intros [Hs Hb] Hm. split; [exact Hs |].
  eapply Forall_impl; [exact Hb |]. simpl. intros a Ha. lia.
Qed.

Lemma below_rows (l : list Z) (y : Z) (n : nat) :
  below l y -> below (l ++ rows y n) (y + 14 * Z.of_nat n).
Proof.
  intros Hl. induction n as [|n IH].
  - unfold rows. simpl. rewrite app_nil_r. eapply below_le; [exact Hl | lia].
  - rewrite rows_snoc, app_assoc.
    apply below_snoc; [exact IH | lia].
Qed.

Lemma text_ys_app (a b : list draw_op) : text_ys (a ++ b) = text_ys a ++ text_ys b.
Proof. unfold text_ys. apply omap_app. Qed.

Lemma tracks_heading text fontsize advance st ys y :
  tracks st ys y -> tracks (heading text fontsize advance st) (ys ++ [y]) (y + advance).
Proof.
  intros [Ht Hy]. unfold tracks, heading. cbn [fst snd].
  rewrite text_ys_app, Ht, map_app, Hy. split; reflexivity.
Qed.

Lemma tracks_rule st ys y : tracks st ys y -> tracks (rule st) ys y.
Proof.
  intros [Ht Hy]. unfold tracks, rule. cbn [fst snd].
  rewrite text_ys_app, Ht. simpl. rewrite app_nil_r. split; [reflexivity | exact Hy].
Qed.

Lemma tracks_skip n st ys y : tracks st ys y -> tracks (skip n st) ys (y + n).
Proof. intros [Ht Hy]. unfold tracks, skip. cbn [fst snd]. rewrite Hy. split; auto. Qed.

Lemma tracks_body (lines : list str) :
  forall st ys y,
    tracks st ys y ->
    tracks (body_lines lines st) (ys ++ rows y (length lines))
      (y + 14 * Z.of_nat (length lines)).
Proof.
  unfold body_lines.
  induction lines as [|line lines IH]; intros st ys y [Ht Hy].
  - simpl. unfold rows. simpl. rewrite app_nil_r.
    split; [exact Ht | lia].
  - cbn [fold_left length].
    rewrite rows_cons.
    replace (ys ++ y :: rows (y + 14) (length lines))
      with ((ys ++ [y]) ++ rows (y + 14) (length lines))
      by (rewrite <- app_assoc; reflexivity).
    replace (y + 14 * Z.of_nat (S (length lines)))
      with (y + 14 + 14 * Z.of_nat (length lines)) by lia.
    apply IH. unfold tracks. cbn [fst snd].
    rewrite text_ys_app, Ht, map_app, Hy. split; reflexivity.
Qed.

Lemma cert_lines_count (cert_info : cert_info_t) :
  (5 <= length (cert_lines cert_info) <= 7)%nat.
Proof.
  unfold cert_lines.
  destruct (nonempty (subject_org cert_info)), (nonempty (issuer_org cert_info));
    simpl; lia.
Qed.

Lemma initials_lines_count (sigs : list placement) :
  (length (initials_lines sigs) <= 1)%nat.
Proof.
  unfold initials_lines.
  destruct (filter (fun s => is_initials s = true) sigs); simpl; lia.
Qed.

Lemma protocol_rows_below (c s i : nat) :
  below (protocol_rows c s i)
    (364 + 14 * (Z.of_nat c + Z.of_nat s + Z.of_nat i)).
Proof.
  unfold protocol_rows. cbv zeta.
  set (n := Z.of_nat c + Z.of_nat s + Z.of_nat i).
  change (rows (265 + 14 * n) 8)
    with (rows (265 + 14 * n) 7 ++ [265 + 14 * n + 14 * Z.of_nat 7]).
  rewrite !app_assoc.
  apply below_snoc; [| lia].
  eapply below_le; [apply below_rows |]; [| lia].
  apply below_snoc; [| lia].
  eapply below_le; [apply below_rows |]; [| lia].
  eapply below_le; [apply below_rows |]; [| lia].
  apply below_snoc; [| lia].
  eapply below_le; [apply below_rows |]; [| lia].
  apply below_snoc; [| lia].
  eapply below_le; [apply (below_rows _ 133 2) |]; [| lia].
  apply (below_snoc [50] 115 133); [| lia].
  apply (below_snoc [] 50 115); [| lia].
  split; constructor.
Qed.

(** X10: the protocol page is written top to bottom without pagination:
    above the footer, the texts stand at strictly increasing heights,
    14 points apart inside a block; the last one stands at
    363 + 14 * (c + s + i) for [c] certificate lines (5 to 7), [s] signature
    lines (one per placement that is not initials) and [i] lines of initials
    (at most 1); so the text stays above the footer rule at 742 exactly when
    c + s + i <= 27: always with at most 19 signatures, never with 23 or
    more.  The footer text stands at 757. *)
Theorem protocol_layout (B : Backend) (original_page_count : Z)
    (sigs : list placement) (cert_info : cert_info_t) (github_url : str) :
  let c := length (cert_lines cert_info) in
  let s := length (filter (fun p => is_initials p = false) sigs) in
  let i := length (initials_lines sigs) in
  let ys := protocol_rows c s i in
  text_ys (protocol_ops B original_page_count sigs cert_info github_url)
  = map inject_Z (ys ++ [757])
  /\ StronglySorted Z.lt ys
  /\ last ys = Some (363 + 14 * Z.of_nat (c + s + i))
  /\ (5 <= c <= 7)%nat /\ (i <= 1)%nat
  /\ (Forall (fun y => y < 742) ys <-> (c + s + i <= 27)%nat)
  /\ ((s <= 19)%nat -> Forall (fun y => y < 742) ys)
  /\ ((23 <= s)%nat -> ~ Forall (fun y => y < 742) ys).
Proof.
  intros c s i ys.
  assert (Hs : length (signature_lines sigs) = s)
    by (unfold signature_lines; apply length_imap).
  pose proof (cert_lines_count cert_info) as Hc. fold c in Hc.
  pose proof (initials_lines_count sigs) as Hi. fold i in Hi.
  destruct (protocol_rows_below c s i) as [Hsorted Hbelow]. fold ys in Hsorted, Hbelow.
  assert (Hlast : last ys = Some (363 + 14 * Z.of_nat (c + s + i))).
  { unfold ys, protocol_rows. cbv zeta.
    change (rows (265 + 14 * (Z.of_nat c + Z.of_nat s + Z.of_nat i)) 8)
      with (rows (265 + 14 * (Z.of_nat c + Z.of_nat s + Z.of_nat i)) 7
            ++ [265 + 14 * (Z.of_nat c + Z.of_nat s + Z.of_nat i) + 14 * Z.of_nat 7]).
    rewrite !app_assoc, last_snoc. f_equal. lia. }
  assert (Hiff : Forall (fun y => y < 742) ys <-> (c + s + i <= 27)%nat).
  { split.
    - intros Hall. rewrite Forall_forall in Hall.
      assert (Hin : 363 + 14 * Z.of_nat (c + s + i) ∈ ys).
      { apply last_Some_elem_of. exact Hlast. }
      specialize (Hall _ Hin). lia.
    - intros Hn. eapply Forall_impl; [exact Hbelow |]. simpl. intros y Hy. lia. }
  split; [| split; [exact Hsorted | split; [exact Hlast |]]].
  - unfold protocol_ops. cbv zeta.
    match goal with
    | |- text_ys (fst ?st ++ _) = _ =>
      assert (Htr : exists ys' y', tracks st ys' y' /\ ys' = ys)
    end.
    { eexists. eexists. split.
      - apply tracks_body, tracks_heading, tracks_skip, tracks_body, tracks_body,
          tracks_heading, tracks_skip, tracks_body, tracks_heading, tracks_skip,
          tracks_body, tracks_heading, tracks_skip, tracks_rule, tracks_heading.
        exact (conj eq_refl eq_refl : tracks ([], 50) [] 50).
      - rewrite Hs. fold c. fold i.
        unfold ys, protocol_rows. cbv zeta. simpl length.
        rewrite <- !app_assoc. simpl app.
        repeat (f_equal; try lia). }
    destruct Htr as (ys' & y' & [Hty _] & ->).
    rewrite text_ys_app, Hty, map_app. reflexivity.
  - split; [exact Hc |]. split; [exact Hi |]. split; [exact Hiff |].
    split.
    + intros Hle. apply Hiff. lia.
    + intros Hge Hall. apply Hiff in Hall. lia.
Qed.

Lemma protocol_layout_witness :
  let B := Ref.backend true in
  let sigs := repeat (Ref.at_page 0 "full" 400 50) 23 in
  let ops := protocol_ops B 1 sigs (get_certificate_info B Ref.jan)
               (u "https://github.com/keboola/esignature") in
  (23 <= length (filter (fun p => is_initials p = false) sigs))%nat
  /\ ~ Forall (fun y => (y < 742)%Q) (removelast (text_ys ops))
  /\ last (text_ys ops) = Some (inject_Z 757).
Proof.
  intros B sigs ops.
  destruct (protocol_layout B 1 sigs (get_certificate_info B Ref.jan)
              (u "https://github.com/keboola/esignature"))
    as (Hys & _ & _ & _ & _ & _ & _ & Hnever).
  assert (Hcount : (23 <= length (filter (fun p => is_initials p = false) sigs))%nat)
    by (vm_compute; lia).
  split; [exact Hcount |].
  specialize (Hnever Hcount).
  split.
  - intros Hall. apply Hnever.
    unfold ops in Hall. rewrite Hys, map_app in Hall.
    change (map inject_Z [757]) with [inject_Z 757] in Hall.
    rewrite removelast_last in Hall.
    apply Forall_forall. intros y Hy.
    rewrite Forall_forall in Hall.
    specialize (Hall (inject_Z y)).
    assert (Hlt : (inject_Z y < 742)%Q).
    { apply Hall.
      change (map inject_Z ?l) with (inject_Z <$> l).
      apply list_elem_of_fmap_2. exact Hy. }
    change 742%Q with (inject_Z 742) in Hlt.
    rewrite <- Zlt_Qlt in Hlt. exact Hlt.
  - unfold ops. rewrite Hys, map_app.
    change (map inject_Z [757]) with [inject_Z 757]. apply last_snoc.
Defined.

(** *** [app.py]: the corner position of initials *)

Section InitialsCorner.

Import PrimFloat.

Lemma float_of_small_int (z : Z) :
  -50 <= z <= 50 -> is_ok (B64.float_of_int z) = true.
Proof.
  intros Hz.
  assert (Hall : forallb (fun k => is_ok (B64.float_of_int (-50 + Z.of_nat k)))
                         (seq 0 101) = true) by (vm_compute; reflexivity).
  rewrite forallb_forall in Hall.
  specialize (Hall (Z.to_nat (z + 50))).
  replace (-50 + Z.of_nat (Z.to_nat (z + 50))) with z in Hall by lia.
  apply Hall. apply in_seq. lia.
Qed.

(** X12: the corner position of initials.  [y] is the whole number
    20 + offset_y, whatever the corner and the page.  In the left corner [x]
    is the whole number 20 + offset_x, whatever the page; in any other
    corner it is the float page_width - 50 - 20 + offset_x, computed in this
    order in binary64, so that the call raises only when the offset does not
    convert to a float.  The page height plays no part.  The box leaves the
    page at the bottom, and in the left corner on the left, exactly when the
    offset is below -20.  For the offsets the sliders allow, from -50 to 50,
    the call returns. *)
Theorem initials_position_geometry (corner : str) (page_width page_height : float)
    (offset_x offset_y : Z) :
  let pos := B64.get_initials_position corner page_width page_height offset_x offset_y in
  (corner = u "left" ->
   pos = Ok (B64.Int (20 + offset_x), 20 + offset_y)
   /\ (20 + offset_x < 0 <-> offset_x < -20))
  /\ (corner <> u "left" ->
      pos = (let! dx := B64.float_of_int offset_x in
             Ok (B64.Float (page_width - 50 - 20 + dx)%float, 20 + offset_y)))
  /\ (forall (x : B64.num) (y : Z),
        pos = Ok (x, y) -> y = 20 + offset_y /\ (y < 0 <-> offset_y < -20))
  /\ (forall h : float,
        B64.get_initials_position corner page_width h offset_x offset_y = pos)
  /\ (corner = u "left" ->
      forall w : float,
        B64.get_initials_position corner w page_height offset_x offset_y = pos)
  /\ (-50 <= offset_x <= 50 -> is_ok pos = true).
Proof.
  intros pos. subst pos. unfold B64.get_initials_position.
  split; [| split; [| split; [| split; [| split]]]].
  - intros ->. change (str_eqb (u "left") (u "left")) with true.
    split; [reflexivity | lia].
  - intros Hc. unfold str_eqb. rewrite bool_decide_eq_false_2 by exact Hc.
    destruct (B64.float_of_int offset_x); reflexivity.
  - intros x y.
    destruct (str_eqb corner (u "left")); cbv beta iota zeta delta [rbind].
    + intros [= <- <-]. lia.
    + destruct (B64.float_of_int offset_x); [| discriminate].
      intros [= <- <-]. lia.
  - intros h. reflexivity.
  - intros ->. intros w. reflexivity.
  - intros Hx. destruct (str_eqb corner (u "left")); [reflexivity |].
    pose proof (float_of_small_int offset_x Hx) as Hok.
    destruct (B64.float_of_int offset_x); [reflexivity | discriminate].
Qed.

Lemma initials_position_geometry_witness :
  B64.get_initials_position (u "left") 595 842 (-50) 0 = Ok (B64.Int (-30), 20)
  /\ B64.get_initials_position (u "right") 595 842 (-50) 0 = Ok (B64.Float 475, 20)
  /\ is_ok (B64.get_initials_position (u "right") 595 842 (-50) 0) = true.
Proof.
  destruct (initials_position_geometry (u "left") 595 842 (-50) 0)
    as ([Hleft _] & _); [reflexivity |].
  destruct (initials_position_geometry (u "right") 595 842 (-50) 0)
    as (_ & Hright & _ & _ & _ & Hok).
  split; [exact Hleft |].
  split; [rewrite Hright by (vm_compute; discriminate); vm_compute; reflexivity |].
  apply Hok. lia.
Defined.

End InitialsCorner.

(** *** [app.py]: the boxes of the preview *)






(** *** [app.py]: the "Sign PDF" button *)

Section ButtonFacts.

Context {B : Backend}.

Lemma regular_entry_ok (sig e : placement) :
  App.regular_entry sig = Ok e ->
  button_entry e /\ p_page e = p_page sig /\ p_x e = p_x sig /\ p_y e = p_y sig
  /\ kind_of e = kind_of sig.
Proof.
  unfold App.regular_entry, button_entry, has_coords, kind_of.
  destruct (p_page sig) as [pg|]; [| discriminate].
  destruct (p_x sig) as [x|]; [| discriminate].
  destruct (p_y sig) as [y|]; [| discriminate].
  simpl. intros [= <-]. simpl. repeat split; eauto.
Qed.

Lemma regular_entries_ok (sigs : list placement) :
  forall es, App.regular_entries sigs = Ok es ->
    Forall2 (fun s e => button_entry e /\ p_page e = p_page s /\ p_x e = p_x s
                        /\ p_y e = p_y s /\ kind_of e = kind_of s) sigs es.
Proof.
  induction sigs as [|sig later IH]; intros es.
  - intros [= <-]. constructor.
  - cbn [App.regular_entries].
    destruct (App.regular_entry sig) as [e|] eqn:He; [| discriminate].
    destruct (App.regular_entries later) as [es'|]; [| discriminate].
    simpl. intros [= <-]. constructor; [apply regular_entry_ok; exact He |].
    apply IH. reflexivity.
Qed.

Lemma initials_entry_ok pdf_bytes corner ox oy pg_num e :
  App.initials_entry B pdf_bytes corner ox oy pg_num = Ok e ->
  initials_at B pdf_bytes corner ox oy pg_num e.
Proof.
  unfold App.initials_entry, initials_at.
  destruct (fitz_open B pdf_bytes) as [doc|] eqn:Hopen; [| discriminate].
  cbn [rbind].
  destruct (doc_getitem B doc pg_num) as [[k pg]|] eqn:Hpage; [| discriminate].
  cbn [rbind fst snd].
  destruct (App.get_initials_position corner (rect_width pg) (rect_height pg) ox oy)
    as [ix iy] eqn:Hpos.
  intros [= <-].
  destruct (doc_getitem_lookup B doc pg_num k pg Hpage) as (_ & Hlt & _).
  split; [| split; [reflexivity | split; [reflexivity |]]].
  - unfold button_entry, has_coords. simpl. repeat split; eauto.
  - exists doc, k, pg. rewrite Hpos. simpl. repeat split; assumption.
Qed.

Lemma initials_entries_ok pdf_bytes corner ox oy (pgs : list Z) :
  forall es, App.initials_entries B pdf_bytes corner ox oy pgs = Ok es ->
    Forall2 (initials_at B pdf_bytes corner ox oy) pgs es.
Proof.
  induction pgs as [|pg_num later IH]; intros es.
  - intros [= <-]. constructor.
  - cbn [App.initials_entries].
    destruct (App.initials_entry B pdf_bytes corner ox oy pg_num) as [e|] eqn:He;
      [| discriminate].
    destruct (App.initials_entries B pdf_bytes corner ox oy later) as [es'|];
      [| discriminate].
    simpl. intros [= <-]. constructor; [apply initials_entry_ok; exact He |].
    apply IH. reflexivity.
Qed.

End ButtonFacts.

(** X14: the list the "Sign PDF" button hands to the pipeline holds the
    signatures of the session, in order and with their page, x, y and kind,
    followed by one entry of kind "initials" per selected page, placed by
    [get_initials_position] from the size of that page, whose index was
    found in the document.  Every entry has page, x, y and type and no
    width or height, so the pipeline uses the default size of the kind, the
    size the preview draws.  When the button is enabled the list is not
    empty, so every failure of the signing is reported as
    "Failed to sign PDF: ...". *)
Theorem button_placements (B : Backend)
    (pdf_bytes : buffer B) (p12_bytes : p12_t B) (password : str)
    (sigs : list placement) (initials_pages : list Z) (corner : str)
    (offset_x offset_y : Z) (lock_pdf add_protocol : bool) (all : list placement) :
  App.all_signatures B pdf_bytes sigs initials_pages corner offset_x offset_y = Ok all ->
  (exists regular initials,
     all = regular ++ initials
     /\ Forall2 (fun s e => p_page e = p_page s /\ p_x e = p_x s /\ p_y e = p_y s
                            /\ kind_of e = kind_of s) sigs regular
     /\ Forall2 (initials_at B pdf_bytes corner offset_x offset_y) initials_pages initials)
  /\ length all = (length sigs + length initials_pages)%nat
  /\ Forall button_entry all
  /\ Forall (fun e => resolved_size e = default_size (kind_of e)) all
  /\ (App.has_signatures sigs initials_pages = true ->
      all <> []
      /\ App.sign_button B pdf_bytes p12_bytes password sigs initials_pages corner
           offset_x offset_y lock_pdf add_protocol
         = sign_pdf_multiple B pdf_bytes p12_bytes password all lock_pdf add_protocol
             (u "Electronically signed")
      /\ forall e,
           outcome (App.sign_button B pdf_bytes p12_bytes password sigs initials_pages
                      corner offset_x offset_y lock_pdf add_protocol) = Raise e ->
           exists cause, e = wrap cause).
Proof.
  intros Hall. pose proof Hall as Hall0. unfold App.all_signatures in Hall.
  destruct (App.regular_entries sigs) as [regular|] eqn:Hreg; [| discriminate].
  cbn [rbind] in Hall.
  destruct (App.initials_entries B pdf_bytes corner offset_x offset_y initials_pages)
    as [initials|] eqn:Hini; [| discriminate].
  cbn [rbind] in Hall. injection Hall as <-.
  apply regular_entries_ok in Hreg. apply initials_entries_ok in Hini.
  assert (Hlen : length (regular ++ initials) = (length sigs + length initials_pages)%nat).
  { rewrite length_app, <- (Forall2_length _ _ _ Hreg), <- (Forall2_length _ _ _ Hini).
    reflexivity. }
  assert (Hentries : Forall button_entry (regular ++ initials)).
  { apply Forall_app. split.
    - clear -Hreg. induction Hreg as [|s e ss es He _ IH]; constructor; [apply He | exact IH].
    - clear -Hini. induction Hini as [|s e ss es He _ IH]; constructor; [apply He | exact IH]. }
  split; [| split; [exact Hlen | split; [exact Hentries | split]]].
  - exists regular, initials. split; [reflexivity |]. split; [| exact Hini].
    eapply Forall2_impl; [exact Hreg |]. simpl. intros s e (_ & H). exact H.
  - eapply Forall_impl; [exact Hentries |]. simpl.
    intros e (_ & _ & Hw & Hh). unfold resolved_size. rewrite Hw, Hh.
    destruct (default_size (kind_of e)); reflexivity.
  - intros Hhas.
    assert (Hne : regular ++ initials <> []).
    { intros Hnil. apply (f_equal (@length _)) in Hnil. rewrite Hlen in Hnil.
      simpl in Hnil. unfold App.has_signatures in Hhas.
      assert (Hsigs : length sigs = 0%nat) by lia.
      assert (Hpages : length initials_pages = 0%nat) by lia.
      destruct sigs; [| discriminate]. destruct initials_pages; [| discriminate].
      discriminate. }
    split; [exact Hne |].
    assert (Hbutton : App.sign_button B pdf_bytes p12_bytes password sigs initials_pages
                        corner offset_x offset_y lock_pdf add_protocol
                      = sign_pdf_multiple B pdf_bytes p12_bytes password
                          (regular ++ initials) lock_pdf add_protocol
                          (u "Electronically signed")).
    { unfold App.sign_button. rewrite Hall0. reflexivity. }
    split; [exact Hbutton |].
    intros e He. rewrite Hbutton in He.
    pose proof (run_case_holds pdf_bytes p12_bytes password (regular ++ initials)
                  lock_pdf add_protocol (u "Electronically signed")) as Hcase.
    destruct Hcase; simpl in He; try congruence;
      injection He as <-; eexists; reflexivity.
Qed.

Lemma button_placements_witness :
  let B := Ref.backend true in
  exists all,
    App.all_signatures B (Ref.blank 2) [Ref.at_page 0 "full" 400 50] [1] (u "right") 0 0
    = Ok all
    /\ App.has_signatures [Ref.at_page 0 "full" 400 50] [1] = true
    /\ length all = 2%nat
    /\ all <> []
    /\ Forall (fun e => resolved_size e = default_size (kind_of e)) all.
Proof.
  intros B. eexists. split; [vm_compute; reflexivity |].
  split; [reflexivity |].
  destruct (button_placements B (Ref.blank 2) Ref.p12 (u "secret")
              [Ref.at_page 0 "full" 400 50] [1] (u "right") 0 0 false true _ eq_refl)
    as (_ & Hlen & _ & Hsize & Hbutton).
  destruct (Hbutton eq_refl) as (Hne & _).
  split; [exact Hlen |]. split; [exact Hne | exact Hsize].
Defined.

(** X15: [get_pdf_page_count] raises exactly when the file cannot be
    opened, and otherwise returns the number of pages, which is not negative.
    With a library that reads back what it saved, adding the protocol page
    makes the count one larger and rendering a mark leaves it as it was. *)
Theorem page_count_after_stages (B : Backend) (pdf_bytes : buffer B) :
  is_ok (App.get_pdf_page_count B pdf_bytes) = is_ok (fitz_open B pdf_bytes)
  /\ (forall e, fitz_open B pdf_bytes = Raise e ->
        App.get_pdf_page_count B pdf_bytes = Raise e)
  /\ (forall doc, fitz_open B pdf_bytes = Ok doc ->
        App.get_pdf_page_count B pdf_bytes = Ok (Z.of_nat (length (pages doc))))
  /\ (forall n : Z,
        (forall d : document (rest_t B), fitz_open B (fitz_save B d) = Ok d) ->
        App.get_pdf_page_count B pdf_bytes = Ok n ->
        0 <= n
        /\ (forall sigs signer_name cert_info github_url out,
              create_protocol_page B pdf_bytes sigs signer_name cert_info github_url = Ok out ->
              App.get_pdf_page_count B out = Ok (n + 1))
        /\ (forall page_num x y width height signer_name kind font_path out,
              render_signature_appearance B pdf_bytes page_num x y width height
                signer_name kind font_path = Ok out ->
              App.get_pdf_page_count B out = Ok n)).
Proof.
  unfold App.get_pdf_page_count.
  destruct (fitz_open B pdf_bytes) as [doc|e0] eqn:Hopen; cbn [rbind].
  2:{ split; [reflexivity |]. split; [intros e [= <-]; reflexivity |].
      split; [intros doc [=] |]. intros n _ [=]. }
  split; [reflexivity |]. split; [intros e [=] |].
  split; [intros doc' [= <-]; reflexivity |].
  intros n Hback [= <-].
  split; [unfold doc_len; lia |]. split.
  - intros sigs signer_name cert_info github_url out.
    unfold create_protocol_page. rewrite Hopen. cbv beta iota zeta delta [rbind].
    intros [= <-]. rewrite Hback. cbn [rbind]. f_equal.
    unfold doc_len, draw_on, new_page. cbn [pages].
    rewrite length_alter, length_app. simpl. lia.
  - intros page_num x y width height signer_name kind font_path out.
    unfold render_signature_appearance. rewrite Hopen. cbv beta iota zeta delta [rbind].
    destruct (doc_getitem B doc page_num) as [kp|]; [| discriminate].
    intros [= <-]. rewrite Hback. cbn [rbind]. f_equal.
    unfold doc_len, draw_on. cbn [pages]. rewrite length_alter. reflexivity.
Qed.

Lemma page_count_after_stages_witness :
  let B := Ref.backend true in
  (forall d : document (rest_t B), fitz_open B (fitz_save B d) = Ok d)
  /\ App.get_pdf_page_count B (Ref.blank 2) = Ok 2
  /\ exists out,
       create_protocol_page B (Ref.blank 2) Ref.two_marks (u "Jan")
         (get_certificate_info B Ref.jan) None = Ok out
       /\ App.get_pdf_page_count B out = Ok 3.
Proof.
  intros B. split; [reflexivity |]. split; [reflexivity |].
  destruct (page_count_after_stages B (Ref.blank 2)) as (_ & _ & _ & Hcount).
  destruct (Hcount 2 (fun d => eq_refl) eq_refl) as (_ & Hproto & _).
  eexists. split; [vm_compute; reflexivity |].
  apply (Hproto Ref.two_marks (u "Jan") (get_certificate_info B Ref.jan) None).
  vm_compute. reflexivity.
Defined.

(** *** The serial number of the certificate *)

Lemma below_16 (P : N -> Prop) :
  Forall P (map N.of_nat (seq 0 16)) -> forall d : N, (d < 16)%N -> P d.
Proof.
  intros Hall d Hd. rewrite Forall_forall in Hall. apply Hall.
  apply list_elem_of_In. rewrite <- (N2Nat.id d). apply in_map.
  apply in_seq. lia.
Qed.

Lemma hex_digit_decodes (d : N) :
  (d < 16)%N ->
  hex_digit_value (hex_digit d) = Some d
  /\ is_hex_upper (hex_digit d) = true
  /\ (d <> 0%N -> hex_digit d <> 48%N).
Proof.
  revert d. apply below_16.
  refine (bool_decide_unpack _ _). vm_compute. exact I.
Qed.

Lemma hex_value_go_snoc (l : str) (c : N) :
  forall a : N,
    hex_value_go a (l ++ [c])
    = match hex_value_go a l with
      | Some v =>
        match hex_digit_value c with
        | Some d => Some (v * 16 + d)%N
        | None => None
        end
      | None => None
      end.
Proof.
  induction l as [|x l IH]; intros a; simpl.
  - destruct (hex_digit_value c); reflexivity.
  - destruct (hex_digit_value x); [apply IH | reflexivity].
Qed.

Lemma hex_go_decodes (fuel : nat) :
  forall (n : N) (acc : str),
    (n < 2 ^ N.of_nat fuel)%N ->
    exists digs : str,
      hex_go fuel n acc = digs ++ acc
      /\ hex_value_go 0 digs = Some n
      /\ (n <> 0%N -> digs <> [])
      /\ head digs <> Some 48%N
      /\ Forall (fun c => is_hex_upper c = true) digs.
Proof.
  induction fuel as [|fuel IH]; intros n acc Hn.
  - exists []. simpl in *. assert (n = 0%N) by lia. subst n.
    repeat split; try discriminate; try congruence. constructor.
  - cbn [hex_go]. destruct (N.eqb_spec n 0) as [->|Hnz].
    + exists []. repeat split; try discriminate; try congruence. constructor.
    + assert (Hdiv : (n / 16 < 2 ^ N.of_nat fuel)%N).
      { apply N.Div0.div_lt_upper_bound.
        rewrite Nat2N.inj_succ, N.pow_succ_r' in Hn. lia. }
      destruct (IH (n / 16)%N (hex_digit (n mod 16) :: acc) Hdiv)
        as (digs & Hgo & Hval & Hne & Hhead & Hall).
      assert (Hmod : (n mod 16 < 16)%N) by (apply N.mod_lt; discriminate).
      destruct (hex_digit_decodes (n mod 16)%N Hmod) as (Hdec & Hup & Hnz48).
      exists (digs ++ [hex_digit (n mod 16)]).
      split; [rewrite Hgo, <- app_assoc; reflexivity |].
      split; [| split; [| split]].
      * rewrite hex_value_go_snoc, Hval, Hdec. f_equal.
        rewrite (N.div_mod n 16) at 3 by discriminate. lia.
      * intros _ H. apply app_eq_nil in H as [_ H]. discriminate.
      * destruct digs as [|c digs]; [| exact Hhead].
        simpl. intros [= H48]. apply Hnz48; [| exact H48].
        simpl in Hval. injection Hval as Hq.
        intros Hm. apply Hnz.
        rewrite (N.div_mod n 16) by discriminate. lia.
      * apply Forall_app. split; [exact Hall |]. repeat constructor. exact Hup.
Qed.

Lemma format_X_digits (z : Z) :
  z <> 0 ->
  exists digs : str,
    format_X z = (if z <? 0 then u "-" else []) ++ digs
    /\ hex_value digs = Some (Z.abs_N z)
    /\ head digs <> Some 48%N
    /\ Forall (fun c => is_hex_upper c = true) digs.
Proof.
  intros Hz. unfold format_X.
  assert (Hnz : Z.abs_N z <> 0%N) by lia.
  destruct (N.eqb_spec (Z.abs_N z) 0) as [H0|_]; [congruence |].
  destruct (hex_go_decodes (N.to_nat (N.size (Z.abs_N z))) (Z.abs_N z) [])
    as (digs & Hgo & Hval & Hne & Hhead & Hall).
  { rewrite N2Nat.id. apply N.size_gt. }
  rewrite Hgo, app_nil_r. exists digs.
  split; [destruct (z <? 0); reflexivity |].
  split; [| split; assumption].
  unfold hex_value. destruct digs as [|c digs]; [exfalso; apply (Hne Hnz); reflexivity |].
  exact Hval.
Qed.

(** X16: the serial number in the record of [get_certificate_info] is empty
    for the serial 0.  For any other serial it is the magnitude of the serial
    in upper-case hexadecimal, without prefix and without leading zero, after
    a minus sign when the serial is negative.  So the text of a positive
    serial read in base 16 gives the serial back, and the text of a negative
    serial is no hexadecimal numeral: only what follows its minus sign is,
    and reads as the magnitude.  When the certificate cannot be read, every
    field is empty except the two names, which are "Unknown". *)
Theorem serial_number_in_hex (B : Backend) (signer : signer_t B) :
  (forall cert : certificate,
     signing_cert B signer = Ok cert ->
     let shown := ci_serial_number (get_certificate_info B signer) in
     (serial_number cert = 0 -> shown = [])
     /\ (serial_number cert <> 0 ->
         exists digs : str,
           shown = (if serial_number cert <? 0 then [45%N] else []) ++ digs
           /\ hex_value digs = Some (Z.abs_N (serial_number cert))
           /\ head digs <> Some 48%N
           /\ Forall (fun c => is_hex_upper c = true) digs)
     /\ (0 < serial_number cert ->
         hex_value shown = Some (Z.to_N (serial_number cert))
         /\ head shown <> Some 48%N
         /\ Forall (fun c => is_hex_upper c = true) shown)
     /\ (serial_number cert < 0 -> hex_value shown = None))
  /\ (is_ok (signing_cert B signer) = false ->
      get_certificate_info B signer
      = {| subject_cn := u "Unknown"; subject_org := []; subject_country := [];
           issuer_cn := u "Unknown"; issuer_org := [];
           valid_from := []; valid_to := []; ci_serial_number := [] |}).
Proof.
  split.
  - intros cert Hcert shown. subst shown.
    unfold get_certificate_info. rewrite Hcert. cbn [ci_serial_number].
    destruct (Z.eqb_spec (serial_number cert) 0) as [H0|Hnz].
    { split; [reflexivity |]. split; [intros H; contradiction |].
      split; intros H; lia. }
    split; [intros H; contradiction |].
    destruct (format_X_digits (serial_number cert) Hnz) as (digs & Heq & Hval & Hhead & Hall).
    rewrite Heq. split; [| split].
    + intros _. exists digs. repeat split; assumption.
    + intros Hpos.
      replace (serial_number cert <? 0) with false by (symmetry; apply Z.ltb_ge; lia).
      cbn [app]. replace (Z.to_N (serial_number cert)) with (Z.abs_N (serial_number cert)) by lia.
      split; [exact Hval | split; assumption].
    + intros Hneg.
      replace (serial_number cert <? 0) with true by (symmetry; apply Z.ltb_lt; lia).
      reflexivity.
  - unfold get_certificate_info.
    destruct (signing_cert B signer); [discriminate | reflexivity].
Qed.

Lemma serial_number_in_hex_witness :
  let B := Ref.backend true in
  let minus :=
    {| subject := subject Ref.jan; issuer := issuer Ref.jan;
       not_valid_before := None; not_valid_after := None;
       serial_number := -255 |} in
  (signing_cert B Ref.jan = Ok Ref.jan
   /\ 0 < serial_number Ref.jan
   /\ ci_serial_number (get_certificate_info B Ref.jan) = u "BEEF"
   /\ hex_value (ci_serial_number (get_certificate_info B Ref.jan)) = Some 48879%N)
  /\ (signing_cert B minus = Ok minus
      /\ serial_number minus < 0
      /\ ci_serial_number (get_certificate_info B minus) = u "-FF"
      /\ hex_value (ci_serial_number (get_certificate_info B minus)) = None).
Proof.
  intros B minus. split.
  - split; [reflexivity |]. split; [reflexivity |].
    split; [vm_compute; reflexivity |].
    destruct (serial_number_in_hex B Ref.jan) as [Hshown _].
    destruct (Hshown Ref.jan eq_refl) as (_ & _ & Hpos & _).
    destruct (Hpos eq_refl) as [Hval _]. exact Hval.
  - split; [reflexivity |]. split; [reflexivity |].
    split; [vm_compute; reflexivity |].
    destruct (serial_number_in_hex B minus) as [Hshown _].
    destruct (Hshown minus eq_refl) as (_ & _ & _ & Hneg).
    exact (Hneg eq_refl).
Defined.

(** X17: a call of the legacy [sign_pdf] that returns has loaded the
    signer, rendered one full mark of the width and height it was given
    (150 and 50 when left out) on the given page and position, and signed
    one field "Signature_1" with the box of that size there; it adds no
    protocol page and does not lock. *)
Theorem sign_pdf_one_field (B : Backend)
    (pdf_bytes : buffer B) (p12_bytes : p12_t B) (p12_password : str)
    (page_number : Z) (x y : Q) (width height : option Q)
    (reason custom_text : option str) (out : buffer B) :
  let run := sign_pdf B pdf_bytes p12_bytes p12_password page_number x y
               width height reason custom_text in
  let w := default 150%Q width in
  let h := default 50%Q height in
  outcome run = Ok out ->
  exists (signer : signer_t B) (rendered : buffer B),
    trace run
    = [EvLoadSigner signer;
       EvRender pdf_bytes page_number x y w h (get_signer_name_from_signer B signer)
         (u "full") rendered;
       EvSign rendered
         {| field_name := u "Signature_1";
            md_reason := default (u "Electronically signed") reason;
            md_location := [] |}
         create_minimal_stamp_style
         {| sig_field_name := u "Signature_1";
            box := (x, y, x + w, y + h)%Q;
            on_page := page_number |}
         out].
Proof.
  intros run w h Hok. subst run. unfold sign_pdf in *.
  apply run_pair in Hok. apply run_structure in Hok.
  destruct Hok as (signer & b0 & body & bN & _ & Hproto & Hchain & Hlock & Ht).
  simpl in Hproto, Hlock. subst b0 out.
  rewrite Ht. unfold run_events. cbn [app].
  inversion Hchain as [|i b sig later t out' pg x' y' rendered signed
                        Hp Hx Hy Hr Hs Hrest]; subst.
  inversion Hrest; subst.
  simpl in Hp, Hx, Hy. injection Hp as <-. injection Hx as <-. injection Hy as <-.
  exists signer, rendered. reflexivity.
Qed.

Lemma sign_pdf_one_field_witness :
  let B := Ref.backend true in
  let run := sign_pdf B (Ref.blank 1) Ref.p12 (u "secret") 0 400 50 None None None None in
  exists out : Ref.file,
    outcome run = Ok out
    /\ map stage_of (trace run) = [SLoad; SRender; SSign]
    /\ Ref.sig_fields (doc_rest out) = [u "Signature_1"].
Proof.
  intros B run. eexists. split; [vm_compute; reflexivity |].
  destruct (sign_pdf_one_field B (Ref.blank 1) Ref.p12 (u "secret") 0 400 50
              None None None None _ eq_refl) as (signer & rendered & Ht).
  split; [unfold run; rewrite Ht; reflexivity | reflexivity].
Defined.
